(** * Airtable MCP server: the tool envelope and error normalisation

    A shallow embedding of [airtable_mcp_server.py]: the [AirtableClient]
    transport methods, the lazily created global client, and the seventeen
    tool entry points, followed by the properties of the response envelope.

    Python values are embedded as [pyval]; a [str] is a Rocq [string] whose
    characters are code points below 256.  The effects of the program (the
    module global [airtable_client], the requests put on the wire, raised
    exceptions) are threaded through the monad [M].  The Python library
    functions the program calls ([json.loads], [hash], [str] on containers,
    the [requests] verbs) are parameters of the development. *)

From Stdlib Require Import String Ascii List ZArith Bool Lia DecimalString.
Import ListNotations.
Open Scope string_scope.
Set Warnings "-register-all".

(* ------------------------------------------------------------------ *)
(** ** Strings *)

Module Str.

(** [str.isspace] on one character, for code points below 256. *)
Definition isspace (c : ascii) : bool :=
  let n := nat_of_ascii c in
  (((9 <=? n) && (n <=? 13)) || ((28 <=? n) && (n <=? 32))
   || (n =? 133) || (n =? 160))%nat.

Fixpoint lstrip (s : string) : string :=
  match s with
  | EmptyString => EmptyString
  | String c s' => if isspace c then lstrip s' else s
  end.

Fixpoint rstrip (s : string) : string :=
  match s with
  | EmptyString => EmptyString
  | String c s' =>
      match rstrip s' with
      | EmptyString => if isspace c then EmptyString else String c EmptyString
      | r => String c r
      end
  end.

(** [s.strip()] *)
Definition strip (s : string) : string := rstrip (lstrip s).

(** Truth value of a [str]: false exactly for the empty string. *)
Definition truthy (s : string) : bool :=
  match s with EmptyString => false | String _ _ => true end.

(** The test [not s or not s.strip()] that guards every required
    parameter. *)
Definition blank (s : string) : bool :=
  negb (truthy s) || negb (truthy (strip s)).

(** [sep.join(parts)] *)
Definition join (sep : string) (parts : list string) : string :=
  String.concat sep parts.

(** [needle in haystack] *)
Fixpoint contains (needle haystack : string) : bool :=
  String.prefix needle haystack
  || match haystack with
     | EmptyString => false
     | String _ rest => contains needle rest
     end.

(** A decimal numeral, as an f-string prints an [int]. *)
Definition of_Z (z : Z) : string := NilZero.string_of_int (Z.to_int z).
Definition of_nat (n : nat) : string := NilZero.string_of_uint (Nat.to_uint n).

Definition newline : string := String "010"%char EmptyString.
Definition dquote : string := String "034"%char EmptyString.

End Str.

(* ------------------------------------------------------------------ *)
(** ** Python values *)

(** The values that cross the tool boundary: what [json.loads] and
    [response.json()] produce, and what the envelope carries.  A [dict] is
    an association list in insertion order with string keys. *)
Inductive pyval : Type :=
| PyNone
| PyBool (b : bool)
| PyInt (z : Z)
| PyFloat (repr : string)
| PyStr (s : string)
| PyList (l : list pyval)
| PyDict (d : list (string * pyval)).

Definition dict : Type := list (string * pyval).

Fixpoint dict_lookup (d : dict) (k : string) : option pyval :=
  match d with
  | [] => None
  | (k', v) :: d' => if String.eqb k k' then Some v else dict_lookup d' k
  end.

(** [d[k] = v] *)
Fixpoint dict_set (d : dict) (k : string) (v : pyval) : dict :=
  match d with
  | [] => [(k, v)]
  | (k', v') :: d' =>
      if String.eqb k k' then (k', v) :: d' else (k', v') :: dict_set d' k v
  end.

(** [k in d] *)
Definition dict_mem (k : string) (d : dict) : bool :=
  match dict_lookup d k with Some _ => true | None => false end.

(** [isinstance(v, dict)], [isinstance(v, list)], [isinstance(v, str)] *)
Definition is_dict (v : pyval) : bool :=
  match v with PyDict _ => true | _ => false end.
Definition is_list (v : pyval) : bool :=
  match v with PyList _ => true | _ => false end.
Definition is_str (v : pyval) : bool :=
  match v with PyStr _ => true | _ => false end.

(** [type(v).__name__] *)
Definition type_name (v : pyval) : string :=
  match v with
  | PyNone => "NoneType"
  | PyBool _ => "bool"
  | PyInt _ => "int"
  | PyFloat _ => "float"
  | PyStr _ => "str"
  | PyList _ => "list"
  | PyDict _ => "dict"
  end.

(** [v == 'literal'] *)
Definition eq_str (v : pyval) (lit : string) : bool :=
  match v with PyStr s => String.eqb s lit | _ => false end.

(* ------------------------------------------------------------------ *)
(** ** Exceptions *)

(** The exceptions that can travel through a tool.  [AirtableAPIError] is
    the class of the program; its fields hold whatever the upstream body
    carried.  [ExceptionOther] stands for any further class derived from
    [Exception], with [str(e)]; [BaseExceptionOther] for one derived from
    [BaseException] only ([KeyboardInterrupt], [SystemExit]), with the
    name of its class. *)
Inductive exn : Type :=
| AirtableAPIError (error_type message : pyval) (status_code : Z)
| ValueError (text : string)
| AttributeError (text : string)
| TypeError (text : string)
| ExceptionOther (text : string)
| BaseExceptionOther (text : string).

(** [isinstance(e, Exception)] *)
Definition is_Exception (e : exn) : bool :=
  match e with BaseExceptionOther _ => false | _ => true end.

Inductive outcome (A : Type) : Type :=
| Return (a : A)
| Raise (e : exn).
Arguments Return {A} a.
Arguments Raise {A} e.

(* ------------------------------------------------------------------ *)
(** ** The wire *)

Inductive http_method : Type := GET | POST | PATCH | DELETE.

(** One call of [requests.get/post/patch/delete]. *)
Record Request : Type := {
  req_method : http_method;
  req_url : string;
  req_headers : dict;
  req_params : dict;
  req_json : option pyval;
  req_timeout : Z
}.

(** What the [try] block of a client method observes, by the clause that
    handles it:
    - [HttpOk body]: [raise_for_status()] passes and [response.json()]
      returns [body];
    - [HttpError status body text]: [raise_for_status()] raises
      [HTTPError e] with [e.response.status_code = status],
      [e.response.json()] returning [body] ([None] when it raises) and
      [str(e) = text];
    - [RequestFailed text]: a [RequestException] that is not an
      [HTTPError] (connection, DNS, timeout), with [str(e) = text];
    - [Escapes e]: anything else raised inside the [try]. *)
Inductive http_outcome : Type :=
| HttpOk (body : pyval)
| HttpError (status : Z) (body : option pyval) (text : string)
| RequestFailed (text : string)
| Escapes (e : exn).

(** What [json.loads] does on a string: a value, or [JSONDecodeError e]
    with [str(e) = text]. *)
Inductive loads_result : Type :=
| Decoded (v : pyval)
| JSONDecodeError (text : string).

(* ------------------------------------------------------------------ *)
(** ** The client object and the process state *)

Record AirtableClient : Type := {
  api_key : string;
  base_url : string;
  headers : dict
}.

(** [AirtableClient.__init__] *)
Definition AirtableClient_init (key : string) : AirtableClient :=
  {| api_key := key;
     base_url := "https://api.airtable.com/v0";
     headers := [("Authorization", PyStr ("Bearer " ++ key));
                 ("Content-Type", PyStr "application/json")] |}.

(** The state a tool runs in: the environment variable read by
    [os.getenv], the module global [airtable_client], and the requests
    issued so far (most recent first). *)
Record process : Type := {
  environ_AIRTABLE_API_KEY : option string;
  airtable_client : option AirtableClient;
  network_log : list Request
}.

Definition set_client (c : AirtableClient) (p : process) : process :=
  {| environ_AIRTABLE_API_KEY := environ_AIRTABLE_API_KEY p;
     airtable_client := Some c;
     network_log := network_log p |}.

Definition log_request (r : Request) (p : process) : process :=
  {| environ_AIRTABLE_API_KEY := environ_AIRTABLE_API_KEY p;
     airtable_client := airtable_client p;
     network_log := r :: network_log p |}.

(** State and exceptions; the state survives a raise. *)
Definition M (A : Type) : Type := process -> outcome A * process.

Definition ret {A} (a : A) : M A := fun p => (Return a, p).
Definition raise {A} (e : exn) : M A := fun p => (Raise e, p).
Definition bind {A B} (m : M A) (f : A -> M B) : M B :=
  fun p =>
    match m p with
    | (Return a, p') => f a p'
    | (Raise e, p') => (Raise e, p')
    end.

(** [try: body except ...: handler] *)
Definition try_except {A} (body : M A) (handler : exn -> M A) : M A :=
  fun p =>
    match body p with
    | (Return a, p') => (Return a, p')
    | (Raise e, p') => handler e p'
    end.

Declare Scope py_scope.
Delimit Scope py_scope with py.
Notation "x <- m ;; k" := (bind m (fun x => k))
  (at level 100, m at next level, right associativity) : py_scope.
Open Scope py_scope.

(** [get_airtable_client] *)
Definition get_airtable_client : M AirtableClient :=
  fun p =>
    match airtable_client p with
    | Some c => (Return c, p)
    | None =>
        let key := environ_AIRTABLE_API_KEY p in
        match key with
        | Some k =>
            if Str.truthy k
            then let c := AirtableClient_init k in (Return c, set_client c p)
            else (Raise (ValueError "AIRTABLE_API_KEY environment variable is required"), p)
        | None =>
            (Raise (ValueError "AIRTABLE_API_KEY environment variable is required"), p)
        end
    end.

(* ------------------------------------------------------------------ *)
(** ** Reference scenarios

    Concrete instances of the parameters of the program, used to run the
    tools on explicit inputs. *)

Module Scenario.

(** No credential in the environment and no client created yet. *)
Definition unconfigured : process :=
  {| environ_AIRTABLE_API_KEY := None;
     airtable_client := None;
     network_log := [] |}.

(** A credential in the environment, the client not created yet. *)
Definition configured : process :=
  {| environ_AIRTABLE_API_KEY := Some "patTEST";
     airtable_client := None;
     network_log := [] |}.

(** The same process after [get_airtable_client] has run once. *)
Definition ready : process :=
  set_client (AirtableClient_init "patTEST") configured.

Definition hash (s : string) : Z := Z.of_nat (String.length s) * 7919 + 104729.

Definition repr (v : pyval) : string :=
  match v with PyList _ => "[...]" | _ => "{...}" end.

(** The upstream answers every request with 401 and the body
    [{error: {type: INVALID_API_KEY, message: bad key}}]. *)
Definition unauthorized_body : pyval :=
  PyDict [("error", PyDict [("type", PyStr "INVALID_API_KEY");
                            ("message", PyStr "bad key")])].

Definition unauthorized (_ : Request) : http_outcome :=
  HttpError 401 (Some unauthorized_body)
    "401 Client Error: Unauthorized for url: https://api.airtable.com/v0".

(** No HTTP response at all. *)
Definition unreachable (_ : Request) : http_outcome :=
  RequestFailed "Connection refused".

(** The call is interrupted from the keyboard. *)
Definition interrupted (_ : Request) : http_outcome :=
  Escapes (BaseExceptionOther "KeyboardInterrupt").

(** The body of a 200 response is not JSON and the decoder's exception
    is not a [RequestException] (as with older [requests]). *)
Definition garbled (_ : Request) : http_outcome :=
  Escapes (ExceptionOther "Expecting value: line 1 column 1 (char 0)").

(** The upstream answers every request with 200 and [{records: []}]. *)
Definition answering (_ : Request) : http_outcome :=
  HttpOk (PyDict [("records", PyList [])]).

(** JSON text of an array of strings. *)
Definition array_text (items : list string) : string :=
  "[" ++ Str.join "," (map (fun i => Str.dquote ++ i ++ Str.dquote) items) ++ "]".

(** The text [[{name: T, fields: []}]] with its quotes. *)
Definition one_table_text : string :=
  "[{" ++ Str.dquote ++ "name" ++ Str.dquote ++ ":" ++ Str.dquote ++ "T"
    ++ Str.dquote ++ "," ++ Str.dquote ++ "fields" ++ Str.dquote ++ ":[]}]".

Definition one_table : pyval :=
  PyList [PyDict [("name", PyStr "T"); ("fields", PyList [])]].

Definition ten_ids : list string :=
  ["rec0"; "rec1"; "rec2"; "rec3"; "rec4"; "rec5"; "rec6"; "rec7"; "rec8"; "rec9"].

(** [json.loads] on the texts the scenarios use; any other text is
    answered like the empty document. *)
Definition loads (s : string) : loads_result :=
  if String.eqb s one_table_text then Decoded one_table
  else if String.eqb s "[{}]" then Decoded (PyList [PyDict []])
  else if String.eqb s "[]" then Decoded (PyList [])
  else if String.eqb s "{}" then Decoded (PyDict [])
  else if String.eqb s "[1,2,3,4,5,6,7,8,9,10,11]" then
    Decoded (PyList (map PyInt [1; 2; 3; 4; 5; 6; 7; 8; 9; 10; 11]%Z))
  else if String.eqb s (array_text ["rec1"]) then Decoded (PyList [PyStr "rec1"])
  else if String.eqb s (array_text ten_ids) then Decoded (PyList (map PyStr ten_ids))
  else if String.eqb s (array_text [" "]) then Decoded (PyList [PyStr " "])
  else if String.eqb s "{bad" then
    JSONDecodeError "Expecting property name enclosed in double quotes: line 1 column 2 (char 1)"
  else JSONDecodeError "Expecting value: line 1 column 1 (char 0)".

(** The upstream answers every request with 403 and the body
    [{error: {type: INVALID_PERMISSIONS_OR_MODEL_NOT_FOUND, message: ...}}]. *)
Definition forbidden (_ : Request) : http_outcome :=
  HttpError 403
    (Some (PyDict [("error",
                    PyDict [("type", PyStr "INVALID_PERMISSIONS_OR_MODEL_NOT_FOUND");
                            ("message", PyStr "Invalid permissions, or the requested model was not found.")])]))
    "403 Client Error: Forbidden for url: https://api.airtable.com/v0".

(** The upstream answers every request with 404 and the body
    [{error: NOT_FOUND}], whose error is a bare string. *)
Definition not_found (_ : Request) : http_outcome :=
  HttpError 404 (Some (PyDict [("error", PyStr "NOT_FOUND")]))
    "404 Client Error: Not Found for url: https://api.airtable.com/v0".

(** The upstream answers every request with 200 and an empty array. *)
Definition listing (_ : Request) : http_outcome := HttpOk (PyList []).

(** The text [[{name: A, type: singleLineText}, {}, 7]] with its quotes:
    a well-formed field, then two entries to refuse. *)
Definition mixed_fields_text : string :=
  "[{" ++ Str.dquote ++ "name" ++ Str.dquote ++ ":" ++ Str.dquote ++ "A"
    ++ Str.dquote ++ "," ++ Str.dquote ++ "type" ++ Str.dquote ++ ":"
    ++ Str.dquote ++ "singleLineText" ++ Str.dquote ++ "},{},7]".

Definition mixed_fields : list pyval :=
  [PyDict [("name", PyStr "A"); ("type", PyStr "singleLineText")];
   PyDict []; PyInt 7].

(** The text [[{name: T, fields: []}, {}, 7]] with its quotes. *)
Definition mixed_tables_text : string :=
  "[{" ++ Str.dquote ++ "name" ++ Str.dquote ++ ":" ++ Str.dquote ++ "T"
    ++ Str.dquote ++ "," ++ Str.dquote ++ "fields" ++ Str.dquote ++ ":[]},{},7]".

Definition mixed_tables : list pyval :=
  [PyDict [("name", PyStr "T"); ("fields", PyList [])]; PyDict []; PyInt 7].

(** [json.loads] on the two texts above, and as [loads] elsewhere. *)
Definition loads_mixed (s : string) : loads_result :=
  if String.eqb s mixed_fields_text then Decoded (PyList mixed_fields)
  else if String.eqb s mixed_tables_text then Decoded (PyList mixed_tables)
  else loads s.

End Scenario.

(* ------------------------------------------------------------------ *)
(** ** The program *)

Section Program.

(** [json.loads] on a [str]. *)
Variable json_loads : string -> loads_result.
(** The builtin [hash] on a [str]. *)
Variable py_hash : string -> Z.
(** [str(v)] for a list or a dict. *)
Variable repr_container : pyval -> string.
(** The outcome of one [requests] call with a ten second timeout. *)
Variable requests_send : Request -> http_outcome.

(** [str(v)], the conversion an f-string applies. *)
Definition py_format (v : pyval) : string :=
  match v with
  | PyNone => "None"
  | PyBool true => "True"
  | PyBool false => "False"
  | PyInt z => Str.of_Z z
  | PyFloat r => r
  | PyStr s => s
  | PyList _ | PyDict _ => repr_container v
  end.

(** [str(e)], as the handlers of the tools print it.
    [AirtableAPIError.__init__] hands the text
    [Airtable API Error ({error_type}): {message}] to [Exception]. *)
Definition str_exn (e : exn) : string :=
  match e with
  | AirtableAPIError error_type message _ =>
      "Airtable API Error (" ++ py_format error_type ++ "): " ++ py_format message
  | ValueError t | AttributeError t | TypeError t
  | ExceptionOther t | BaseExceptionOther t => t
  end.

(** [v.get(k, default)] *)
Definition py_get (v : pyval) (k : string) (default : pyval) : M pyval :=
  match v with
  | PyDict d =>
      ret (match dict_lookup d k with Some x => x | None => default end)
  | _ => raise (AttributeError
                  ("'" ++ type_name v ++ "' object has no attribute 'get'"))
  end.

(** [len(v)] *)
Definition py_len (v : pyval) : M nat :=
  match v with
  | PyList l => ret (length l)
  | PyDict d => ret (length d)
  | PyStr s => ret (String.length s)
  | _ => raise (TypeError
                  ("object of type '" ++ type_name v ++ "' has no len()"))
  end.

(** *** Transport client *)

(** The [except HTTPError as e] block of a network method: the body of
    the error response, when it decodes, supplies the kind and the
    message. *)
Definition except_HTTPError (status : Z) (body : option pyval)
    (text : string) : M pyval :=
  let error_response :=
    match body with Some v => v | None => PyDict [] end in
  e1 <- py_get error_response "error" (PyDict []) ;;
  error_code <- py_get e1 "type" (PyStr "unknown_error") ;;
  e2 <- py_get error_response "error" (PyDict []) ;;
  error_message <- py_get e2 "message" (PyStr text) ;;
  raise (AirtableAPIError error_code error_message status).

(** The [try]/[except HTTPError]/[except RequestException] block that
    closes every network method of [AirtableClient]; the sixteen copies
    in the source differ in the request only. *)
Definition AirtableClient_request (req : Request) : M pyval :=
  fun p =>
    let p' := log_request req p in
    match requests_send req with
    | HttpOk body => (Return body, p')
    | HttpError status body text => except_HTTPError status body text p'
    | RequestFailed text =>
        (Raise (AirtableAPIError (PyStr "network_error")
                  (PyStr ("Network error: " ++ text)) 0), p')
    | Escapes e => (Raise e, p')
    end.

Definition mk_request (self : AirtableClient) (m : http_method)
    (url : string) (params : dict) (body : option pyval) : Request :=
  {| req_method := m; req_url := url; req_headers := headers self;
     req_params := params; req_json := body; req_timeout := 10 |}.

(** [AirtableClient.create_base]: no request is made. *)
Definition AirtableClient_create_base (self : AirtableClient)
    (name : string) (tables : list pyval) (workspace_id : string) : M pyval :=
  ret (PyDict
    [("base", PyDict [("id", PyStr ("app" ++ Str.of_Z (py_hash name mod 1000000)));
                      ("name", PyStr name);
                      ("permissionLevel", PyStr "create")]);
     ("message", PyStr "Base configuration validated successfully. Note: Airtable API does not support programmatic base creation. This configuration can be used to manually create the base in the Airtable interface.")]).

Definition create_comment_request (self : AirtableClient)
    (base_id record_id table_id_or_name text : string) : Request :=
  mk_request self POST
    (base_url self ++ "/" ++ base_id ++ "/" ++ table_id_or_name ++ "/"
       ++ record_id ++ "/comments")
    [] (Some (PyDict [("text", PyStr text)])).

Definition AirtableClient_create_comment self base_id record_id
    table_id_or_name text : M pyval :=
  AirtableClient_request
    (create_comment_request self base_id record_id table_id_or_name text).

(** The field types for which [create_field] forwards [options]. *)
Definition option_field_types : list string :=
  ["singleSelect"; "multipleSelects"; "number"; "date"; "dateTime";
   "checkbox"; "rating"; "currency"; "percent"; "phoneNumber"; "email";
   "url"; "multilineText"; "richText"; "attachment"; "barcode"; "rollup";
   "lookup"; "formula"; "button"; "autoNumber"; "createdTime";
   "lastModifiedTime"; "createdBy"; "lastModifiedBy"].

Definition truthy_dict (d : dict) : bool :=
  match d with [] => false | _ => true end.
Definition truthy_list (l : list pyval) : bool :=
  match l with [] => false | _ => true end.

Definition create_field_request (self : AirtableClient)
    (base_id table_id name field_type description : string)
    (options : dict) : Request :=
  let payload := [("name", PyStr name); ("type", PyStr field_type)] in
  let payload :=
    if Str.truthy description
    then dict_set payload "description" (PyStr description) else payload in
  let payload :=
    if truthy_dict options
       && existsb (String.eqb field_type) option_field_types
    then dict_set payload "options" (PyDict options) else payload in
  mk_request self POST
    (base_url self ++ "/meta/bases/" ++ base_id ++ "/tables/" ++ table_id
       ++ "/fields")
    [] (Some (PyDict payload)).

Definition AirtableClient_create_field self base_id table_id name
    field_type description options : M pyval :=
  AirtableClient_request
    (create_field_request self base_id table_id name field_type
       description options).

Definition create_multiple_records_request (self : AirtableClient)
    (base_id table_id_or_name : string) (records : list pyval) : Request :=
  mk_request self POST
    (base_url self ++ "/" ++ base_id ++ "/" ++ table_id_or_name)
    [] (Some (PyDict [("records", PyList records)])).

Definition AirtableClient_create_multiple_records self base_id
    table_id_or_name records : M pyval :=
  AirtableClient_request
    (create_multiple_records_request self base_id table_id_or_name records).

Definition create_record_request (self : AirtableClient)
    (base_id table_id_or_name : string) (fields : dict) : Request :=
  mk_request self POST
    (base_url self ++ "/" ++ base_id ++ "/" ++ table_id_or_name)
    [] (Some (PyDict [("fields", PyDict fields)])).

Definition AirtableClient_create_record self base_id table_id_or_name
    fields : M pyval :=
  AirtableClient_request
    (create_record_request self base_id table_id_or_name fields).

Definition create_table_request (self : AirtableClient)
    (base_id name : string) (fields : list pyval) (description : string)
    : Request :=
  let payload := [("name", PyStr name); ("fields", PyList fields)] in
  let payload :=
    if Str.truthy description
    then dict_set payload "description" (PyStr description) else payload in
  mk_request self POST
    (base_url self ++ "/meta/bases/" ++ base_id ++ "/tables")
    [] (Some (PyDict payload)).

Definition AirtableClient_create_table self base_id name fields
    description : M pyval :=
  AirtableClient_request
    (create_table_request self base_id name fields description).

Definition get_base_schema_request (self : AirtableClient)
    (base_id : string) : Request :=
  mk_request self GET
    (base_url self ++ "/meta/bases/" ++ base_id ++ "/tables") [] None.

Definition AirtableClient_get_base_schema self base_id : M pyval :=
  AirtableClient_request (get_base_schema_request self base_id).

Definition get_record_request (self : AirtableClient)
    (base_id table_id_or_name record_id cell_format : string)
    (return_fields_by_field_id : bool) : Request :=
  let params :=
    if negb (String.eqb cell_format "json")
    then [("cellFormat", PyStr cell_format)] else [] in
  let params :=
    if return_fields_by_field_id
    then dict_set params "returnFieldsByFieldId" (PyStr "true") else params in
  mk_request self GET
    (base_url self ++ "/" ++ base_id ++ "/" ++ table_id_or_name ++ "/"
       ++ record_id)
    params None.

Definition AirtableClient_get_record self base_id table_id_or_name
    record_id cell_format return_fields_by_field_id : M pyval :=
  AirtableClient_request
    (get_record_request self base_id table_id_or_name record_id
       cell_format return_fields_by_field_id).

Definition get_user_info_request (self : AirtableClient) : Request :=
  mk_request self GET (base_url self ++ "/meta/whoami") [] None.

Definition AirtableClient_get_user_info self : M pyval :=
  AirtableClient_request (get_user_info_request self).

Definition list_bases_request (self : AirtableClient) : Request :=
  mk_request self GET (base_url self ++ "/meta/bases") [] None.

Definition AirtableClient_list_bases self : M pyval :=
  AirtableClient_request (list_bases_request self).

Definition list_comments_request (self : AirtableClient)
    (base_id table_id_or_name record_id : string) : Request :=
  mk_request self GET
    (base_url self ++ "/" ++ base_id ++ "/" ++ table_id_or_name ++ "/"
       ++ record_id ++ "/comments")
    [] None.

Definition AirtableClient_list_comments self base_id table_id_or_name
    record_id : M pyval :=
  AirtableClient_request
    (list_comments_request self base_id table_id_or_name record_id).

Definition delete_comment_request (self : AirtableClient)
    (base_id table_id_or_name record_id row_comment_id : string) : Request :=
  mk_request self DELETE
    (base_url self ++ "/" ++ base_id ++ "/" ++ table_id_or_name ++ "/"
       ++ record_id ++ "/comments/" ++ row_comment_id)
    [] None.

Definition AirtableClient_delete_comment self base_id table_id_or_name
    record_id row_comment_id : M pyval :=
  AirtableClient_request
    (delete_comment_request self base_id table_id_or_name record_id
       row_comment_id).

Definition delete_record_request (self : AirtableClient)
    (base_id table_id_or_name record_id : string) : Request :=
  mk_request self DELETE
    (base_url self ++ "/" ++ base_id ++ "/" ++ table_id_or_name ++ "/"
       ++ record_id)
    [] None.

Definition AirtableClient_delete_record self base_id table_id_or_name
    record_id : M pyval :=
  AirtableClient_request
    (delete_record_request self base_id table_id_or_name record_id).

(** Record ids travel as repeated [records[]=<id>] query parameters
    appended to the URL. *)
Definition delete_multiple_records_request (self : AirtableClient)
    (base_id table_id_or_name : string) (record_ids : list pyval) : Request :=
  let url := base_url self ++ "/" ++ base_id ++ "/" ++ table_id_or_name in
  let params :=
    map (fun record_id => "records[]=" ++ py_format record_id) record_ids in
  let query_string := Str.join "&" params in
  let url :=
    if Str.truthy query_string then url ++ "?" ++ query_string else url in
  mk_request self DELETE url [] None.

Definition AirtableClient_delete_multiple_records self base_id
    table_id_or_name record_ids : M pyval :=
  AirtableClient_request
    (delete_multiple_records_request self base_id table_id_or_name
       record_ids).

Definition update_record_request (self : AirtableClient)
    (base_id table_id_or_name record_id : string) (fields : dict)
    (return_fields_by_field_id : bool) : Request :=
  let params :=
    if return_fields_by_field_id
    then [("returnFieldsByFieldId", PyStr "true")] else [] in
  mk_request self PATCH
    (base_url self ++ "/" ++ base_id ++ "/" ++ table_id_or_name ++ "/"
       ++ record_id)
    params (Some (PyDict [("fields", PyDict fields)])).

Definition AirtableClient_update_record self base_id table_id_or_name
    record_id fields return_fields_by_field_id : M pyval :=
  AirtableClient_request
    (update_record_request self base_id table_id_or_name record_id fields
       return_fields_by_field_id).

Definition update_multiple_records_request (self : AirtableClient)
    (base_id table_id_or_name : string) (records : list pyval) : Request :=
  mk_request self PATCH
    (base_url self ++ "/" ++ base_id ++ "/" ++ table_id_or_name)
    [] (Some (PyDict [("records", PyList records)])).

Definition AirtableClient_update_multiple_records self base_id
    table_id_or_name records : M pyval :=
  AirtableClient_request
    (update_multiple_records_request self base_id table_id_or_name records).

Definition add_if (b : bool) (k : string) (v : pyval) (params : dict) : dict :=
  if b then dict_set params k v else params.

Definition list_records_request (self : AirtableClient)
    (base_id table_id_or_name cell_format : string) (fields : list pyval)
    (filter_by_formula : string) (max_records : Z) (offset : string)
    (page_size : Z) (record_metadata : list pyval)
    (return_fields_by_field_id : bool) (sort : list pyval)
    (time_zone user_locale view : string) : Request :=
  let params := [] in
  let params := add_if (negb (String.eqb cell_format "json"))
                  "cellFormat" (PyStr cell_format) params in
  let params := add_if (truthy_list fields) "fields[]" (PyList fields) params in
  let params := add_if (Str.truthy filter_by_formula)
                  "filterByFormula" (PyStr filter_by_formula) params in
  let params := add_if (negb (max_records =? 0)%Z && (max_records >? 0)%Z)
                  "maxRecords" (PyInt max_records) params in
  let params := add_if (Str.truthy offset) "offset" (PyStr offset) params in
  let params := add_if (negb (page_size =? 100)%Z)
                  "pageSize" (PyInt page_size) params in
  let params := add_if (truthy_list record_metadata)
                  "recordMetadata[]" (PyList record_metadata) params in
  let params := add_if return_fields_by_field_id
                  "returnFieldsByFieldId" (PyStr "true") params in
  let params := add_if (truthy_list sort) "sort[]" (PyList sort) params in
  let params := add_if (negb (String.eqb time_zone "utc"))
                  "timeZone" (PyStr time_zone) params in
  let params := add_if (Str.truthy user_locale)
                  "userLocale" (PyStr user_locale) params in
  let params := add_if (Str.truthy view) "view" (PyStr view) params in
  mk_request self GET
    (base_url self ++ "/" ++ base_id ++ "/" ++ table_id_or_name)
    params None.

Definition AirtableClient_list_records self base_id table_id_or_name
    cell_format fields filter_by_formula max_records offset page_size
    record_metadata return_fields_by_field_id sort time_zone user_locale
    view : M pyval :=
  AirtableClient_request
    (list_records_request self base_id table_id_or_name cell_format fields
       filter_by_formula max_records offset page_size record_metadata
       return_fields_by_field_id sort time_zone user_locale view).

(** *** Tool layer *)

(** The envelope every tool returns. *)
Record Envelope : Type := {
  data : dict;
  error : string;
  successful : bool
}.

Definition failure (message : string) : Envelope :=
  {| data := []; error := message; successful := false |}.

Definition success (d : dict) : Envelope :=
  {| data := d; error := EmptyString; successful := true |}.

(** [except Exception as e: return {..., f"Unexpected error: {str(e)}", ...}];
    an exception outside [Exception] is not caught. *)
Definition except_Exception (e : exn) : M Envelope :=
  if is_Exception e
  then ret (failure ("Unexpected error: " ++ str_exn e))
  else raise e.

(** [for i, x in enumerate(l): if ...: return ...]: the value returned
    by the first iteration that returns, if any. *)
Fixpoint for_enumerate {A} (body : nat -> pyval -> option A)
    (l : list pyval) (i : nat) : option A :=
  match l with
  | [] => None
  | x :: l' =>
      match body i x with
      | Some a => Some a
      | None => for_enumerate body l' (S i)
      end
  end.

(** [except AirtableAPIError as e] of [airtable_create_base], followed
    by its [except Exception]. *)
Definition create_base_handler (e : exn) : M Envelope :=
  match e with
  | AirtableAPIError error_type message _ =>
      let head := "Airtable API Error: " ++ py_format error_type
                    ++ Str.newline ++ Str.newline in
      if eq_str error_type "AUTHENTICATION_REQUIRED" then
        ret (failure (head ++ "Authentication failed. Please check your AIRTABLE_API_KEY."))
      else if eq_str error_type "INVALID_API_KEY" then
        ret (failure (head ++ "Invalid API key. Please check your AIRTABLE_API_KEY."))
      else if eq_str error_type "INSUFFICIENT_PERMISSIONS" then
        ret (failure (head ++ "Insufficient permissions to create bases. Check your API key permissions."))
      else if eq_str error_type "WORKSPACE_NOT_FOUND" then
        ret (failure (head ++ "The specified workspace was not found or you don't have access to it."))
      else if eq_str error_type "timeout_error" then
        ret (failure (head ++ "Request timed out. The Airtable API is taking too long to respond. This might be due to high server load or network issues."))
      else if eq_str error_type "network_error" then
        ret (failure (head ++ "Network connectivity issue. Please check your internet connection."))
      else
        ret (failure (head ++ "Unexpected error: " ++ py_format message))
  | _ => except_Exception e
  end.

Definition table_entry_bad (table : pyval) : bool :=
  match table with
  | PyDict d => negb (dict_mem "name" d) || negb (dict_mem "fields" d)
  | _ => true
  end.

Definition table_index_message (i : nat) : string :=
  "Table at index " ++ Str.of_nat i ++ " must have 'name' and 'fields' properties".

Definition base_creation_message : string :=
  "Base configuration validated successfully. Note: Airtable API does not support programmatic base creation. This configuration can be used to manually create the base in the Airtable interface.".

Definition airtable_create_base (name tables workspace_id : string)
    : M Envelope :=
  try_except
    (client <- get_airtable_client ;;
     if Str.blank name then ret (failure "Base name is required") else
     if Str.blank workspace_id then ret (failure "Workspace ID is required") else
     if Str.blank tables then ret (failure "Tables configuration is required") else
     match json_loads tables with
     | JSONDecodeError text =>
         ret (failure ("Invalid JSON format for tables parameter: " ++ text))
     | Decoded (PyList tables_list) =>
         match for_enumerate
                 (fun i table =>
                    if table_entry_bad table
                    then Some (failure (table_index_message i)) else None)
                 tables_list 0 with
         | Some rejected => ret rejected
         | None =>
             response <- AirtableClient_create_base client (Str.strip name)
                           tables_list (Str.strip workspace_id) ;;
             base_data <- py_get response "base" (PyDict []) ;;
             base_id <- py_get base_data "id" (PyStr EmptyString) ;;
             base_name <- py_get base_data "name" (PyStr EmptyString) ;;
             ret {| data :=
                      [("base", base_data);
                       ("base_id", base_id);
                       ("base_name", base_name);
                       ("workspace_id", PyStr workspace_id);
                       ("tables_count", PyInt (Z.of_nat (length tables_list)));
                       ("status", PyStr "configuration_validated");
                       ("message", PyStr base_creation_message);
                       ("creation_details",
                        PyDict
                          [("name", PyStr name);
                           ("workspace_id", PyStr workspace_id);
                           ("tables", PyList tables_list);
                           ("creation_successful", PyBool false);
                           ("api_limitation", PyStr "Airtable API does not support programmatic base creation");
                           ("manual_required", PyBool true)])];
                    error := EmptyString;
                    successful := false |}
         end
     | Decoded _ => ret (failure "Tables must be an array of table objects")
     end)
    create_base_handler.

Definition airtable_create_comment
    (base_id record_id table_id_or_name text : string) : M Envelope :=
  try_except
    (if Str.blank base_id then ret (failure "Base ID is required") else
     if Str.blank record_id then ret (failure "Record ID is required") else
     if Str.blank table_id_or_name then ret (failure "Table ID or name is required") else
     if Str.blank text then ret (failure "Comment text is required") else
     client <- get_airtable_client ;;
     comment_result <- AirtableClient_create_comment client
                         (Str.strip base_id) (Str.strip record_id)
                         (Str.strip table_id_or_name) (Str.strip text) ;;
     comment <- py_get comment_result "comment" (PyDict []) ;;
     comment_id <- py_get comment_result "comment_id" (PyStr EmptyString) ;;
     ret (success
            [("comment", comment);
             ("comment_id", comment_id);
             ("base_id", PyStr base_id);
             ("record_id", PyStr record_id);
             ("table_id_or_name", PyStr table_id_or_name);
             ("text", PyStr text);
             ("status", PyStr "comment_created");
             ("message", PyStr "Comment created successfully")]))
    except_Exception.

(** [options or {}] *)
Definition options_or_empty (options : option dict) : dict :=
  match options with Some d => d | None => [] end.

Definition airtable_create_field
    (base_id table_id name type description : string)
    (options : option dict) : M Envelope :=
  try_except
    (if Str.blank base_id then ret (failure "Base ID is required") else
     if Str.blank table_id then ret (failure "Table ID is required") else
     if Str.blank name then ret (failure "Field name is required") else
     client <- get_airtable_client ;;
     field_result <- AirtableClient_create_field client
                       (Str.strip base_id) (Str.strip table_id)
                       (Str.strip name) (Str.strip type)
                       (if Str.truthy description
                        then Str.strip description else EmptyString)
                       (options_or_empty options) ;;
     field <- py_get field_result "field" (PyDict []) ;;
     field_id <- py_get field_result "field_id" (PyStr EmptyString) ;;
     ret (success
            [("field", field);
             ("field_id", field_id);
             ("base_id", PyStr base_id);
             ("table_id", PyStr table_id);
             ("name", PyStr name);
             ("type", PyStr type);
             ("description", PyStr description);
             ("options", PyDict (options_or_empty options));
             ("status", PyStr "field_created");
             ("message", PyStr "Field created successfully")]))
    except_Exception.

Definition record_entry_bad (record : pyval) : bool :=
  match record with
  | PyDict d => negb (dict_mem "fields" d)
  | _ => true
  end.

Definition airtable_create_multiple_records
    (base_id table_id_or_name records : string) : M Envelope :=
  try_except
    (if Str.blank base_id then ret (failure "Base ID is required") else
     if Str.blank table_id_or_name then ret (failure "Table ID or name is required") else
     if Str.blank records then ret (failure "Records data is required") else
     match json_loads records with
     | JSONDecodeError text =>
         ret (failure ("Invalid JSON format for records parameter: " ++ text))
     | Decoded (PyList records_list) =>
         match for_enumerate
                 (fun i record =>
                    if record_entry_bad record
                    then Some (failure ("Record at index " ++ Str.of_nat i
                                          ++ " must have 'fields' property"))
                    else None)
                 records_list 0 with
         | Some rejected => ret rejected
         | None =>
             client <- get_airtable_client ;;
             records_result <- AirtableClient_create_multiple_records client
                                 (Str.strip base_id)
                                 (Str.strip table_id_or_name) records_list ;;
             created <- py_get records_result "records" (PyList []) ;;
             count <- py_len created ;;
             ret (success
                    [("records", created);
                     ("created_records", PyInt (Z.of_nat count));
                     ("base_id", PyStr base_id);
                     ("table_id_or_name", PyStr table_id_or_name);
                     ("status", PyStr "records_created");
                     ("message", PyStr ("Successfully created "
                                          ++ Str.of_nat count ++ " records"))])
         end
     | Decoded _ => ret (failure "Records must be an array of record objects")
     end)
    except_Exception.

Definition airtable_create_record
    (base_id table_id_or_name fields : string) : M Envelope :=
  try_except
    (if Str.blank base_id then ret (failure "Base ID is required") else
     if Str.blank table_id_or_name then ret (failure "Table ID or name is required") else
     if Str.blank fields then ret (failure "Fields data is required") else
     match json_loads fields with
     | JSONDecodeError text =>
         ret (failure ("Invalid JSON format for fields parameter: " ++ text))
     | Decoded (PyDict fields_dict) =>
         client <- get_airtable_client ;;
         record_result <- AirtableClient_create_record client
                            (Str.strip base_id) (Str.strip table_id_or_name)
                            fields_dict ;;
         record <- py_get record_result "record" (PyDict []) ;;
         record_id <- py_get record "id" (PyStr EmptyString) ;;
         ret (success
                [("record", record);
                 ("record_id", record_id);
                 ("base_id", PyStr base_id);
                 ("table_id_or_name", PyStr table_id_or_name);
                 ("fields", PyDict fields_dict);
                 ("status", PyStr "record_created");
                 ("message", PyStr "Record created successfully")])
     | Decoded _ => ret (failure "Fields must be a JSON object")
     end)
    except_Exception.

Definition field_entry_bad (field : pyval) : bool :=
  match field with
  | PyDict d => negb (dict_mem "name" d) || negb (dict_mem "type" d)
  | _ => true
  end.

Definition field_index_message (i : nat) : string :=
  "Field at index " ++ Str.of_nat i ++ " must have 'name' and 'type' properties".

Definition airtable_create_table
    (base_id name fields description : string) : M Envelope :=
  try_except
    (if Str.blank base_id then ret (failure "Base ID is required") else
     if Str.blank name then ret (failure "Table name is required") else
     if Str.blank fields then ret (failure "Fields data is required") else
     match json_loads fields with
     | JSONDecodeError text =>
         ret (failure ("Invalid JSON format for fields parameter: " ++ text))
     | Decoded (PyList fields_list) =>
         match for_enumerate
                 (fun i field =>
                    if field_entry_bad field
                    then Some (failure (field_index_message i)) else None)
                 fields_list 0 with
         | Some rejected => ret rejected
         | None =>
             client <- get_airtable_client ;;
             table_result <- AirtableClient_create_table client
                               (Str.strip base_id) (Str.strip name)
                               fields_list
                               (if Str.truthy description
                                then Str.strip description else EmptyString) ;;
             table <- py_get table_result "table" (PyDict []) ;;
             table_id <- py_get table "id" (PyStr EmptyString) ;;
             ret (success
                    [("table", table);
                     ("table_id", table_id);
                     ("base_id", PyStr base_id);
                     ("name", PyStr name);
                     ("description", PyStr description);
                     ("fields_count", PyInt (Z.of_nat (length fields_list)));
                     ("status", PyStr "table_created");
                     ("message", PyStr "Table created successfully")])
         end
     | Decoded _ => ret (failure "Fields must be an array of field objects")
     end)
    except_Exception.

Definition airtable_get_base_schema (base_id : string) : M Envelope :=
  try_except
    (if Str.blank base_id then ret (failure "Base ID is required") else
     client <- get_airtable_client ;;
     schema_result <- AirtableClient_get_base_schema client (Str.strip base_id) ;;
     tables <- py_get schema_result "tables" (PyList []) ;;
     count <- py_len tables ;;
     ret (success
            [("schema", schema_result);
             ("base_id", PyStr base_id);
             ("tables", tables);
             ("tables_count", PyInt (Z.of_nat count));
             ("status", PyStr "schema_retrieved");
             ("message", PyStr "Base schema retrieved successfully")]))
    except_Exception.

Definition airtable_get_record
    (base_id table_id_or_name record_id cell_format : string)
    (return_fields_by_field_id : bool) : M Envelope :=
  try_except
    (if Str.blank base_id then ret (failure "Base ID is required") else
     if Str.blank table_id_or_name then ret (failure "Table ID or name is required") else
     if Str.blank record_id then ret (failure "Record ID is required") else
     client <- get_airtable_client ;;
     record_result <- AirtableClient_get_record client
                        (Str.strip base_id) (Str.strip table_id_or_name)
                        (Str.strip record_id) (Str.strip cell_format)
                        return_fields_by_field_id ;;
     record <- py_get record_result "record" (PyDict []) ;;
     ret (success
            [("record", record);
             ("base_id", PyStr base_id);
             ("table_id_or_name", PyStr table_id_or_name);
             ("record_id", PyStr record_id);
             ("cell_format", PyStr cell_format);
             ("return_fields_by_field_id", PyBool return_fields_by_field_id);
             ("status", PyStr "record_retrieved");
             ("message", PyStr "Record retrieved successfully")]))
    except_Exception.

Definition airtable_get_user_info : M Envelope :=
  try_except
    (client <- get_airtable_client ;;
     user_info <- AirtableClient_get_user_info client ;;
     user_id <- py_get user_info "id" (PyStr EmptyString) ;;
     scopes <- py_get user_info "scopes" (PyList []) ;;
     ret (success
            [("user", user_info);
             ("user_id", user_id);
             ("scopes", scopes);
             ("status", PyStr "user_info_retrieved");
             ("message", PyStr "User information retrieved successfully")]))
    except_Exception.

Definition airtable_list_bases : M Envelope :=
  try_except
    (client <- get_airtable_client ;;
     bases_result <- AirtableClient_list_bases client ;;
     bases <- py_get bases_result "bases" (PyList []) ;;
     count <- py_len bases ;;
     offset <- py_get bases_result "offset" (PyStr EmptyString) ;;
     ret (success
            [("bases", bases);
             ("bases_count", PyInt (Z.of_nat count));
             ("offset", offset);
             ("status", PyStr "bases_retrieved");
             ("message", PyStr "Bases retrieved successfully")]))
    except_Exception.

Definition airtable_list_comments
    (base_id table_id_or_name record_id : string) : M Envelope :=
  try_except
    (if Str.blank base_id then ret (failure "Base ID is required") else
     if Str.blank table_id_or_name then ret (failure "Table ID or name is required") else
     if Str.blank record_id then ret (failure "Record ID is required") else
     client <- get_airtable_client ;;
     comments_result <- AirtableClient_list_comments client
                          (Str.strip base_id) (Str.strip table_id_or_name)
                          (Str.strip record_id) ;;
     comments <- py_get comments_result "comments" (PyList []) ;;
     count <- py_len comments ;;
     ret (success
            [("comments", comments);
             ("comments_count", PyInt (Z.of_nat count));
             ("base_id", PyStr base_id);
             ("table_id_or_name", PyStr table_id_or_name);
             ("record_id", PyStr record_id);
             ("status", PyStr "comments_retrieved");
             ("message", PyStr "Comments retrieved successfully")]))
    except_Exception.

Definition airtable_delete_record
    (base_id table_id_or_name record_id : string) : M Envelope :=
  try_except
    (if Str.blank base_id then ret (failure "Base ID is required") else
     if Str.blank table_id_or_name then ret (failure "Table ID or name is required") else
     if Str.blank record_id then ret (failure "Record ID is required") else
     client <- get_airtable_client ;;
     delete_result <- AirtableClient_delete_record client
                        (Str.strip base_id) (Str.strip table_id_or_name)
                        (Str.strip record_id) ;;
     deleted <- py_get delete_result "record" (PyDict []) ;;
     ret (success
            [("deleted_record", deleted);
             ("record_id", PyStr record_id);
             ("base_id", PyStr base_id);
             ("table_id_or_name", PyStr table_id_or_name);
             ("status", PyStr "record_deleted");
             ("message", PyStr "Record deleted successfully")]))
    except_Exception.

(** [not isinstance(record_id, str) or not record_id.strip()] *)
Definition record_id_bad (record_id : pyval) : bool :=
  match record_id with
  | PyStr s => negb (Str.truthy (Str.strip s))
  | _ => true
  end.

Definition airtable_delete_multiple_records
    (base_id table_id_or_name record_ids : string) : M Envelope :=
  try_except
    (if Str.blank base_id then ret (failure "Base ID is required") else
     if Str.blank table_id_or_name then ret (failure "Table ID or name is required") else
     if Str.blank record_ids then ret (failure "Record IDs are required") else
     match json_loads record_ids with
     | JSONDecodeError text =>
         ret (failure ("Invalid JSON format for record_ids parameter: " ++ text))
     | Decoded (PyList record_ids_list) =>
         if (length record_ids_list =? 0)%nat
         then ret (failure "At least one record ID is required") else
         if (10 <? length record_ids_list)%nat
         then ret (failure "Maximum 10 records can be deleted at once") else
         match for_enumerate
                 (fun i record_id =>
                    if record_id_bad record_id
                    then Some (failure ("Record ID at index " ++ Str.of_nat i
                                          ++ " must be a non-empty string"))
                    else None)
                 record_ids_list 0 with
         | Some rejected => ret rejected
         | None =>
             client <- get_airtable_client ;;
             delete_result <- AirtableClient_delete_multiple_records client
                                (Str.strip base_id)
                                (Str.strip table_id_or_name) record_ids_list ;;
             deleted <- py_get delete_result "records" (PyList []) ;;
             count <- py_len deleted ;;
             ret (success
                    [("deleted_records", deleted);
                     ("deleted_count", PyInt (Z.of_nat count));
                     ("requested_count", PyInt (Z.of_nat (length record_ids_list)));
                     ("base_id", PyStr base_id);
                     ("table_id_or_name", PyStr table_id_or_name);
                     ("record_ids", PyList record_ids_list);
                     ("status", PyStr "records_deleted");
                     ("message", PyStr ("Successfully deleted "
                                          ++ Str.of_nat count ++ " records"))])
         end
     | Decoded _ =>
         ret (failure "Record IDs must be an array of record ID strings")
     end)
    except_Exception.

Definition airtable_delete_comment
    (base_id table_id_or_name record_id row_comment_id : string)
    : M Envelope :=
  try_except
    (if Str.blank base_id then ret (failure "Base ID is required") else
     if Str.blank table_id_or_name then ret (failure "Table ID or name is required") else
     if Str.blank record_id then ret (failure "Record ID is required") else
     if Str.blank row_comment_id then ret (failure "Row comment ID is required") else
     client <- get_airtable_client ;;
     delete_result <- AirtableClient_delete_comment client
                        (Str.strip base_id) (Str.strip table_id_or_name)
                        (Str.strip record_id) (Str.strip row_comment_id) ;;
     ret (success
            [("comment_deleted", delete_result);
             ("base_id", PyStr base_id);
             ("table_id_or_name", PyStr table_id_or_name);
             ("record_id", PyStr record_id);
             ("row_comment_id", PyStr row_comment_id);
             ("status", PyStr "comment_deleted");
             ("message", PyStr "Comment deleted successfully")]))
    except_Exception.

Definition airtable_update_record
    (base_id table_id_or_name record_id fields : string)
    (return_fields_by_field_id : bool) : M Envelope :=
  try_except
    (if Str.blank base_id then ret (failure "Base ID is required") else
     if Str.blank table_id_or_name then ret (failure "Table ID or name is required") else
     if Str.blank record_id then ret (failure "Record ID is required") else
     if Str.blank fields then ret (failure "Fields data is required") else
     match json_loads fields with
     | JSONDecodeError text =>
         ret (failure ("Invalid JSON format for fields parameter: " ++ text))
     | Decoded (PyDict fields_dict) =>
         client <- get_airtable_client ;;
         record_result <- AirtableClient_update_record client
                            (Str.strip base_id) (Str.strip table_id_or_name)
                            (Str.strip record_id) fields_dict
                            return_fields_by_field_id ;;
         record <- py_get record_result "record" (PyDict []) ;;
         ret (success
                [("record", record);
                 ("record_id", PyStr record_id);
                 ("base_id", PyStr base_id);
                 ("table_id_or_name", PyStr table_id_or_name);
                 ("fields", PyDict fields_dict);
                 ("return_fields_by_field_id", PyBool return_fields_by_field_id);
                 ("status", PyStr "record_updated");
                 ("message", PyStr "Record updated successfully")])
     | Decoded _ => ret (failure "Fields must be a JSON object")
     end)
    except_Exception.

(** The three checks [airtable_update_multiple_records] makes on the
    record at index [i]. *)
Definition update_entry_check (i : nat) (record : pyval) : option Envelope :=
  match record with
  | PyDict d =>
      if negb (dict_mem "id" d) then
        Some (failure ("Record at index " ++ Str.of_nat i
                         ++ " must have an 'id' field"))
      else if negb (dict_mem "fields" d) then
        Some (failure ("Record at index " ++ Str.of_nat i
                         ++ " must have a 'fields' object"))
      else None
  | _ => Some (failure ("Record at index " ++ Str.of_nat i
                          ++ " must be an object"))
  end.

Definition airtable_update_multiple_records
    (base_id table_id_or_name records : string) : M Envelope :=
  try_except
    (if Str.blank base_id then ret (failure "Base ID is required") else
     if Str.blank table_id_or_name then ret (failure "Table ID or name is required") else
     if Str.blank records then ret (failure "Records data is required") else
     match json_loads records with
     | JSONDecodeError text =>
         ret (failure ("Invalid JSON format for records parameter: " ++ text))
     | Decoded (PyList records_list) =>
         match for_enumerate update_entry_check records_list 0 with
         | Some rejected => ret rejected
         | None =>
             client <- get_airtable_client ;;
             records_result <- AirtableClient_update_multiple_records client
                                 (Str.strip base_id)
                                 (Str.strip table_id_or_name) records_list ;;
             updated <- py_get records_result "records" (PyList []) ;;
             count <- py_len updated ;;
             ret (success
                    [("records", updated);
                     ("updated_records", PyInt (Z.of_nat count));
                     ("base_id", PyStr base_id);
                     ("table_id_or_name", PyStr table_id_or_name);
                     ("status", PyStr "records_updated");
                     ("message", PyStr ("Successfully updated "
                                          ++ Str.of_nat count ++ " records"))])
         end
     | Decoded _ => ret (failure "Records must be an array of record objects")
     end)
    except_Exception.

(** One optional JSON array parameter of [airtable_list_records]: the
    decoded list ([[]] when the string is blank), or the envelope to
    return. *)
Definition optional_json_array (value param shape_message : string)
    : Envelope + list pyval :=
  if Str.truthy value && Str.truthy (Str.strip value) then
    match json_loads value with
    | JSONDecodeError text =>
        inl (failure ("Invalid JSON format for " ++ param ++ " parameter: " ++ text))
    | Decoded (PyList l) => inr l
    | Decoded _ => inl (failure shape_message)
    end
  else inr [].

Definition airtable_list_records
    (base_id table_id_or_name cell_format fields filter_by_formula : string)
    (max_records : Z) (offset : string) (page_size : Z)
    (record_metadata : string) (return_fields_by_field_id : bool)
    (sort time_zone user_locale view : string) : M Envelope :=
  try_except
    (if Str.blank base_id then ret (failure "Base ID is required") else
     if Str.blank table_id_or_name then ret (failure "Table ID or name is required") else
     client <- get_airtable_client ;;
     match optional_json_array fields "fields" "Fields must be a JSON array" with
     | inl rejected => ret rejected
     | inr fields_list =>
     match optional_json_array sort "sort" "Sort must be a JSON array" with
     | inl rejected => ret rejected
     | inr sort_list =>
     match optional_json_array record_metadata "record_metadata"
             "Record metadata must be a JSON array" with
     | inl rejected => ret rejected
     | inr record_metadata_list =>
         records_result <- AirtableClient_list_records client
             (Str.strip base_id) (Str.strip table_id_or_name)
             (Str.strip cell_format) fields_list
             (if Str.truthy filter_by_formula
              then Str.strip filter_by_formula else EmptyString)
             max_records
             (if Str.truthy offset then Str.strip offset else EmptyString)
             page_size record_metadata_list return_fields_by_field_id
             sort_list (Str.strip time_zone)
             (if Str.truthy user_locale
              then Str.strip user_locale else EmptyString)
             (if Str.truthy view then Str.strip view else EmptyString) ;;
         records <- py_get records_result "records" (PyList []) ;;
         count <- py_len records ;;
         next <- py_get records_result "offset" (PyStr EmptyString) ;;
         ret (success
                [("records", records);
                 ("records_count", PyInt (Z.of_nat count));
                 ("offset", next);
                 ("base_id", PyStr base_id);
                 ("table_id_or_name", PyStr table_id_or_name);
                 ("page_size", PyInt page_size);
                 ("status", PyStr "records_retrieved");
                 ("message", PyStr "Records retrieved successfully")])
     end end end)
    except_Exception.

(** *** The tool surface *)

(** One invocation of a tool with its arguments. *)
Inductive tool_call : Type :=
| Create_base (name tables workspace_id : string)
| Create_comment (base_id record_id table_id_or_name text : string)
| Create_field (base_id table_id name type description : string)
    (options : option dict)
| Create_multiple_records (base_id table_id_or_name records : string)
| Create_record (base_id table_id_or_name fields : string)
| Create_table (base_id name fields description : string)
| Get_base_schema (base_id : string)
| Get_record (base_id table_id_or_name record_id cell_format : string)
    (return_fields_by_field_id : bool)
| Get_user_info
| List_bases
| List_comments (base_id table_id_or_name record_id : string)
| Delete_record (base_id table_id_or_name record_id : string)
| Delete_multiple_records (base_id table_id_or_name record_ids : string)
| Delete_comment (base_id table_id_or_name record_id row_comment_id : string)
| Update_record (base_id table_id_or_name record_id fields : string)
    (return_fields_by_field_id : bool)
| Update_multiple_records (base_id table_id_or_name records : string)
| List_records
    (base_id table_id_or_name cell_format fields filter_by_formula : string)
    (max_records : Z) (offset : string) (page_size : Z)
    (record_metadata : string) (return_fields_by_field_id : bool)
    (sort time_zone user_locale view : string).

Definition invoke (c : tool_call) : M Envelope :=
  match c with
  | Create_base n t w => airtable_create_base n t w
  | Create_comment b r t x => airtable_create_comment b r t x
  | Create_field b t n ty d o => airtable_create_field b t n ty d o
  | Create_multiple_records b t r => airtable_create_multiple_records b t r
  | Create_record b t f => airtable_create_record b t f
  | Create_table b n f d => airtable_create_table b n f d
  | Get_base_schema b => airtable_get_base_schema b
  | Get_record b t r c f => airtable_get_record b t r c f
  | Get_user_info => airtable_get_user_info
  | List_bases => airtable_list_bases
  | List_comments b t r => airtable_list_comments b t r
  | Delete_record b t r => airtable_delete_record b t r
  | Delete_multiple_records b t r => airtable_delete_multiple_records b t r
  | Delete_comment b t r c => airtable_delete_comment b t r c
  | Update_record b t r f rf => airtable_update_record b t r f rf
  | Update_multiple_records b t r => airtable_update_multiple_records b t r
  | List_records b t c f ff m o ps rm rf s tz ul v =>
      airtable_list_records b t c f ff m o ps rm rf s tz ul v
  end.

Definition is_create_base (c : tool_call) : bool :=
  match c with Create_base _ _ _ => true | _ => false end.

(** *** What the contract says of each tool *)

(** One required string parameter: its Python name, the argument, and
    the message of its guard. *)
Record required_param : Type := {
  rp_name : string;
  rp_value : string;
  rp_message : string
}.

Definition rp (n v m : string) : required_param :=
  {| rp_name := n; rp_value := v; rp_message := m |}.

(** The parameters the docstrings mark as required, in the order the
    tool checks them. *)
Definition required_parameters (c : tool_call) : list required_param :=
  match c with
  | Create_base n t w =>
      [rp "name" n "Base name is required";
       rp "workspace_id" w "Workspace ID is required";
       rp "tables" t "Tables configuration is required"]
  | Create_comment b r t x =>
      [rp "base_id" b "Base ID is required";
       rp "record_id" r "Record ID is required";
       rp "table_id_or_name" t "Table ID or name is required";
       rp "text" x "Comment text is required"]
  | Create_field b t n _ _ _ =>
      [rp "base_id" b "Base ID is required";
       rp "table_id" t "Table ID is required";
       rp "name" n "Field name is required"]
  | Create_multiple_records b t r =>
      [rp "base_id" b "Base ID is required";
       rp "table_id_or_name" t "Table ID or name is required";
       rp "records" r "Records data is required"]
  | Create_record b t f =>
      [rp "base_id" b "Base ID is required";
       rp "table_id_or_name" t "Table ID or name is required";
       rp "fields" f "Fields data is required"]
  | Create_table b n f _ =>
      [rp "base_id" b "Base ID is required";
       rp "name" n "Table name is required";
       rp "fields" f "Fields data is required"]
  | Get_base_schema b =>
      [rp "base_id" b "Base ID is required"]
  | Get_record b t r _ _ =>
      [rp "base_id" b "Base ID is required";
       rp "table_id_or_name" t "Table ID or name is required";
       rp "record_id" r "Record ID is required"]
  | Get_user_info => []
  | List_bases => []
  | List_comments b t r =>
      [rp "base_id" b "Base ID is required";
       rp "table_id_or_name" t "Table ID or name is required";
       rp "record_id" r "Record ID is required"]
  | Delete_record b t r =>
      [rp "base_id" b "Base ID is required";
       rp "table_id_or_name" t "Table ID or name is required";
       rp "record_id" r "Record ID is required"]
  | Delete_multiple_records b t r =>
      [rp "base_id" b "Base ID is required";
       rp "table_id_or_name" t "Table ID or name is required";
       rp "record_ids" r "Record IDs are required"]
  | Delete_comment b t r c =>
      [rp "base_id" b "Base ID is required";
       rp "table_id_or_name" t "Table ID or name is required";
       rp "record_id" r "Record ID is required";
       rp "row_comment_id" c "Row comment ID is required"]
  | Update_record b t r f _ =>
      [rp "base_id" b "Base ID is required";
       rp "table_id_or_name" t "Table ID or name is required";
       rp "record_id" r "Record ID is required";
       rp "fields" f "Fields data is required"]
  | Update_multiple_records b t r =>
      [rp "base_id" b "Base ID is required";
       rp "table_id_or_name" t "Table ID or name is required";
       rp "records" r "Records data is required"]
  | List_records b t _ _ _ _ _ _ _ _ _ _ _ _ =>
      [rp "base_id" b "Base ID is required";
       rp "table_id_or_name" t "Table ID or name is required"]
  end.

Fixpoint first_blank (ps : list required_param) : option required_param :=
  match ps with
  | [] => None
  | r :: ps' => if Str.blank (rp_value r) then Some r else first_blank ps'
  end.

Inductive json_shape : Type := Array | Object.

Definition has_shape (s : json_shape) (v : pyval) : bool :=
  match s with Array => is_list v | Object => is_dict v end.

(** One parameter documented as a JSON string: its Python name, the
    argument, whether a blank argument means the parameter is absent,
    the expected shape and the message for any other shape. *)
Record json_param : Type := {
  jp_name : string;
  jp_value : string;
  jp_optional : bool;
  jp_shape : json_shape;
  jp_shape_message : string
}.

Definition jp (n v : string) (o : bool) (s : json_shape) (m : string)
    : json_param :=
  {| jp_name := n; jp_value := v; jp_optional := o; jp_shape := s;
     jp_shape_message := m |}.

(** The JSON-string parameters of each tool, in decoding order. *)
Definition json_parameters (c : tool_call) : list json_param :=
  match c with
  | Create_base _ t _ =>
      [jp "tables" t false Array "Tables must be an array of table objects"]
  | Create_multiple_records _ _ r =>
      [jp "records" r false Array "Records must be an array of record objects"]
  | Create_record _ _ f =>
      [jp "fields" f false Object "Fields must be a JSON object"]
  | Create_table _ _ f _ =>
      [jp "fields" f false Array "Fields must be an array of field objects"]
  | Delete_multiple_records _ _ r =>
      [jp "record_ids" r false Array
         "Record IDs must be an array of record ID strings"]
  | Update_record _ _ _ f _ =>
      [jp "fields" f false Object "Fields must be a JSON object"]
  | Update_multiple_records _ _ r =>
      [jp "records" r false Array "Records must be an array of record objects"]
  | List_records _ _ _ f _ _ _ _ rm _ s _ _ _ =>
      [jp "fields" f true Array "Fields must be a JSON array";
       jp "sort" s true Array "Sort must be a JSON array";
       jp "record_metadata" rm true Array "Record metadata must be a JSON array"]
  | _ => []
  end.

(** The parameter is decoded without an early return. *)
Definition json_param_passes (j : json_param) : bool :=
  if Str.blank (jp_value j) then jp_optional j
  else match json_loads (jp_value j) with
       | Decoded v => has_shape (jp_shape j) v
       | JSONDecodeError _ => false
       end.

(** The tools that call [get_airtable_client] before they decode. *)
Definition looks_up_before_decoding (c : tool_call) : bool :=
  match c with
  | Create_base _ _ _ => true
  | List_records _ _ _ _ _ _ _ _ _ _ _ _ _ _ => true
  | _ => false
  end.

(** [get_airtable_client] would return a client. *)
Definition client_available (p : process) : bool :=
  match airtable_client p with
  | Some _ => true
  | None =>
      match environ_AIRTABLE_API_KEY p with
      | Some k => Str.truthy k
      | None => false
      end
  end.

(** The two shapes of the envelope, and the shape of the base-creation
    placeholder. *)
Definition populated (e : Envelope) : Prop :=
  data e <> [] /\ error e = EmptyString /\ successful e = true.

Definition rejected (e : Envelope) : Prop :=
  data e = [] /\ error e <> EmptyString /\ successful e = false.


(** The network methods of the client, with their arguments. *)
Inductive client_call : Type :=
| Call_create_comment (base_id record_id table_id_or_name text : string)
| Call_create_field (base_id table_id name field_type description : string)
    (options : dict)
| Call_create_multiple_records (base_id table_id_or_name : string)
    (records : list pyval)
| Call_create_record (base_id table_id_or_name : string) (fields : dict)
| Call_create_table (base_id name : string) (fields : list pyval)
    (description : string)
| Call_get_base_schema (base_id : string)
| Call_get_record (base_id table_id_or_name record_id cell_format : string)
    (return_fields_by_field_id : bool)
| Call_get_user_info
| Call_list_bases
| Call_list_comments (base_id table_id_or_name record_id : string)
| Call_delete_comment
    (base_id table_id_or_name record_id row_comment_id : string)
| Call_delete_record (base_id table_id_or_name record_id : string)
| Call_delete_multiple_records (base_id table_id_or_name : string)
    (record_ids : list pyval)
| Call_update_record (base_id table_id_or_name record_id : string)
    (fields : dict) (return_fields_by_field_id : bool)
| Call_update_multiple_records (base_id table_id_or_name : string)
    (records : list pyval)
| Call_list_records (base_id table_id_or_name cell_format : string)
    (fields : list pyval) (filter_by_formula : string) (max_records : Z)
    (offset : string) (page_size : Z) (record_metadata : list pyval)
    (return_fields_by_field_id : bool) (sort : list pyval)
    (time_zone user_locale view : string).

Definition client_invoke (self : AirtableClient) (c : client_call) : M pyval :=
  match c with
  | Call_create_comment b r t x => AirtableClient_create_comment self b r t x
  | Call_create_field b t n ty d o => AirtableClient_create_field self b t n ty d o
  | Call_create_multiple_records b t r =>
      AirtableClient_create_multiple_records self b t r
  | Call_create_record b t f => AirtableClient_create_record self b t f
  | Call_create_table b n f d => AirtableClient_create_table self b n f d
  | Call_get_base_schema b => AirtableClient_get_base_schema self b
  | Call_get_record b t r c f => AirtableClient_get_record self b t r c f
  | Call_get_user_info => AirtableClient_get_user_info self
  | Call_list_bases => AirtableClient_list_bases self
  | Call_list_comments b t r => AirtableClient_list_comments self b t r
  | Call_delete_comment b t r c => AirtableClient_delete_comment self b t r c
  | Call_delete_record b t r => AirtableClient_delete_record self b t r
  | Call_delete_multiple_records b t r =>
      AirtableClient_delete_multiple_records self b t r
  | Call_update_record b t r f rf => AirtableClient_update_record self b t r f rf
  | Call_update_multiple_records b t r =>
      AirtableClient_update_multiple_records self b t r
  | Call_list_records b t c f ff m o ps rm rf s tz ul v =>
      AirtableClient_list_records self b t c f ff m o ps rm rf s tz ul v
  end.

(** The request a network method puts on the wire. *)
Definition request_of (self : AirtableClient) (c : client_call) : Request :=
  match c with
  | Call_create_comment b r t x => create_comment_request self b r t x
  | Call_create_field b t n ty d o => create_field_request self b t n ty d o
  | Call_create_multiple_records b t r =>
      create_multiple_records_request self b t r
  | Call_create_record b t f => create_record_request self b t f
  | Call_create_table b n f d => create_table_request self b n f d
  | Call_get_base_schema b => get_base_schema_request self b
  | Call_get_record b t r c f => get_record_request self b t r c f
  | Call_get_user_info => get_user_info_request self
  | Call_list_bases => list_bases_request self
  | Call_list_comments b t r => list_comments_request self b t r
  | Call_delete_comment b t r c => delete_comment_request self b t r c
  | Call_delete_record b t r => delete_record_request self b t r
  | Call_delete_multiple_records b t r =>
      delete_multiple_records_request self b t r
  | Call_update_record b t r f rf => update_record_request self b t r f rf
  | Call_update_multiple_records b t r =>
      update_multiple_records_request self b t r
  | Call_list_records b t c f ff m o ps rm rf s tz ul v =>
      list_records_request self b t c f ff m o ps rm rf s tz ul v
  end.

(** *** Vocabulary of the proofs *)

(** Every value [m] returns satisfies [Q]. *)
Definition returns {A} (m : M A) (Q : A -> Prop) : Prop :=
  forall p a p', m p = (Return a, p') -> Q a.

(** Every exception [m] raises satisfies [X]. *)
Definition raises {A} (m : M A) (X : exn -> Prop) : Prop :=
  forall p e p', m p = (Raise e, p') -> X e.

Definition catchable (e : exn) : Prop := is_Exception e = true.

(** [m] leaves the process as it found it. *)
Definition stateless {A} (m : M A) : Prop := forall p, snd (m p) = p.

(** An entry that is not an object, or an object without one of
    [keys]. *)
Definition lacks_key (keys : list string) (entry : pyval) : Prop :=
  match entry with
  | PyDict d => exists k, In k keys /\ dict_mem k d = false
  | _ => True
  end.

(** Either [m] issues no request, or it raises an exception in [X]. *)
Definition quiet_or {A} (X : exn -> Prop) (m : M A) : Prop :=
  forall p o p',
    m p = (o, p') ->
    network_log p' = network_log p \/ exists e, o = Raise e /\ X e.

(** The normalised error of a 401 whose body is
    [{error: {type: INVALID_API_KEY, message: bad key}}]. *)
Definition invalid_key_error : exn :=
  AirtableAPIError (PyStr "INVALID_API_KEY") (PyStr "bad key") 401.

(** What [except Exception] makes of it. *)
Definition invalid_key_generic_message : string :=
  "Unexpected error: Airtable API Error (INVALID_API_KEY): bad key".

(** What the handler of [airtable_create_base] makes of that kind. *)
Definition invalid_key_canned_message : string :=
  "Airtable API Error: INVALID_API_KEY" ++ Str.newline ++ Str.newline
    ++ "Invalid API key. Please check your AIRTABLE_API_KEY.".

(** [d.get(k, default)] on an association list. *)
Definition get_or (d : dict) (k : string) (default : pyval) : pyval :=
  match dict_lookup d k with Some x => x | None => default end.

(** [m] leaves the environment alone, never replaces a client, and
    issues at most one request; when it issues none, what it returns
    satisfies [Q]. *)
Definition tidy {A} (Q : A -> Prop) (m : M A) : Prop :=
  forall p o p',
    m p = (o, p') ->
    environ_AIRTABLE_API_KEY p' = environ_AIRTABLE_API_KEY p
    /\ (forall cl, airtable_client p = Some cl -> airtable_client p' = Some cl)
    /\ ((network_log p' = network_log p /\ forall a, o = Return a -> Q a)
        \/ exists req, network_log p' = req :: network_log p).

(** Every character of [s] is whitespace. *)
Fixpoint only_whitespace (s : string) : bool :=
  match s with
  | EmptyString => true
  | String c s' => Str.isspace c && only_whitespace s'
  end.

(** What [airtable_delete_multiple_records] refuses as a record id: a
    value that is not a string, or a string that is blank. *)
Definition not_a_record_id (v : pyval) : Prop :=
  match v with
  | PyStr s => Str.blank s = true
  | _ => True
  end.

(** The query parameters [AirtableClient.list_records] can send. *)
Definition list_records_keys : list string :=
  ["cellFormat"; "fields[]"; "filterByFormula"; "maxRecords"; "offset";
   "pageSize"; "recordMetadata[]"; "returnFieldsByFieldId"; "sort[]";
   "timeZone"; "userLocale"; "view"].

(** [l] as a query parameter: absent when the list is empty. *)
Definition list_param (l : list pyval) : option pyval :=
  match l with [] => None | _ => Some (PyList l) end.

(** [s] as a query parameter: absent when the string is empty. *)
Definition str_param (s : string) : option pyval :=
  match s with EmptyString => None | _ => Some (PyStr s) end.

(** Either [m] issues no request, or it returns a value that
    satisfies [Q]. *)
Definition reaching {A} (Q : A -> Prop) (m : M A) : Prop :=
  forall p o p',
    m p = (o, p') ->
    network_log p' = network_log p \/ exists a, o = Return a /\ Q a.

(** A successful envelope, as the tools build it. *)
Definition succeeded (e : Envelope) : Prop :=
  successful e = true /\ error e = EmptyString /\ data e <> [].

(** Whatever [m] does, it issues a request. *)
Definition always_sends {A} (m : M A) : Prop :=
  forall p o p',
    m p = (o, p') -> exists req, network_log p' = req :: network_log p.

(** Either [m] leaves the process exactly as it was, or it issues a
    request. *)
Definition unchanged_or_sent {A} (m : M A) : Prop :=
  forall p o p',
    m p = (o, p') -> p' = p \/ exists req, network_log p' = req :: network_log p.

(** The envelope of a failed client lookup. *)
Definition lookup_failure : Envelope :=
  failure "Unexpected error: AIRTABLE_API_KEY environment variable is required".

(** *** Reasoning about runs *)

Lemma returns_ret {A} (a : A) (Q : A -> Prop) : Q a -> returns (ret a) Q.
Proof. intros H p a' p' E. inversion E; subst; exact H. Qed.

Lemma returns_raise {A} (e : exn) (Q : A -> Prop) : returns (raise e) Q.
Proof. intros p a p' E. discriminate E. Qed.

Lemma returns_bind {A B} (m : M A) (f : A -> M B) (Q : B -> Prop) :
  (forall a, returns (f a) Q) -> returns (bind m f) Q.
Proof.
  intros H p b p' E. unfold bind in E.
  destruct (m p) as [[a | e] p1]; [eapply H; eassumption | discriminate E].
Qed.



Lemma for_enumerate_some {A} (body : nat -> pyval -> option A) (Q : A -> Prop) :
  (forall i x a, body i x = Some a -> Q a) ->
  forall l i a, for_enumerate body l i = Some a -> Q a.
Proof.
  intros H l; induction l as [| x l IH]; intros i a E; simpl in E.
  - discriminate E.
  - destruct (body i x) eqn:Ex.
    + inversion E; subst. eapply H; eassumption.
    + eapply IH; eassumption.
Qed.

Lemma rejected_failure (m : string) : m <> EmptyString -> rejected (failure m).
Proof. intros H; repeat split; assumption. Qed.

Lemma populated_success (d : dict) : d <> [] -> populated (success d).
Proof. intros H; repeat split; assumption. Qed.



(** Closes a goal on the shape of a literal envelope. *)
Ltac shape :=
  first
    [ apply rejected_failure; cbn; discriminate
    | left; apply rejected_failure; cbn; discriminate
    | right; apply populated_success; discriminate
    | right; repeat split; cbn; solve [ discriminate | reflexivity ] ].

(** Walks through the body of a tool, one construct at a time. *)
Ltac walk :=
  repeat first
    [ apply returns_ret
    | apply returns_raise
    | apply returns_bind; intros
    | match goal with
      | |- returns (if ?b then _ else _) _ => destruct b
      | |- returns (match ?x with _ => _ end) _ => destruct x eqn:?
      end ].

Lemma except_Exception_rejects (e : exn) : returns (except_Exception e) rejected.
Proof. unfold except_Exception. walk. shape. Qed.

Lemma create_base_handler_rejects (e : exn) :
  returns (create_base_handler e) rejected.
Proof.
  destruct e; try apply except_Exception_rejects.
  unfold create_base_handler. walk; shape.
Qed.

Lemma update_entry_check_rejects i x a :
  update_entry_check i x = Some a -> rejected a.
Proof.
  unfold update_entry_check; intros E.
  destruct x; try (inversion E; subst; shape).
  destruct (negb (dict_mem "id" d)); [inversion E; subst; shape |].
  destruct (negb (dict_mem "fields" d)); [inversion E; subst; shape | discriminate E].
Qed.







Lemma raises_ret {A} (a : A) X : raises (ret a) X.
Proof. intros p e p' E; discriminate E. Qed.

Lemma raises_raise {A} (e : exn) (X : exn -> Prop) : X e -> raises (@raise A e) X.
Proof. intros H p e' p' E; inversion E; subst; exact H. Qed.

Lemma raises_bind {A B} (m : M A) (f : A -> M B) X :
  raises m X -> (forall a, raises (f a) X) -> raises (bind m f) X.
Proof.
  intros Hm Hf p e p' E. unfold bind in E.
  destruct (m p) as [[a | e'] p1] eqn:Em.
  - eapply Hf; eassumption.
  - inversion E; subst. eapply Hm; eassumption.
Qed.

Lemma raises_try_except_Exception (body : M Envelope) :
  raises body catchable ->
  raises (try_except body except_Exception) (fun _ => False).
Proof.
  intros Hb p e p' E. unfold try_except in E.
  destruct (body p) as [[a | e'] p1] eqn:Eb; [discriminate E |].
  unfold except_Exception in E. rewrite (Hb _ _ _ Eb) in E. discriminate E.
Qed.

Lemma raises_get_airtable_client : raises get_airtable_client catchable.
Proof.
  intros p e p' E. unfold get_airtable_client in E.
  destruct (airtable_client p); [discriminate E |].
  destruct (environ_AIRTABLE_API_KEY p) as [k |].
  - destruct (Str.truthy k); [discriminate E | inversion E; reflexivity].
  - inversion E; reflexivity.
Qed.

Lemma raises_py_get v k d : raises (py_get v k d) catchable.
Proof.
  destruct v; cbn [py_get];
    first [ apply raises_ret | apply raises_raise; reflexivity ].
Qed.

Lemma raises_py_len v : raises (py_len v) catchable.
Proof.
  destruct v; cbn [py_len];
    first [ apply raises_ret | apply raises_raise; reflexivity ].
Qed.

Lemma raises_except_HTTPError status body text :
  raises (except_HTTPError status body text) catchable.
Proof.
  unfold except_HTTPError.
  repeat (apply raises_bind; [apply raises_py_get | intros]).
  apply raises_raise; reflexivity.
Qed.

(** Unfolds the network methods down to [AirtableClient_request]. *)
Ltac to_request :=
  cbv beta delta
    [AirtableClient_create_comment AirtableClient_create_field
     AirtableClient_create_multiple_records AirtableClient_create_record
     AirtableClient_create_table AirtableClient_get_base_schema
     AirtableClient_get_record AirtableClient_get_user_info
     AirtableClient_list_bases AirtableClient_list_comments
     AirtableClient_delete_comment AirtableClient_delete_record
     AirtableClient_delete_multiple_records AirtableClient_update_record
     AirtableClient_update_multiple_records AirtableClient_list_records].

Section EscapesAreExceptions.

(** Whatever the [requests] call lets through derives from
    [Exception]. *)
Hypothesis escapes_catchable :
  forall req e, requests_send req = Escapes e -> is_Exception e = true.

Lemma raises_request req : raises (AirtableClient_request req) catchable.
Proof.
  intros p e p' E. unfold AirtableClient_request in E.
  destruct (requests_send req) as [body | status body text | text | x] eqn:Es.
  - discriminate E.
  - revert E. apply raises_except_HTTPError.
  - inversion E; reflexivity.
  - inversion E; subst. eapply escapes_catchable; eassumption.
Qed.

Ltac walk_raises :=
  repeat first
    [ apply raises_ret
    | apply raises_raise; reflexivity
    | apply raises_bind;
      [ first [ apply raises_get_airtable_client
              | apply raises_py_get
              | apply raises_py_len
              | to_request; apply raises_request
              | unfold AirtableClient_create_base; apply raises_ret ]
      | intros ]
    | match goal with
      | |- raises (if ?b then _ else _) _ => destruct b
      | |- raises (match ?x with _ => _ end) _ => destruct x
      end ].

Lemma create_base_handler_raises e :
  is_Exception e = true -> raises (create_base_handler e) (fun _ => False).
Proof.
  intros He. destruct e; try discriminate He;
    unfold create_base_handler, except_Exception; cbn [is_Exception];
    repeat match goal with
           | |- raises (if ?b then _ else _) _ => destruct b
           end;
    apply raises_ret.
Qed.

Lemma tools_never_raise (c : tool_call) : raises (invoke c) (fun _ => False).
Proof.
  destruct c; cbn [invoke].
  1: { intros p e p' E. unfold airtable_create_base, try_except in E.
       match type of E with
       | match ?body p with _ => _ end = _ =>
           assert (Hb : raises body catchable) by walk_raises;
           destruct (body p) as [[a | x] p1] eqn:Eb
       end; [discriminate E |].
       eapply create_base_handler_raises; [| exact E].
       eapply Hb; exact Eb. }
  all: apply raises_try_except_Exception; walk_raises.
Qed.

(** C9, as the code has it.  Provided every exception the [requests]
    call lets through derives from [Exception], every tool returns an
    envelope, for every input and every state, and nothing is raised
    to the caller. *)
Theorem tools_return_envelopes (c : tool_call) (p : process) :
  exists e p', invoke c p = (Return e, p').
Proof.
  destruct (invoke c p) as [[e | x] p'] eqn:E.
  - exists e, p'; reflexivity.
  - exfalso. exact (tools_never_raise c p x p' E).
Qed.

End EscapesAreExceptions.

(** *** Running a tool on given facts *)

Lemma get_airtable_client_available (p : process) :
  client_available p = true ->
  exists c p',
    get_airtable_client p = (Return c, p')
    /\ network_log p' = network_log p.
Proof.
  unfold client_available, get_airtable_client. intros H.
  destruct (airtable_client p) as [c |].
  - exists c, p; auto.
  - destruct (environ_AIRTABLE_API_KEY p) as [k |]; [| discriminate H].
    rewrite H. eexists; eexists; split; reflexivity.
Qed.

Lemma get_airtable_client_missing (p : process) :
  client_available p = false ->
  get_airtable_client p =
    (Raise (ValueError "AIRTABLE_API_KEY environment variable is required"), p).
Proof.
  unfold client_available, get_airtable_client. intros H.
  destruct (airtable_client p); [discriminate H |].
  destruct (environ_AIRTABLE_API_KEY p) as [k |]; [rewrite H |]; reflexivity.
Qed.

Lemma first_blank_exists (ps : list required_param) :
  (exists r, In r ps /\ Str.blank (rp_value r) = true) ->
  exists r, first_blank ps = Some r.
Proof.
  induction ps as [| a ps IH]; intros (r & Hin & Hb).
  - destruct Hin.
  - cbn [first_blank]. destruct (Str.blank (rp_value a)) eqn:Ha.
    + exists a; reflexivity.
    + destruct Hin as [-> | Hin]; [congruence |].
      apply IH. exists r; auto.
Qed.

Lemma first_blank_In (ps : list required_param) (r : required_param) :
  first_blank ps = Some r -> In r ps /\ Str.blank (rp_value r) = true.
Proof.
  induction ps as [| a ps IH]; cbn [first_blank]; intros H; [discriminate H |].
  destruct (Str.blank (rp_value a)) eqn:Ha.
  - inversion H; subst. split; [left; reflexivity | exact Ha].
  - destruct (IH H) as [Hin Hb]. split; [right; exact Hin | exact Hb].
Qed.

(** Splits on the guards of the required parameters, in order, until
    the blank one is found. *)
Ltac blank_cases H :=
  match type of H with
  | (if Str.blank ?v then _ else _) = _ =>
      let B := fresh "B" in
      destruct (Str.blank v) eqn:B;
      [ inversion H; subst; clear H | blank_cases H ]
  | None = Some _ => discriminate H
  end.

Ltac use_blanks :=
  repeat match goal with
         | B : Str.blank _ = _ |- _ => rewrite B; clear B
         end.

(** The guard of the first blank required parameter decides the result,
    before any request; [airtable_create_base] looks the client up
    first. *)
Lemma first_blank_decides (c : tool_call) (p : process) (r : required_param) :
  first_blank (required_parameters c) = Some r ->
  (is_create_base c = true -> client_available p = true) ->
  exists p',
    invoke c p = (Return (failure (rp_message r)), p')
    /\ network_log p' = network_log p.
Proof.
  intros H Hc.
  destruct c; cbn [required_parameters first_blank rp rp_value] in H;
    cbn [invoke].
  1: { destruct (get_airtable_client_available p (Hc eq_refl))
         as (cl & p1 & Hg & Hlog).
       blank_cases H;
         (unfold airtable_create_base, try_except, bind; rewrite Hg;
          use_blanks; exists p1; split; [reflexivity | exact Hlog]). }
  all: blank_cases H;
    match goal with
    | |- exists _, ?tool = _ /\ _ =>
        let h := eval cbv beta delta
                   [airtable_create_comment airtable_create_field
                    airtable_create_multiple_records airtable_create_record
                    airtable_create_table airtable_get_base_schema
                    airtable_get_record airtable_list_comments
                    airtable_delete_record airtable_delete_multiple_records
                    airtable_delete_comment airtable_update_record
                    airtable_update_multiple_records airtable_list_records
                    try_except] in tool in
        change tool with h
    end;
    use_blanks; exists p; split; reflexivity.
Qed.

(** C3, as the code has it.  If some required string parameter of a
    tool is empty or only whitespace, the tool returns the envelope with
    empty data, [successful] false and the message of a blank required
    parameter (the first one in checking order), and issues no request.
    For [airtable_create_base] this needs the client lookup, which that
    tool performs first, to succeed. *)
Theorem blank_required_parameter (c : tool_call) (p : process) :
  (exists r, In r (required_parameters c) /\ Str.blank (rp_value r) = true) ->
  (is_create_base c = true -> client_available p = true) ->
  exists r p',
    In r (required_parameters c)
    /\ Str.blank (rp_value r) = true
    /\ invoke c p = (Return (failure (rp_message r)), p')
    /\ network_log p' = network_log p.
Proof.
  intros Hex Hc.
  destruct (first_blank_exists _ Hex) as [r Hr].
  destruct (first_blank_In _ _ Hr) as [Hin Hb].
  destruct (first_blank_decides c p r Hr Hc) as (p' & Hrun & Hlog).
  exists r, p'; auto.
Qed.

(** *** Transport failures *)

(** C7.  When a network method of the client gets no HTTP response
    (the [requests] call fails with a [RequestException] that is not an
    [HTTPError]), the method raises [AirtableAPIError] with kind
    [network_error] and status code 0, after the one request it
    issued. *)
Theorem transport_failure_is_network_error (self : AirtableClient)
    (c : client_call) (p : process) (text : string) :
  requests_send (request_of self c) = RequestFailed text ->
  client_invoke self c p =
    (Raise (AirtableAPIError (PyStr "network_error")
              (PyStr ("Network error: " ++ text)) 0),
     log_request (request_of self c) p).
Proof.
  intros H. destruct c; cbn [client_invoke request_of] in *; to_request;
    unfold AirtableClient_request; rewrite H; reflexivity.
Qed.

(** *** Loops over decoded lists *)

Lemma for_enumerate_pass {A} (bad : pyval -> bool) (f : nat -> A)
    (l : list pyval) (i0 : nat) :
  forallb (fun x => negb (bad x)) l = true ->
  for_enumerate (fun i x => if bad x then Some (f i) else None) l i0 = None.
Proof.
  revert i0; induction l as [| x l IH]; intros i0 H; cbn in *; [reflexivity |].
  apply andb_true_iff in H as [Hx Hl].
  destruct (bad x); [discriminate Hx | apply IH; exact Hl].
Qed.

Lemma for_enumerate_first {A} (bad : pyval -> bool) (f : nat -> A)
    (l : list pyval) (i0 : nat) :
  (exists x, In x l /\ bad x = true) ->
  exists j x,
    nth_error l j = Some x /\ bad x = true
    /\ (forall k y, k < j -> nth_error l k = Some y -> bad y = false)
    /\ for_enumerate (fun i x => if bad x then Some (f i) else None) l i0
       = Some (f (i0 + j)).
Proof.
  revert i0; induction l as [| a l IH]; intros i0 (x & Hin & Hx).
  - destruct Hin.
  - destruct (bad a) eqn:Ha.
    + exists 0, a. cbn. rewrite Ha, Nat.add_0_r.
      repeat split; auto. intros k y Hk; lia.
    + destruct Hin as [-> | Hin]; [congruence |].
      destruct (IH (S i0) (ex_intro _ x (conj Hin Hx)))
        as (j & y & Hn & Hy & Hbefore & Hrun).
      exists (S j), y. cbn. rewrite Ha.
      repeat split; auto.
      * intros k z Hk Hz. destruct k as [| k]; cbn in Hz.
        -- inversion Hz; subst; exact Ha.
        -- eapply Hbefore; [| exact Hz]. lia.
      * rewrite Hrun. f_equal. f_equal. lia.
Qed.

Lemma field_entry_bad_iff (x : pyval) :
  field_entry_bad x = true <-> lacks_key ["name"; "type"] x.
Proof.
  destruct x; cbn; try tauto. split.
  - intros H. apply orb_true_iff in H as [H | H]; apply negb_true_iff in H;
      [exists "name" | exists "type"]; cbn; auto.
  - intros (k & [<- | [<- | []]] & H); rewrite H; cbn;
      [reflexivity | apply orb_true_r].
Qed.

Lemma table_entry_bad_iff (x : pyval) :
  table_entry_bad x = true <-> lacks_key ["name"; "fields"] x.
Proof.
  destruct x; cbn; try tauto. split.
  - intros H. apply orb_true_iff in H as [H | H]; apply negb_true_iff in H;
      [exists "name" | exists "fields"]; cbn; auto.
  - intros (k & [<- | [<- | []]] & H); rewrite H; cbn;
      [reflexivity | apply orb_true_r].
Qed.

(** C8, as the code has it.  Once [airtable_create_table] (resp.
    [airtable_create_base], when the client lookup it starts with
    succeeds) has decoded its list, an entry that is not an object or
    lacks [name] or [type] (resp. [name] or [fields]) makes the tool
    return the rejection that cites the index of the first such entry:
    the loop returns there, so the entries after it are not examined and
    a later offending index is never the one cited.  No request is
    issued. *)
Theorem structure_check_cites_index :
  (forall base_id name fields description fields_list p,
      Str.blank base_id = false -> Str.blank name = false ->
      Str.blank fields = false ->
      json_loads fields = Decoded (PyList fields_list) ->
      (exists x, In x fields_list /\ lacks_key ["name"; "type"] x) ->
      exists i x,
        nth_error fields_list i = Some x
        /\ lacks_key ["name"; "type"] x
        /\ (forall k y, k < i -> nth_error fields_list k = Some y ->
              ~ lacks_key ["name"; "type"] y)
        /\ airtable_create_table base_id name fields description p =
             (Return (failure ("Field at index " ++ Str.of_nat i
                                 ++ " must have 'name' and 'type' properties")),
              p))
  /\ (forall name tables workspace_id tables_list p,
         client_available p = true ->
         Str.blank name = false -> Str.blank workspace_id = false ->
         Str.blank tables = false ->
         json_loads tables = Decoded (PyList tables_list) ->
         (exists x, In x tables_list /\ lacks_key ["name"; "fields"] x) ->
         exists i x p',
           nth_error tables_list i = Some x
           /\ lacks_key ["name"; "fields"] x
           /\ (forall k y, k < i -> nth_error tables_list k = Some y ->
                 ~ lacks_key ["name"; "fields"] y)
           /\ airtable_create_base name tables workspace_id p =
                (Return (failure ("Table at index " ++ Str.of_nat i
                                    ++ " must have 'name' and 'fields' properties")),
                 p')
           /\ network_log p' = network_log p).
Proof.
  split.
  - intros base_id name fields description l p B1 B2 B3 Hl (x & Hin & Hx).
    destruct (for_enumerate_first field_entry_bad
                (fun i => failure (field_index_message i)) l 0)
      as (i & y & Hn & Hy & Hfirst & Hrun).
    { exists x; split; [exact Hin | apply field_entry_bad_iff; exact Hx]. }
    exists i, y. split; [exact Hn |]. split; [apply field_entry_bad_iff; exact Hy |].
    split.
    { intros k z Hk Hz Hbad. apply field_entry_bad_iff in Hbad.
      rewrite (Hfirst k z Hk Hz) in Hbad. discriminate Hbad. }
    unfold airtable_create_table, try_except.
    rewrite B1, B2, B3, Hl, Hrun. reflexivity.
  - intros name tables workspace_id l p Hav B1 B2 B3 Hl (x & Hin & Hx).
    destruct (get_airtable_client_available p Hav) as (cl & p1 & Hg & Hlog).
    destruct (for_enumerate_first table_entry_bad
                (fun i => failure (table_index_message i)) l 0)
      as (i & y & Hn & Hy & Hfirst & Hrun).
    { exists x; split; [exact Hin | apply table_entry_bad_iff; exact Hx]. }
    exists i, y, p1. split; [exact Hn |].
    split; [apply table_entry_bad_iff; exact Hy |].
    split.
    { intros k z Hk Hz Hbad. apply table_entry_bad_iff in Hbad.
      rewrite (Hfirst k z Hk Hz) in Hbad. discriminate Hbad. }
    split; [| exact Hlog].
    unfold airtable_create_base, try_except, bind.
    rewrite Hg, B1, B2, B3, Hl, Hrun. reflexivity.
Qed.

(** *** Steps that leave the process alone *)

Lemma stateless_ret {A} (a : A) : stateless (ret a).
Proof. intros p; reflexivity. Qed.

Lemma stateless_raise {A} (e : exn) : stateless (@raise A e).
Proof. intros p; reflexivity. Qed.

Lemma stateless_bind {A B} (m : M A) (f : A -> M B) :
  stateless m -> (forall a, stateless (f a)) -> stateless (bind m f).
Proof.
  intros Hm Hf p. unfold bind. specialize (Hm p).
  destruct (m p) as [[a | e] p1]; cbn in Hm; subst; [apply Hf | reflexivity].
Qed.

Lemma stateless_py_get v k d : stateless (py_get v k d).
Proof. destruct v; intros p; reflexivity. Qed.

Lemma stateless_py_len v : stateless (py_len v).
Proof. destruct v; intros p; reflexivity. Qed.

Lemma stateless_except_Exception e : stateless (except_Exception e).
Proof. unfold except_Exception; destruct (is_Exception e); intros p; reflexivity. Qed.

Lemma stateless_except_HTTPError status body text :
  stateless (except_HTTPError status body text).
Proof.
  unfold except_HTTPError.
  repeat (apply stateless_bind; [apply stateless_py_get | intros]).
  apply stateless_raise.
Qed.

Lemma snd_bind_stateless {A B} (m : M A) (f : A -> M B) (p : process) :
  (forall a, stateless (f a)) -> snd (bind m f p) = snd (m p).
Proof.
  intros Hf. unfold bind. destruct (m p) as [[a | e] p1]; [apply Hf | reflexivity].
Qed.

Lemma snd_try_stateless {A} (body : M A) (h : exn -> M A) (p : process) :
  (forall e, stateless (h e)) -> snd (try_except body h p) = snd (body p).
Proof.
  intros Hh. unfold try_except.
  destruct (body p) as [[a | e] p1]; [reflexivity | apply Hh].
Qed.

Lemma request_logs (req : Request) (p : process) :
  snd (AirtableClient_request req p) = log_request req p.
Proof.
  unfold AirtableClient_request.
  destruct (requests_send req); try reflexivity.
  apply stateless_except_HTTPError.
Qed.

(** *** Bulk deletion *)

Lemma record_ids_pass (l : list pyval) :
  (forall x, In x l -> exists s, x = PyStr s /\ Str.strip s <> EmptyString) ->
  forallb (fun x => negb (record_id_bad x)) l = true.
Proof.
  intros H. apply forallb_forall. intros x Hx.
  destruct (H x Hx) as (s & -> & Hs). cbn.
  destruct (Str.strip s); [congruence | reflexivity].
Qed.

(** C5, as the code has it.  [airtable_delete_multiple_records] rejects
    a decoded list of record ids of length 0 or above 10 and leaves the
    process as it was, so no request is issued.  A list of 1 to 10
    strings, each non-empty once trimmed, passes the checks: with the
    other arguments non-blank and a client available, the tool issues
    exactly one request, the DELETE the client builds from that very
    list. *)
Theorem delete_multiple_records_bounds :
  (forall base_id table_id_or_name record_ids l p,
      json_loads record_ids = Decoded (PyList l) ->
      length l = 0 \/ 10 < length l ->
      exists e,
        airtable_delete_multiple_records base_id table_id_or_name record_ids p
          = (Return e, p)
        /\ successful e = false)
  /\ (forall base_id table_id_or_name record_ids l p,
         Str.blank base_id = false -> Str.blank table_id_or_name = false ->
         Str.blank record_ids = false ->
         json_loads record_ids = Decoded (PyList l) ->
         1 <= length l <= 10 ->
         (forall x, In x l -> exists s, x = PyStr s /\ Str.strip s <> EmptyString) ->
         client_available p = true ->
         exists client p1,
           get_airtable_client p = (Return client, p1)
           /\ network_log
                (snd (airtable_delete_multiple_records base_id
                        table_id_or_name record_ids p))
              = delete_multiple_records_request client (Str.strip base_id)
                  (Str.strip table_id_or_name) l
                :: network_log p).
Proof.
  split.
  - intros b t ids l p Hl Hlen.
    unfold airtable_delete_multiple_records, try_except.
    destruct (Str.blank b); [eexists; split; reflexivity |].
    destruct (Str.blank t); [eexists; split; reflexivity |].
    destruct (Str.blank ids); [eexists; split; reflexivity |].
    rewrite Hl.
    destruct (length l =? 0)%nat eqn:E0; [eexists; split; reflexivity |].
    destruct (10 <? length l)%nat eqn:E10; [eexists; split; reflexivity |].
    apply Nat.eqb_neq in E0. apply Nat.ltb_ge in E10. lia.
  - intros b t ids l p B1 B2 B3 Hl Hlen Hids Hav.
    destruct (get_airtable_client_available p Hav) as (cl & p1 & Hg & Hlog).
    exists cl, p1. split; [exact Hg |].
    unfold airtable_delete_multiple_records.
    rewrite snd_try_stateless by apply stateless_except_Exception.
    rewrite B1, B2, B3, Hl.
    replace (length l =? 0)%nat with false
      by (symmetry; apply Nat.eqb_neq; lia).
    replace (10 <? length l)%nat with false
      by (symmetry; apply Nat.ltb_ge; lia).
    rewrite (for_enumerate_pass record_id_bad _ l 0 (record_ids_pass l Hids)).
    unfold bind at 1. rewrite Hg.
    rewrite snd_bind_stateless.
    + unfold AirtableClient_delete_multiple_records.
      rewrite request_logs. cbn [log_request network_log]. rewrite Hlog.
      reflexivity.
    + intros a. repeat (apply stateless_bind;
                        [first [apply stateless_py_get | apply stateless_py_len]
                        | intros]).
      apply stateless_ret.
Qed.

(** *** Base creation *)

Lemma tables_pass (l : list pyval) :
  (forall x, In x l ->
     exists d, x = PyDict d /\ dict_mem "name" d = true
               /\ dict_mem "fields" d = true) ->
  forallb (fun x => negb (table_entry_bad x)) l = true.
Proof.
  intros H. apply forallb_forall. intros x Hx.
  destruct (H x Hx) as (d & -> & Hn & Hf). cbn. rewrite Hn, Hf. reflexivity.
Qed.

(** C6, as the code has it.  On fully valid input
    [airtable_create_base] always returns [successful] false and issues
    no request.  When the client lookup it starts with succeeds, the
    envelope carries an empty error and populated data whose [message]
    states that the API cannot create a base and that the base is to be
    created manually. *)
Theorem create_base_is_placeholder (name tables workspace_id : string)
    (tables_list : list pyval) (p : process) :
  Str.blank name = false -> Str.blank workspace_id = false ->
  Str.blank tables = false ->
  json_loads tables = Decoded (PyList tables_list) ->
  (forall x, In x tables_list ->
     exists d, x = PyDict d /\ dict_mem "name" d = true
               /\ dict_mem "fields" d = true) ->
  (exists e p',
      airtable_create_base name tables workspace_id p = (Return e, p')
      /\ successful e = false
      /\ network_log p' = network_log p)
  /\ (client_available p = true ->
      exists e p',
        airtable_create_base name tables workspace_id p = (Return e, p')
        /\ successful e = false
        /\ error e = EmptyString
        /\ network_log p' = network_log p
        /\ dict_lookup (data e) "status" = Some (PyStr "configuration_validated")
        /\ dict_lookup (data e) "tables_count"
           = Some (PyInt (Z.of_nat (length tables_list)))
        /\ dict_lookup (data e) "message" = Some (PyStr base_creation_message)
        /\ Str.contains "does not support programmatic base creation"
             base_creation_message = true
        /\ Str.contains "manually create the base" base_creation_message = true).
Proof.
  intros B1 B2 B3 Hl Hok.
  assert (Hrun : client_available p = true ->
                 exists e p',
                   airtable_create_base name tables workspace_id p = (Return e, p')
                   /\ successful e = false
                   /\ error e = EmptyString
                   /\ network_log p' = network_log p
                   /\ dict_lookup (data e) "status"
                      = Some (PyStr "configuration_validated")
                   /\ dict_lookup (data e) "tables_count"
                      = Some (PyInt (Z.of_nat (length tables_list)))
                   /\ dict_lookup (data e) "message"
                      = Some (PyStr base_creation_message)).
  { intros Hav.
    destruct (get_airtable_client_available p Hav) as (cl & p1 & Hg & Hlog).
    unfold airtable_create_base, try_except, bind.
    rewrite Hg, B1, B2, B3, Hl.
    rewrite (for_enumerate_pass table_entry_bad _ tables_list 0
               (tables_pass tables_list Hok)).
    cbn. eexists; eexists. split; [reflexivity |].
    repeat split; exact Hlog. }
  split.
  - destruct (client_available p) eqn:Hav.
    + destruct (Hrun eq_refl) as (e & p' & He & Hs & _ & Hlog & _).
      exists e, p'; auto.
    + unfold airtable_create_base, try_except, bind.
      rewrite (get_airtable_client_missing p Hav).
      eexists; eexists; split; [reflexivity | split; reflexivity].
  - intros Hav. destruct (Hrun Hav) as (e & p' & He & Hs & Her & Hlog & H1 & H2 & H3).
    exists e, p'. repeat split; try assumption; vm_compute; reflexivity.
Qed.

(** *** Decoding the JSON parameters *)

Lemma truthy_both (v : string) :
  Str.truthy v && Str.truthy (Str.strip v) = negb (Str.blank v).
Proof.
  unfold Str.blank. destruct (Str.truthy v), (Str.truthy (Str.strip v)); reflexivity.
Qed.

Lemma optional_passes (n v m : string) :
  json_param_passes (jp n v true Array m) = true ->
  exists l, optional_json_array v n m = inr l.
Proof.
  unfold json_param_passes, optional_json_array. cbn [jp jp_value jp_optional jp_shape].
  rewrite truthy_both. destruct (Str.blank v); cbn [negb].
  - intros _; eexists; reflexivity.
  - destruct (json_loads v) as [x | text]; [| discriminate].
    destruct x; cbn; try discriminate. intros _; eexists; reflexivity.
Qed.

Lemma optional_invalid (n v m text : string) :
  Str.blank v = false -> json_loads v = JSONDecodeError text ->
  optional_json_array v n m
  = inl (failure ("Invalid JSON format for " ++ n ++ " parameter: " ++ text)).
Proof.
  intros B H. unfold optional_json_array. rewrite truthy_both, B, H. reflexivity.
Qed.

Lemma optional_misshaped (n v m : string) (x : pyval) :
  Str.blank v = false -> json_loads v = Decoded x -> is_list x = false ->
  optional_json_array v n m = inl (failure m).
Proof.
  intros B H S. unfold optional_json_array. rewrite truthy_both, B, H.
  destruct x; try reflexivity; discriminate S.
Qed.

Ltac nonblank_cases H :=
  match type of H with
  | (if Str.blank ?v then _ else _) = _ =>
      let B := fresh "B" in
      destruct (Str.blank v) eqn:B; [discriminate H | nonblank_cases H]
  | _ => clear H
  end.

Lemma split_one {A} (x j : A) (before after : list A) :
  [x] = (before ++ j :: after)%list -> before = [] /\ j = x.
Proof.
  destruct before as [| b before]; cbn; intros H; inversion H; subst.
  - auto.
  - destruct before; discriminate.
Qed.

Lemma split_three {A} (x1 x2 x3 j : A) (before after : list A) :
  [x1; x2; x3] = (before ++ j :: after)%list ->
  (before = [] /\ j = x1) \/ (before = [x1] /\ j = x2)
  \/ (before = [x1; x2] /\ j = x3).
Proof.
  destruct before as [| b1 [| b2 [| b3 before]]]; cbn; intros H;
    inversion H; subst; auto.
  destruct before; discriminate.
Qed.

(** Finds which JSON parameter of the tool [j] is. *)
Ltac locate_param Hsplit :=
  first
    [ apply split_one in Hsplit as [-> ->]
    | apply split_three in Hsplit as [[-> ->] | [[-> ->] | [-> ->]]] ].

Ltac open_tool :=
  unfold airtable_create_base, airtable_create_multiple_records,
    airtable_create_record, airtable_create_table,
    airtable_delete_multiple_records, airtable_update_record,
    airtable_update_multiple_records, airtable_list_records, try_except;
  use_blanks.

(** C4, as the code has it.  Take a JSON-string parameter of a tool
    and suppose the tool gets as far as decoding it: the required
    strings are non-blank, the parameter itself is non-blank, the JSON
    parameters decoded before it pass, and, for the two tools that look
    the client up before decoding, the lookup succeeds.  Then text that
    [json.loads] refuses yields the rejection [Invalid JSON format for
    <param> parameter: ] followed by the decoder's own message, a value
    of the wrong shape yields the parameter's shape message, and in both
    cases no request is issued. *)
Theorem json_parameter_rejected (c : tool_call) (p : process)
    (before after : list json_param) (j : json_param) :
  json_parameters c = (before ++ j :: after)%list ->
  first_blank (required_parameters c) = None ->
  Str.blank (jp_value j) = false ->
  forallb json_param_passes before = true ->
  (looks_up_before_decoding c = true -> client_available p = true) ->
  (forall text,
      json_loads (jp_value j) = JSONDecodeError text ->
      exists p',
        invoke c p
        = (Return (failure ("Invalid JSON format for " ++ jp_name j
                              ++ " parameter: " ++ text)), p')
        /\ network_log p' = network_log p)
  /\ (forall v,
         json_loads (jp_value j) = Decoded v ->
         has_shape (jp_shape j) v = false ->
         exists p',
           invoke c p = (Return (failure (jp_shape_message j)), p')
           /\ network_log p' = network_log p).
Proof.
  intros Hsplit Hreq Hj Hbefore Hav.
  destruct c; cbn [json_parameters] in Hsplit;
    try (destruct before; discriminate Hsplit);
    cbn [required_parameters first_blank rp rp_value] in Hreq;
    nonblank_cases Hreq; cbn [invoke].
  - (* create_base *)
    destruct (get_airtable_client_available p (Hav eq_refl))
      as (cl & p1 & Hg & Hlog).
    locate_param Hsplit. cbn [jp jp_value jp_name jp_shape
                                      jp_shape_message has_shape] in *.
    split; [intros text Hl | intros v Hl Hs]; exists p1;
      (split; [| exact Hlog]); open_tool; unfold bind; rewrite Hg;
      use_blanks; rewrite Hl; [reflexivity |].
    destruct v; try reflexivity; discriminate Hs.
  - (* create_multiple_records *)
    locate_param Hsplit. cbn [jp jp_value jp_name jp_shape
                                      jp_shape_message has_shape] in *.
    split; [intros text Hl | intros v Hl Hs]; exists p;
      (split; [| reflexivity]); open_tool; rewrite Hl; [reflexivity |].
    destruct v; try reflexivity; discriminate Hs.
  - (* create_record *)
    locate_param Hsplit. cbn [jp jp_value jp_name jp_shape
                                      jp_shape_message has_shape] in *.
    split; [intros text Hl | intros v Hl Hs]; exists p;
      (split; [| reflexivity]); open_tool; rewrite Hl; [reflexivity |].
    destruct v; try reflexivity; discriminate Hs.
  - (* create_table *)
    locate_param Hsplit. cbn [jp jp_value jp_name jp_shape
                                      jp_shape_message has_shape] in *.
    split; [intros text Hl | intros v Hl Hs]; exists p;
      (split; [| reflexivity]); open_tool; rewrite Hl; [reflexivity |].
    destruct v; try reflexivity; discriminate Hs.
  - (* delete_multiple_records *)
    locate_param Hsplit. cbn [jp jp_value jp_name jp_shape
                                      jp_shape_message has_shape] in *.
    split; [intros text Hl | intros v Hl Hs]; exists p;
      (split; [| reflexivity]); open_tool; rewrite Hl; [reflexivity |].
    destruct v; try reflexivity; discriminate Hs.
  - (* update_record *)
    locate_param Hsplit. cbn [jp jp_value jp_name jp_shape
                                      jp_shape_message has_shape] in *.
    split; [intros text Hl | intros v Hl Hs]; exists p;
      (split; [| reflexivity]); open_tool; rewrite Hl; [reflexivity |].
    destruct v; try reflexivity; discriminate Hs.
  - (* update_multiple_records *)
    locate_param Hsplit. cbn [jp jp_value jp_name jp_shape
                                      jp_shape_message has_shape] in *.
    split; [intros text Hl | intros v Hl Hs]; exists p;
      (split; [| reflexivity]); open_tool; rewrite Hl; [reflexivity |].
    destruct v; try reflexivity; discriminate Hs.
  - (* list_records: fields, then sort, then record_metadata *)
    destruct (get_airtable_client_available p (Hav eq_refl))
      as (cl & p1 & Hg & Hlog).
    locate_param Hsplit;
      cbn [jp jp_value jp_name jp_shape jp_shape_message has_shape
           forallb] in *;
      repeat match goal with
             | H : _ && _ = true |- _ => apply andb_true_iff in H as [? H]
             end;
      repeat match goal with
             | H : json_param_passes (jp _ _ true Array _) = true |- _ =>
                 apply optional_passes in H as [? H]
             end;
      (split; [intros text Hl | intros v Hl Hs]; exists p1;
       (split; [| exact Hlog]); open_tool; unfold bind; rewrite Hg;
       repeat match goal with
              | H : optional_json_array _ _ _ = inr _ |- _ => rewrite H; clear H
              end;
       [ rewrite (optional_invalid _ _ _ _ Hj Hl)
       | rewrite (optional_misshaped _ _ _ _ Hj Hl Hs) ];
       reflexivity).
Qed.

(** *** An upstream 401 with kind INVALID_API_KEY *)

Lemma quiet_stateless {A} (X : exn -> Prop) (m : M A) :
  stateless m -> quiet_or X m.
Proof.
  intros H p o p' E. left. specialize (H p). rewrite E in H. cbn in H.
  subst; reflexivity.
Qed.

Lemma quiet_bind {A B} (X : exn -> Prop) (m : M A) (f : A -> M B) :
  quiet_or X m -> (forall a, quiet_or X (f a)) -> quiet_or X (bind m f).
Proof.
  intros Hm Hf p o p' E. unfold bind in E.
  destruct (m p) as [[a | e] p1] eqn:Em.
  - destruct (Hm _ _ _ Em) as [Hlog | (e & He & _)]; [| discriminate He].
    destruct (Hf a _ _ _ E) as [Hlog' | Hx]; [left; congruence | right; exact Hx].
  - inversion E; subst.
    destruct (Hm _ _ _ Em) as [Hlog | (e' & He & Hx)]; [left; exact Hlog |].
    inversion He; subst. right. exists e'; split; [reflexivity | exact Hx].
Qed.

Lemma quiet_get_airtable_client (X : exn -> Prop) : quiet_or X get_airtable_client.
Proof.
  intros p o p' E. left. unfold get_airtable_client in E.
  destruct (airtable_client p); [inversion E; reflexivity |].
  destruct (environ_AIRTABLE_API_KEY p) as [k |];
    [destruct (Str.truthy k) |]; inversion E; reflexivity.
Qed.

Lemma stateless_create_base_handler (e : exn) : stateless (create_base_handler e).
Proof.
  destruct e; try apply stateless_except_Exception.
  unfold create_base_handler.
  repeat match goal with
         | |- stateless (if ?b then _ else _) => destruct b
         end; apply stateless_ret.
Qed.

(** Walks through the body of a tool; [leaf] closes the goal for a
    network method. *)
Ltac walk_quiet leaf :=
  repeat first
    [ apply quiet_stateless; apply stateless_ret
    | apply quiet_bind;
      [ first [ apply quiet_get_airtable_client
              | apply quiet_stateless; apply stateless_py_get
              | apply quiet_stateless; apply stateless_py_len
              | apply quiet_stateless; apply stateless_ret
              | leaf ]
      | intros ]
    | match goal with
      | |- quiet_or _ (if ?b then _ else _) => destruct b
      | |- quiet_or _ (match ?x with _ => _ end) => destruct x
      end ].

(** [airtable_create_base] never issues a request. *)
Lemma create_base_is_quiet name tables workspace_id p o p' :
  airtable_create_base name tables workspace_id p = (o, p') ->
  network_log p' = network_log p.
Proof.
  intros E. unfold airtable_create_base, try_except in E.
  match type of E with
  | match ?body p with _ => _ end = _ =>
      assert (Hb : quiet_or (fun _ => False) body)
        by (walk_quiet ltac:(unfold AirtableClient_create_base;
                             apply quiet_stateless; apply stateless_ret));
      destruct (body p) as [[a | e] p1] eqn:Eb
  end.
  - inversion E; subst.
    destruct (Hb _ _ _ Eb) as [H | (e & _ & [])]; exact H.
  - pose proof (stateless_create_base_handler e p1) as Hs.
    rewrite E in Hs; cbn in Hs; subst p'.
    destruct (Hb _ _ _ Eb) as [H | (e' & _ & [])]; exact H.
Qed.

Section Unauthorized.

(** The upstream answers every request with 401 and the INVALID_API_KEY
    body. *)
Hypothesis upstream_401 :
  forall req, exists text,
    requests_send req = HttpError 401 (Some Scenario.unauthorized_body) text.

Lemma request_raises_invalid_key (req : Request) (p : process) :
  AirtableClient_request req p = (Raise invalid_key_error, log_request req p).
Proof.
  unfold AirtableClient_request. destruct (upstream_401 req) as [text ->].
  reflexivity.
Qed.

Lemma quiet_request (req : Request) :
  quiet_or (eq invalid_key_error) (AirtableClient_request req).
Proof.
  intros p o p' E. rewrite request_raises_invalid_key in E.
  inversion E; subst. right. eexists; split; reflexivity.
Qed.

Lemma quiet_try (body : M Envelope) (p : process) o p' :
  quiet_or (eq invalid_key_error) body ->
  try_except body except_Exception p = (o, p') ->
  network_log p' = network_log p
  \/ o = Return (failure invalid_key_generic_message).
Proof.
  intros Hb E. unfold try_except in E.
  destruct (body p) as [[a | e] p1] eqn:Eb.
  - inversion E; subst.
    destruct (Hb _ _ _ Eb) as [H | (e & He & _)]; [left; exact H | discriminate He].
  - destruct (Hb _ _ _ Eb) as [H | (e' & He & <-)].
    + left. pose proof (stateless_except_Exception e p1) as Hs.
      rewrite E in Hs; cbn in Hs; subst p'. exact H.
    + inversion He; subst e. cbn in E. inversion E; subst. right; reflexivity.
Qed.

Lemma tools_quiet_or_generic (c : tool_call) p o p' :
  invoke c p = (o, p') ->
  network_log p' = network_log p
  \/ (is_create_base c = false /\ o = Return (failure invalid_key_generic_message)).
Proof.
  destruct c; cbn [invoke is_create_base]; intros E;
    [left; eapply create_base_is_quiet; exact E | ..].
  all: match type of E with
       | ?tool _ = _ =>
           let h := eval cbv beta delta
                      [airtable_create_comment airtable_create_field
                       airtable_create_multiple_records airtable_create_record
                       airtable_create_table airtable_get_base_schema
                       airtable_get_record airtable_get_user_info
                       airtable_list_bases airtable_list_comments
                       airtable_delete_record airtable_delete_multiple_records
                       airtable_delete_comment airtable_update_record
                       airtable_update_multiple_records airtable_list_records]
                      in tool in
           change tool with h in E
       end;
    apply quiet_try in E;
    [ destruct E as [E | E]; [left; exact E | right; split; [reflexivity | exact E]]
    | walk_quiet ltac:(to_request; apply quiet_request) ].
Qed.

(** The extent of the missing dispatch.  When the upstream answers 401
    with the body [{error: {type: INVALID_API_KEY, message: bad key}}],
    every network method of the client raises the normalised error of
    kind INVALID_API_KEY, and every tool that issued a request answers
    through its [except Exception] alone: the error is [Unexpected error:
    Airtable API Error (INVALID_API_KEY): bad key], which contains
    INVALID_API_KEY but says nothing of AIRTABLE_API_KEY.  The clause
    that dispatches on the kind and asks to check AIRTABLE_API_KEY is
    written in [airtable_create_base] alone, a tool that issues no
    request and so never enters it. *)
Theorem invalid_api_key_envelope :
  (forall req p,
      AirtableClient_request req p = (Raise invalid_key_error, log_request req p))
  /\ (forall c p o p',
         invoke c p = (o, p') ->
         network_log p' <> network_log p ->
         is_create_base c = false
         /\ o = Return (failure invalid_key_generic_message))
  /\ Str.contains "INVALID_API_KEY" invalid_key_generic_message = true
  /\ Str.contains "AIRTABLE_API_KEY" invalid_key_generic_message = false
  /\ (forall message status p,
         create_base_handler
           (AirtableAPIError (PyStr "INVALID_API_KEY") message status) p
         = (Return (failure invalid_key_canned_message), p))
  /\ Str.contains "AIRTABLE_API_KEY" invalid_key_canned_message = true.
Proof.
  split; [exact request_raises_invalid_key |].
  split.
  { intros c p o p' E Hlog.
    destruct (tools_quiet_or_generic c p o p' E) as [H | H]; [contradiction | exact H]. }
  repeat split; vm_compute; reflexivity.
Qed.

End Unauthorized.

(* ------------------------------------------------------------------ *)
(** *** The client singleton *)

(** X1.  [get_airtable_client] creates the client once.  A successful call
    leaves the client in the global and issues no request; from then on
    every call returns that client and changes nothing, whatever the
    environment holds.  A client that had to be created carries the key of
    the environment, untouched.  A failed call raises the [ValueError] of
    the missing variable and changes nothing. *)
Theorem client_is_created_once (p : process) :
  (forall c p',
      get_airtable_client p = (Return c, p') ->
      airtable_client p' = Some c
      /\ network_log p' = network_log p
      /\ environ_AIRTABLE_API_KEY p' = environ_AIRTABLE_API_KEY p
      /\ (airtable_client p = None ->
          exists k, environ_AIRTABLE_API_KEY p = Some k
                    /\ k <> EmptyString /\ c = AirtableClient_init k)
      /\ forall q, airtable_client q = Some c -> get_airtable_client q = (Return c, q))
  /\ (forall e p',
         get_airtable_client p = (Raise e, p') ->
         p' = p
         /\ e = ValueError "AIRTABLE_API_KEY environment variable is required"
         /\ airtable_client p = None
         /\ (environ_AIRTABLE_API_KEY p = None
             \/ environ_AIRTABLE_API_KEY p = Some EmptyString)).
Proof.
  split.
  - intros c p' H. unfold get_airtable_client in H.
    assert (Hreuse : forall q, airtable_client q = Some c ->
                               get_airtable_client q = (Return c, q)).
    { intros q Hq. unfold get_airtable_client. rewrite Hq. reflexivity. }
    destruct (airtable_client p) as [c0 |] eqn:Hc.
    + inversion H; subst. repeat split; auto. discriminate.
    + destruct (environ_AIRTABLE_API_KEY p) as [k |] eqn:Hk; [| discriminate H].
      destruct (Str.truthy k) eqn:Ht; [| discriminate H].
      inversion H; subst. cbn. rewrite Hk. repeat split; auto.
      intros _. exists k. repeat split. intros ->. discriminate Ht.
  - intros e p' H. unfold get_airtable_client in H.
    destruct (airtable_client p) as [c0 |]; [discriminate H |].
    destruct (environ_AIRTABLE_API_KEY p) as [k |].
    + destruct (Str.truthy k) eqn:Ht; [discriminate H |].
      inversion H; subst. repeat split. right.
      destruct k; [reflexivity | discriminate Ht].
    + inversion H; subst. repeat split. left; reflexivity.
Qed.

(* ------------------------------------------------------------------ *)
(** *** What every request carries *)

Lemma prefix_append (s t : string) : String.prefix s (s ++ t) = true.
Proof.
  induction s as [| a s IH]; cbn; [destruct t; reflexivity |].
  destruct (ascii_dec a a) as [_ | Hne]; [exact IH | contradiction].
Qed.

Lemma append_assoc (s t u : string) : (s ++ t) ++ u = s ++ t ++ u.
Proof. induction s as [| a s IH]; cbn; [reflexivity | rewrite IH; reflexivity]. Qed.

(** X2.  Every network method sends the headers of the client with a ten
    second timeout, to a URL under the base URL of the client.  For a
    client made by [__init__] these are the Airtable API root, the bearer
    token built from the key, and the JSON content type. *)
Theorem requests_are_authenticated (self : AirtableClient) (c : client_call) :
  req_headers (request_of self c) = headers self
  /\ req_timeout (request_of self c) = 10%Z
  /\ String.prefix (base_url self) (req_url (request_of self c)) = true
  /\ forall key,
       self = AirtableClient_init key ->
       String.prefix "https://api.airtable.com/v0/" (req_url (request_of self c)) = true
       /\ dict_lookup (req_headers (request_of self c)) "Authorization"
          = Some (PyStr ("Bearer " ++ key))
       /\ dict_lookup (req_headers (request_of self c)) "Content-Type"
          = Some (PyStr "application/json").
Proof.
  assert (Hurl : exists rest, req_url (request_of self c) = base_url self ++ "/" ++ rest).
  { destruct c; cbn [request_of];
      try (eexists; unfold create_comment_request, create_field_request,
             create_multiple_records_request, create_record_request,
             create_table_request, get_base_schema_request, get_record_request,
             get_user_info_request, list_bases_request, list_comments_request,
             delete_comment_request, delete_record_request,
             update_record_request, update_multiple_records_request,
             list_records_request, mk_request; cbn [req_url]; reflexivity).
    unfold delete_multiple_records_request, mk_request; cbn [req_url].
    match goal with |- context [if ?b then _ else _] => destruct b end.
    - eexists. rewrite append_assoc. cbn. rewrite append_assoc. reflexivity.
    - eexists; reflexivity. }
  destruct Hurl as [rest Hurl].
  assert (Hh : req_headers (request_of self c) = headers self)
    by (destruct c; reflexivity).
  split; [exact Hh |].
  split; [destruct c; reflexivity |].
  split; [rewrite Hurl; apply prefix_append |].
  intros key ->. rewrite Hh, Hurl. cbn [AirtableClient_init base_url headers].
  split; [| split; reflexivity].
  change ("https://api.airtable.com/v0" ++ "/" ++ rest)
    with ("https://api.airtable.com/v0/" ++ rest).
  apply prefix_append.
Qed.

(* ------------------------------------------------------------------ *)
(** *** HTTP errors *)

(** X3.  What a network method raises when the upstream answers with an error
    status.  The status code is always carried over.  The kind and the
    message come from the [error] object of the body, [unknown_error] and
    the text of the [HTTPError] standing in for what is missing: a body
    that does not decode, a body without [error], an [error] without
    [type] or [message].  A body that is not an object, or whose [error]
    is not an object, makes the method raise [AttributeError] instead of
    [AirtableAPIError]. *)
Theorem http_error_is_normalised (self : AirtableClient) (c : client_call)
    (p : process) (status : Z) (body : option pyval) (text : string) :
  requests_send (request_of self c) = HttpError status body text ->
  let after := log_request (request_of self c) p in
  let unknown := AirtableAPIError (PyStr "unknown_error") (PyStr text) status in
  (body = None -> client_invoke self c p = (Raise unknown, after))
  /\ (forall d,
         body = Some (PyDict d) -> dict_lookup d "error" = None ->
         client_invoke self c p = (Raise unknown, after))
  /\ (forall d e,
         body = Some (PyDict d) -> dict_lookup d "error" = Some (PyDict e) ->
         client_invoke self c p
         = (Raise (AirtableAPIError (get_or e "type" (PyStr "unknown_error"))
                     (get_or e "message" (PyStr text)) status),
            after))
  /\ (forall d v,
         body = Some (PyDict d) -> dict_lookup d "error" = Some v ->
         is_dict v = false ->
         client_invoke self c p
         = (Raise (AttributeError ("'" ++ type_name v
                                     ++ "' object has no attribute 'get'")),
            after))
  /\ (forall v,
         body = Some v -> is_dict v = false ->
         client_invoke self c p
         = (Raise (AttributeError ("'" ++ type_name v
                                     ++ "' object has no attribute 'get'")),
            after)).
Proof.
  intros H after unknown.
  assert (Hrun : client_invoke self c p = except_HTTPError status body text after).
  { destruct c; cbn [client_invoke request_of] in *; to_request;
      unfold AirtableClient_request; rewrite H; reflexivity. }
  rewrite Hrun. unfold except_HTTPError, get_or.
  split; [intros ->; reflexivity |].
  split; [intros d -> Hd; cbn; unfold bind; cbn; rewrite Hd; reflexivity |].
  split; [intros d e -> Hd; cbn; unfold bind; cbn; rewrite Hd; reflexivity |].
  split.
  - intros d v -> Hd Hv. cbn. unfold bind; cbn. rewrite Hd.
    destruct v; try reflexivity; discriminate Hv.
  - intros v -> Hv. destruct v; try reflexivity; discriminate Hv.
Qed.

(* ------------------------------------------------------------------ *)
(** *** One request at most, and an untouched configuration *)

Lemma tidy_ret {A} (Q : A -> Prop) (a : A) : Q a -> tidy Q (ret a).
Proof.
  intros H p o p' E. inversion E; subst. repeat split; auto.
  left; split; [reflexivity |]. intros a' Ha. inversion Ha; subst; exact H.
Qed.

Lemma tidy_stateless {A} (Q : A -> Prop) (m : M A) :
  stateless m -> (forall p a p', m p = (Return a, p') -> Q a) -> tidy Q m.
Proof.
  intros Hs HQ p o p' E. pose proof (Hs p) as H. rewrite E in H; cbn in H; subst p'.
  repeat split; auto. left; split; [reflexivity |].
  intros a ->. eapply HQ; exact E.
Qed.

Lemma tidy_get_airtable_client : tidy (fun _ => True) get_airtable_client.
Proof.
  intros p o p' E. unfold get_airtable_client in E.
  destruct (airtable_client p) as [c |] eqn:Hc.
  - inversion E; subst. split; [reflexivity |].
    split; [intros cl Hcl; congruence |].
    left; split; [reflexivity | trivial].
  - destruct (environ_AIRTABLE_API_KEY p) as [k |] eqn:Hk;
      [destruct (Str.truthy k) |]; inversion E; subst; cbn;
      (split; [auto |]; split; [intros cl Hcl; discriminate Hcl |]);
      left; (split; [reflexivity | trivial]).
Qed.

(** Steps that issue no request, followed by a tidy continuation. *)
Lemma tidy_bind {A B} (Q : B -> Prop) (m : M A) (f : A -> M B) :
  tidy (fun _ => True) m ->
  (forall p o p', m p = (o, p') -> network_log p' = network_log p) ->
  (forall a, tidy Q (f a)) ->
  tidy Q (bind m f).
Proof.
  intros Hm Hq Hf p o p' E. unfold bind in E.
  destruct (m p) as [[a | e] p1] eqn:Em.
  - destruct (Hm _ _ _ Em) as (He & Hc & _). pose proof (Hq _ _ _ Em) as Hl.
    destruct (Hf a _ _ _ E) as (He' & Hc' & Hlog).
    split; [congruence |]. split; [intros cl H; apply Hc', Hc, H |].
    rewrite <- Hl. exact Hlog.
  - inversion E; subst. destruct (Hm _ _ _ Em) as (He & Hc & _).
    repeat split; auto. left; split; [eapply Hq; exact Em | discriminate].
Qed.

(** The one request, followed by steps that leave the process alone. *)
Lemma tidy_request_then {B} (Q : B -> Prop) (req : Request) (f : pyval -> M B) :
  (forall a, stateless (f a)) -> tidy Q (bind (AirtableClient_request req) f).
Proof.
  intros Hf p o p' E.
  assert (Hp : p' = log_request req p).
  { rewrite <- (request_logs req p), <- (snd_bind_stateless _ f p Hf), E.
    reflexivity. }
  subst p'. repeat split; auto. right. exists req; reflexivity.
Qed.

Lemma rejected_unsuccessful (e : Envelope) : rejected e -> successful e = false.
Proof. intros (_ & _ & H); exact H. Qed.

Lemma optional_json_array_unsuccessful value param msg a :
  optional_json_array value param msg = inl a -> successful a = false.
Proof.
  unfold optional_json_array; intros E.
  destruct (Str.truthy value && Str.truthy (Str.strip value)); [| discriminate E].
  destruct (json_loads value) as [v | text]; [destruct v |];
    inversion E; subst; reflexivity.
Qed.

Lemma update_entry_check_unsuccessful i x a :
  update_entry_check i x = Some a -> successful a = false.
Proof. intros H. apply rejected_unsuccessful. eapply update_entry_check_rejects; exact H. Qed.

Ltac stateless_tail :=
  intros;
  repeat (apply stateless_bind;
          [first [apply stateless_py_get | apply stateless_py_len] | intros]);
  apply stateless_ret.

Ltac quiet_step :=
  first
    [ apply stateless_py_get | apply stateless_py_len | apply stateless_ret ].

Ltac walk_tidy :=
  repeat first
    [ apply tidy_ret; reflexivity
    | match goal with
      | E : for_enumerate _ _ _ = Some ?a |- tidy _ (ret ?a) =>
          apply tidy_ret; revert E;
          apply (for_enumerate_some _ (fun x => successful x = false));
          first [ exact update_entry_check_unsuccessful
                | let H := fresh in
                  intros ? ? ? H;
                  match type of H with
                  | (if ?b then _ else _) = _ =>
                      destruct b; [inversion H; subst; reflexivity | discriminate H]
                  end ]
      | E : optional_json_array _ _ _ = inl ?a |- tidy _ (ret ?a) =>
          apply tidy_ret; eapply optional_json_array_unsuccessful; exact E
      end
    | to_request; apply tidy_request_then; stateless_tail
    | apply tidy_bind;
      [ first [ apply tidy_get_airtable_client
              | apply tidy_stateless; [first [quiet_step | unfold AirtableClient_create_base; apply stateless_ret] | trivial] ]
      | first [ intros ? ? ? E; eapply (quiet_get_airtable_client (fun _ => False)) in E;
                destruct E as [E | (? & _ & [])]; exact E
              | intros p0 o0 p0' E;
                match type of E with
                | ?m p0 = _ =>
                    let Hs := fresh in
                    assert (Hs : stateless m)
                      by first [quiet_step
                               | unfold AirtableClient_create_base; apply stateless_ret];
                    specialize (Hs p0); rewrite E in Hs; cbn in Hs; subst; reflexivity
                end ]
      | intros ]
    | match goal with
      | |- tidy _ (if ?b then _ else _) => destruct b
      | |- tidy _ (match ?x with _ => _ end) => destruct x eqn:?
      end ].

Lemma tidy_handler (body : M Envelope) (h : exn -> M Envelope) :
  tidy (fun e => successful e = false) body ->
  (forall e, stateless (h e)) ->
  (forall e p a p', h e p = (Return a, p') -> successful a = false) ->
  tidy (fun e => successful e = false) (try_except body h).
Proof.
  intros Hb Hs Hr p o p' E. unfold try_except in E.
  destruct (body p) as [[a | e] p1] eqn:Eb.
  - inversion E; subst. exact (Hb _ _ _ Eb).
  - pose proof (Hs e p1) as H. rewrite E in H; cbn in H; subst p'.
    destruct (Hb _ _ _ Eb) as (He & Hc & Hlog). repeat split; auto.
    destruct Hlog as [[Hl _] | Hl]; [left | right; exact Hl].
    split; [exact Hl |]. intros a ->. eapply Hr; exact E.
Qed.

Lemma tools_are_tidy (c : tool_call) :
  tidy (fun e => successful e = false) (invoke c).
Proof.
  destruct c; cbn [invoke].
  1: { apply tidy_handler;
         [ walk_tidy
         | apply stateless_create_base_handler
         | intros e p a p' H; apply rejected_unsuccessful;
           eapply create_base_handler_rejects; exact H ]. }
  all: apply tidy_handler;
    [ walk_tidy
    | apply stateless_except_Exception
    | intros e p a p' H; apply rejected_unsuccessful;
      eapply except_Exception_rejects; exact H ].
Qed.

(** X4.  No tool retries or fans out: a call adds at most one request to
    those already issued, and a call that reports [successful] true has
    issued exactly one. *)
Theorem one_request_per_call (c : tool_call) (p p' : process)
    (o : outcome Envelope) :
  invoke c p = (o, p') ->
  (network_log p' = network_log p
   \/ exists req, network_log p' = req :: network_log p)
  /\ forall e,
       o = Return e -> successful e = true ->
       exists req, network_log p' = req :: network_log p.
Proof.
  intros E. destruct (tools_are_tidy c p o p' E) as (_ & _ & [[Hl HQ] | Hl]).
  - split; [left; exact Hl |]. intros e He Hs. rewrite (HQ e He) in Hs. discriminate Hs.
  - split; [right; exact Hl |]. intros; exact Hl.
Qed.

(** X5.  No tool touches the configuration: the environment variable is as it
    was, and a client that exists before the call is still the client
    after it. *)
Theorem configuration_is_preserved (c : tool_call) (p p' : process)
    (o : outcome Envelope) :
  invoke c p = (o, p') ->
  environ_AIRTABLE_API_KEY p' = environ_AIRTABLE_API_KEY p
  /\ forall cl, airtable_client p = Some cl -> airtable_client p' = Some cl.
Proof.
  intros E. destruct (tools_are_tidy c p o p' E) as (He & Hc & _). auto.
Qed.

(* ------------------------------------------------------------------ *)
(** *** What the tools make of a failed call *)

Section ClientRaises.

(** Every network method raises [raised], an exception that
    [except Exception] catches, after its request. *)
Variable raised : exn.
Hypothesis client_raises :
  forall req p, AirtableClient_request req p = (Raise raised, log_request req p).
Hypothesis raised_is_caught : is_Exception raised = true.

Lemma quiet_request_raises (req : Request) :
  quiet_or (eq raised) (AirtableClient_request req).
Proof.
  intros p o p' E. rewrite client_raises in E.
  inversion E; subst. right. eexists; split; reflexivity.
Qed.

Lemma quiet_try_raises (body : M Envelope) (p : process) o p' :
  quiet_or (eq raised) body ->
  try_except body except_Exception p = (o, p') ->
  network_log p' = network_log p
  \/ o = Return (failure ("Unexpected error: " ++ str_exn raised)).
Proof.
  intros Hb E. unfold try_except in E.
  destruct (body p) as [[a | e] p1] eqn:Eb.
  - inversion E; subst.
    destruct (Hb _ _ _ Eb) as [H | (e & He & _)]; [left; exact H | discriminate He].
  - destruct (Hb _ _ _ Eb) as [H | (e' & He & <-)].
    + left. pose proof (stateless_except_Exception e p1) as Hs.
      rewrite E in Hs; cbn in Hs; subst p'. exact H.
    + inversion He; subst e. unfold except_Exception in E.
      rewrite raised_is_caught in E. inversion E; subst. right; reflexivity.
Qed.

Lemma tools_report_raised (c : tool_call) p o p' :
  invoke c p = (o, p') ->
  network_log p' <> network_log p ->
  o = Return (failure ("Unexpected error: " ++ str_exn raised)).
Proof.
  intros E Hlog.
  destruct c; cbn [invoke] in E;
    [exfalso; apply Hlog; eapply create_base_is_quiet; exact E | ..].
  all: match type of E with
       | ?tool _ = _ =>
           let h := eval cbv beta delta
                      [airtable_create_comment airtable_create_field
                       airtable_create_multiple_records airtable_create_record
                       airtable_create_table airtable_get_base_schema
                       airtable_get_record airtable_get_user_info
                       airtable_list_bases airtable_list_comments
                       airtable_delete_record airtable_delete_multiple_records
                       airtable_delete_comment airtable_update_record
                       airtable_update_multiple_records airtable_list_records]
                      in tool in
           change tool with h in E
       end;
    apply quiet_try_raises in E;
    [ destruct E as [E | E]; [contradiction | exact E]
    | walk_quiet ltac:(to_request; apply quiet_request_raises) ].
Qed.

End ClientRaises.

(** X6.  An upstream HTTP error whose body carries an [error] object with a
    [type] and a [message], of whatever kind and status: every tool that
    issued the request returns the generic rejection that embeds the kind
    and the message.  None of the known kinds gets a message of its own,
    and the status code is not reported. *)
Theorem tools_report_http_errors (status : Z) (d e : dict) (kind message : pyval) :
  dict_lookup d "error" = Some (PyDict e) ->
  dict_lookup e "type" = Some kind ->
  dict_lookup e "message" = Some message ->
  (forall req, exists text,
      requests_send req = HttpError status (Some (PyDict d)) text) ->
  forall c p o p',
    invoke c p = (o, p') ->
    network_log p' <> network_log p ->
    o = Return (failure ("Unexpected error: Airtable API Error ("
                           ++ py_format kind ++ "): " ++ py_format message)).
Proof.
  intros Hd Hk Hm Hsend.
  apply (tools_report_raised (AirtableAPIError kind message status)); [| reflexivity].
  intros req p. unfold AirtableClient_request.
  destruct (Hsend req) as [text ->].
  unfold except_HTTPError, bind. cbn. rewrite Hd. cbn. rewrite Hk, Hm. reflexivity.
Qed.

(** X7.  No HTTP response at all: every tool that issued the request returns
    the generic rejection that embeds the [network_error] kind and the
    text of the transport failure. *)
Theorem tools_report_network_failure (text : string) :
  (forall req, requests_send req = RequestFailed text) ->
  forall c p o p',
    invoke c p = (o, p') ->
    network_log p' <> network_log p ->
    o = Return (failure ("Unexpected error: Airtable API Error (network_error): Network error: "
                           ++ text)).
Proof.
  intros Hsend.
  apply (tools_report_raised
           (AirtableAPIError (PyStr "network_error")
              (PyStr ("Network error: " ++ text)) 0)); [| reflexivity].
  intros req p. unfold AirtableClient_request. rewrite Hsend. reflexivity.
Qed.

(** X8.  An upstream HTTP error whose body has an [error] that is not an
    object (a bare string, say): the kind and the status are lost, and
    every tool that issued the request reports the [AttributeError] of
    the failed [.get]. *)
Theorem tools_report_malformed_error_body (status : Z) (d : dict) (v : pyval) :
  dict_lookup d "error" = Some v ->
  is_dict v = false ->
  (forall req, exists text,
      requests_send req = HttpError status (Some (PyDict d)) text) ->
  forall c p o p',
    invoke c p = (o, p') ->
    network_log p' <> network_log p ->
    o = Return (failure ("Unexpected error: '" ++ type_name v
                           ++ "' object has no attribute 'get'")).
Proof.
  intros Hd Hv Hsend.
  apply (tools_report_raised
           (AttributeError ("'" ++ type_name v ++ "' object has no attribute 'get'")));
    [| reflexivity].
  intros req p. unfold AirtableClient_request.
  destruct (Hsend req) as [text ->].
  unfold except_HTTPError, bind. cbn. rewrite Hd.
  destruct v; try reflexivity; discriminate Hv.
Qed.

Section NonObjectBody.

(** The upstream answers every request with 200 and a JSON value that is
    not an object. *)
Variable body : pyval.
Hypothesis body_not_object : is_dict body = false.
Hypothesis upstream_200 : forall req, requests_send req = HttpOk body.

Lemma quiet_request_then_get {B} (req : Request) (k : string) (default : pyval)
    (g : pyval -> pyval -> M B) :
  quiet_or (eq (AttributeError ("'" ++ type_name body
                                  ++ "' object has no attribute 'get'")))
    (bind (AirtableClient_request req) (fun r => bind (py_get r k default) (g r))).
Proof.
  intros p o p' E. unfold bind, AirtableClient_request in E.
  rewrite upstream_200 in E. right.
  destruct body; try discriminate body_not_object; cbn in E;
    inversion E; subst; eexists; split; reflexivity.
Qed.

Ltac walk_non_object :=
  repeat first
    [ apply quiet_stateless; apply stateless_ret
    | to_request; apply quiet_request_then_get
    | apply quiet_bind;
      [ first [ apply quiet_get_airtable_client
              | apply quiet_stateless; apply stateless_py_get
              | apply quiet_stateless; apply stateless_py_len
              | apply quiet_stateless; apply stateless_ret ]
      | intros ]
    | match goal with
      | |- quiet_or _ (if ?b then _ else _) => destruct b
      | |- quiet_or _ (match ?x with _ => _ end) => destruct x
      end ].

Lemma delete_comment_any_body base_id table_id_or_name record_id row_comment_id
    p o p' :
  airtable_delete_comment base_id table_id_or_name record_id row_comment_id p
  = (o, p') ->
  network_log p' <> network_log p ->
  o = Return (success
                [("comment_deleted", body);
                 ("base_id", PyStr base_id);
                 ("table_id_or_name", PyStr table_id_or_name);
                 ("record_id", PyStr record_id);
                 ("row_comment_id", PyStr row_comment_id);
                 ("status", PyStr "comment_deleted");
                 ("message", PyStr "Comment deleted successfully")]).
Proof.
  unfold airtable_delete_comment, try_except. intros E Hlog.
  repeat match type of E with
         | context [if Str.blank ?v then _ else _] =>
             destruct (Str.blank v);
             [cbn in E; inversion E; subst; contradiction |]
         end.
  unfold bind at 1 in E.
  destruct (get_airtable_client p) as [[cl | e] p1] eqn:Eg.
  - unfold AirtableClient_delete_comment, bind, AirtableClient_request in E.
    rewrite upstream_200 in E. cbn in E. inversion E; reflexivity.
  - exfalso. apply Hlog.
    pose proof (stateless_except_Exception e p1) as Hs.
    rewrite E in Hs; cbn in Hs; subst p'.
    destruct (quiet_get_airtable_client (fun _ => False) _ _ _ Eg)
      as [H | (? & _ & [])]; exact H.
Qed.

(** X9.  The upstream answers 200 with a JSON value that is not an object (a
    list, a string, a number).  [airtable_delete_comment], which returns
    the body as it is, reports success.  Every other tool that issued the
    request reports a failure, the [AttributeError] of its first [.get],
    although the upstream has carried the operation out. *)
Theorem non_object_response (c : tool_call) (p p' : process)
    (o : outcome Envelope) :
  invoke c p = (o, p') ->
  network_log p' <> network_log p ->
  match c with
  | Delete_comment base_id table_id_or_name record_id row_comment_id =>
      o = Return (success
                    [("comment_deleted", body);
                     ("base_id", PyStr base_id);
                     ("table_id_or_name", PyStr table_id_or_name);
                     ("record_id", PyStr record_id);
                     ("row_comment_id", PyStr row_comment_id);
                     ("status", PyStr "comment_deleted");
                     ("message", PyStr "Comment deleted successfully")])
  | _ =>
      o = Return (failure ("Unexpected error: '" ++ type_name body
                             ++ "' object has no attribute 'get'"))
  end.
Proof.
  intros E Hlog.
  destruct c; cbn [invoke] in E;
    [exfalso; apply Hlog; eapply create_base_is_quiet; exact E | ..];
    try (eapply delete_comment_any_body; eassumption).
  all: match type of E with
       | ?tool _ = _ =>
           let h := eval cbv beta delta
                      [airtable_create_comment airtable_create_field
                       airtable_create_multiple_records airtable_create_record
                       airtable_create_table airtable_get_base_schema
                       airtable_get_record airtable_get_user_info
                       airtable_list_bases airtable_list_comments
                       airtable_delete_record airtable_delete_multiple_records
                       airtable_update_record
                       airtable_update_multiple_records airtable_list_records]
                      in tool in
           change tool with h in E
       end;
    apply (quiet_try_raises
             (AttributeError ("'" ++ type_name body
                                ++ "' object has no attribute 'get'"))
             eq_refl) in E;
    [ destruct E as [E | E]; [contradiction | exact E]
    | walk_non_object ].
Qed.

End NonObjectBody.

(* ------------------------------------------------------------------ *)
(** *** The guard of a required string *)

Lemma rstrip_empty (s : string) :
  Str.rstrip s = EmptyString <-> only_whitespace s = true.
Proof.
  induction s as [| c s IH]; cbn; [tauto |].
  destruct (Str.rstrip s) eqn:Er.
  - destruct (Str.isspace c); cbn.
    + split; [intros _; apply IH; reflexivity | reflexivity].
    + split; discriminate.
  - split; [discriminate |]. intros H. apply andb_true_iff in H as [_ H].
    apply IH in H. discriminate H.
Qed.

Lemma lstrip_whitespace (s : string) :
  only_whitespace s = true -> Str.lstrip s = EmptyString.
Proof.
  induction s as [| c s IH]; cbn; [reflexivity |].
  destruct (Str.isspace c); cbn; [exact IH | discriminate].
Qed.

Lemma lstrip_keeps_ink (s : string) :
  only_whitespace s = false -> only_whitespace (Str.lstrip s) = false.
Proof.
  induction s as [| c s IH]; cbn; [discriminate |].
  destruct (Str.isspace c) eqn:Ec; cbn; [exact IH |].
  intros _. rewrite Ec. reflexivity.
Qed.

Lemma strip_empty (s : string) :
  Str.strip s = EmptyString <-> only_whitespace s = true.
Proof.
  unfold Str.strip. rewrite rstrip_empty.
  destruct (only_whitespace s) eqn:E.
  - rewrite (lstrip_whitespace s E). tauto.
  - rewrite (lstrip_keeps_ink s E). tauto.
Qed.

Lemma blank_strip (s : string) :
  Str.blank s = negb (Str.truthy (Str.strip s)).
Proof.
  unfold Str.blank. destruct s; [reflexivity |]. reflexivity.
Qed.

(** X10.  The guard [not s or not s.strip()] of the required parameters fires
    exactly on the strings made of whitespace only, the empty string
    among them; its first half never decides alone. *)
Theorem blank_is_only_whitespace (s : string) :
  Str.blank s = only_whitespace s
  /\ Str.blank s = negb (Str.truthy (Str.strip s)).
Proof.
  split; [| apply blank_strip].
  rewrite blank_strip.
  destruct (only_whitespace s) eqn:E.
  - apply strip_empty in E. rewrite E. reflexivity.
  - destruct (Str.strip s) eqn:Es; [| reflexivity].
    apply strip_empty in Es. congruence.
Qed.

(* ------------------------------------------------------------------ *)
(** *** The other loops over decoded lists *)

Lemma for_enumerate_first_some {A} (body : nat -> pyval -> option A)
    (l : list pyval) (i0 : nat) :
  (exists x, In x l /\ forall i, body i x <> None) ->
  exists j x a,
    nth_error l j = Some x
    /\ body (i0 + j) x = Some a
    /\ (forall k y, k < j -> nth_error l k = Some y -> body (i0 + k) y = None)
    /\ for_enumerate body l i0 = Some a.
Proof.
  revert i0; induction l as [| h l IH]; intros i0 (x & Hin & Hx).
  - destruct Hin.
  - destruct (body i0 h) as [a |] eqn:Eh.
    + exists 0, h, a. cbn. rewrite Nat.add_0_r, Eh.
      repeat split; auto. intros k y Hk; lia.
    + destruct Hin as [-> | Hin]; [exfalso; exact (Hx i0 Eh) |].
      destruct (IH (S i0) (ex_intro _ x (conj Hin Hx)))
        as (j & y & a & Hn & Hy & Hbefore & Hrun).
      exists (S j), y, a. cbn. rewrite Eh.
      replace (i0 + S j) with (S i0 + j) by lia.
      repeat split; auto.
      intros k z Hk Hz. destruct k as [| k]; cbn in Hz.
      * inversion Hz; subst. rewrite Nat.add_0_r. exact Eh.
      * replace (i0 + S k) with (S i0 + k) by lia.
        eapply Hbefore; [| exact Hz]. lia.
Qed.

Lemma record_entry_bad_iff (x : pyval) :
  record_entry_bad x = true <-> lacks_key ["fields"] x.
Proof.
  destruct x; cbn; try tauto. split.
  - intros H. apply negb_true_iff in H. exists "fields"; cbn; auto.
  - intros (k & [<- | []] & H). rewrite H. reflexivity.
Qed.

(** X11.  [airtable_create_multiple_records], once it has decoded its list:
    an entry that is not an object or has no [fields] makes it return
    the rejection that cites the index of the first such entry, and the
    process is left as it was. *)
Theorem create_multiple_records_cites_index
    (base_id table_id_or_name records : string) (records_list : list pyval)
    (p : process) :
  Str.blank base_id = false -> Str.blank table_id_or_name = false ->
  Str.blank records = false ->
  json_loads records = Decoded (PyList records_list) ->
  (exists x, In x records_list /\ lacks_key ["fields"] x) ->
  exists i x,
    nth_error records_list i = Some x
    /\ lacks_key ["fields"] x
    /\ (forall k y, k < i -> nth_error records_list k = Some y ->
          ~ lacks_key ["fields"] y)
    /\ airtable_create_multiple_records base_id table_id_or_name records p
       = (Return (failure ("Record at index " ++ Str.of_nat i
                             ++ " must have 'fields' property")), p).
Proof.
  intros B1 B2 B3 Hl (x & Hin & Hx).
  destruct (for_enumerate_first record_entry_bad
              (fun i => failure ("Record at index " ++ Str.of_nat i
                                   ++ " must have 'fields' property"))
              records_list 0)
    as (i & y & Hn & Hy & Hfirst & Hrun).
  { exists x; split; [exact Hin | apply record_entry_bad_iff; exact Hx]. }
  exists i, y. split; [exact Hn |].
  split; [apply record_entry_bad_iff; exact Hy |].
  split.
  { intros k z Hk Hz Hbad. apply record_entry_bad_iff in Hbad.
    rewrite (Hfirst k z Hk Hz) in Hbad. discriminate Hbad. }
  unfold airtable_create_multiple_records, try_except.
  rewrite B1, B2, B3, Hl, Hrun. reflexivity.
Qed.

Lemma update_entry_check_none (i : nat) (x : pyval) :
  update_entry_check i x = None <->
  exists d, x = PyDict d /\ dict_mem "id" d = true /\ dict_mem "fields" d = true.
Proof.
  unfold update_entry_check. destruct x;
    try (split; [discriminate | intros (d & H & _); discriminate H]).
  destruct (dict_mem "id" d) eqn:Hi; cbn.
  - destruct (dict_mem "fields" d) eqn:Hf; cbn.
    + split; [intros _; exists d; auto | reflexivity].
    + split; [discriminate | intros (d' & H & _ & H'); inversion H; subst; congruence].
  - split; [discriminate | intros (d' & H & H' & _); inversion H; subst; congruence].
Qed.

(** X12.  [airtable_update_multiple_records], once it has decoded its list:
    the first entry that is not an object with both [id] and [fields]
    decides the rejection, which cites its index and names the first of
    [object], [id], [fields] that it fails; the process is left as it
    was. *)
Theorem update_multiple_records_cites_index
    (base_id table_id_or_name records : string) (records_list : list pyval)
    (p : process) :
  Str.blank base_id = false -> Str.blank table_id_or_name = false ->
  Str.blank records = false ->
  json_loads records = Decoded (PyList records_list) ->
  (exists x, In x records_list /\ lacks_key ["id"; "fields"] x) ->
  exists i x message,
    nth_error records_list i = Some x
    /\ lacks_key ["id"; "fields"] x
    /\ (forall k y, k < i -> nth_error records_list k = Some y ->
          ~ lacks_key ["id"; "fields"] y)
    /\ airtable_update_multiple_records base_id table_id_or_name records p
       = (Return (failure ("Record at index " ++ Str.of_nat i ++ message)), p)
    /\ (is_dict x = false -> message = " must be an object")
    /\ (forall d, x = PyDict d -> dict_mem "id" d = false ->
          message = " must have an 'id' field")
    /\ (forall d, x = PyDict d -> dict_mem "id" d = true ->
          message = " must have a 'fields' object").
Proof.
  intros B1 B2 B3 Hl (x & Hin & Hx).
  assert (Hlacks : forall y, lacks_key ["id"; "fields"] y <->
                             forall i, update_entry_check i y <> None).
  { intros y. split.
    - intros Hy i Hnone. apply update_entry_check_none in Hnone
        as (d & -> & Hi & Hf). destruct Hy as (k & [<- | [<- | []]] & Hk); congruence.
    - intros Hy. destruct y; cbn; auto.
      destruct (dict_mem "id" d) eqn:Hi; [| exists "id"; cbn; auto].
      destruct (dict_mem "fields" d) eqn:Hf; [| exists "fields"; cbn; auto].
      exfalso. apply (Hy 0). apply update_entry_check_none. exists d; auto. }
  destruct (for_enumerate_first_some update_entry_check records_list 0)
    as (i & y & e & Hn & Hy & Hfirst & Hrun).
  { exists x; split; [exact Hin | apply Hlacks; exact Hx]. }
  cbn [Nat.add] in Hy.
  assert (Hbad : lacks_key ["id"; "fields"] y).
  { apply Hlacks. intros j Hj. apply update_entry_check_none in Hj.
    apply (update_entry_check_none i) in Hj. congruence. }
  assert (Hrest : forall k z, k < i -> nth_error records_list k = Some z ->
                              ~ lacks_key ["id"; "fields"] z).
  { intros k z Hk Hz Hz'. apply (proj1 (Hlacks z) Hz' (0 + k)).
    eapply Hfirst; eassumption. }
  assert (Hrunning : airtable_update_multiple_records base_id table_id_or_name
                       records p = (Return e, p)).
  { unfold airtable_update_multiple_records, try_except.
    rewrite B1, B2, B3, Hl, Hrun. reflexivity. }
  unfold update_entry_check in Hy.
  destruct y as [| | | | | | d].
  1-6: inversion Hy; subst e; exists i; eexists; exists " must be an object";
    (split; [exact Hn |]); (split; [exact Hbad |]); (split; [exact Hrest |]);
    (split; [exact Hrunning |]);
    (split; [reflexivity |]); split; intros d H; discriminate H.
  destruct (dict_mem "id" d) eqn:Hi; cbn in Hy.
  - destruct (dict_mem "fields" d) eqn:Hf; cbn in Hy; [discriminate Hy |].
    inversion Hy; subst e. exists i, (PyDict d), " must have a 'fields' object".
    repeat (split; [assumption |]).
    split; [discriminate |].
    split; [intros d' H; inversion H; subst; congruence | reflexivity].
  - inversion Hy; subst e. exists i, (PyDict d), " must have an 'id' field".
    repeat (split; [assumption |]).
    split; [discriminate |].
    split; [reflexivity | intros d' H; inversion H; subst; congruence].
Qed.

Lemma record_id_bad_iff (x : pyval) :
  record_id_bad x = true <-> not_a_record_id x.
Proof.
  destruct x; cbn; try tauto. rewrite blank_strip. tauto.
Qed.

(** X13.  [airtable_delete_multiple_records], given a decoded list of 1 to 10
    entries one of which is not a string or is a blank string: the tool
    returns the rejection that cites the index of the first such entry,
    and the process is left as it was. *)
Theorem delete_multiple_records_cites_index
    (base_id table_id_or_name record_ids : string) (l : list pyval)
    (p : process) :
  Str.blank base_id = false -> Str.blank table_id_or_name = false ->
  Str.blank record_ids = false ->
  json_loads record_ids = Decoded (PyList l) ->
  1 <= length l <= 10 ->
  (exists x, In x l /\ not_a_record_id x) ->
  exists i x,
    nth_error l i = Some x
    /\ not_a_record_id x
    /\ (forall k y, k < i -> nth_error l k = Some y -> ~ not_a_record_id y)
    /\ airtable_delete_multiple_records base_id table_id_or_name record_ids p
       = (Return (failure ("Record ID at index " ++ Str.of_nat i
                             ++ " must be a non-empty string")), p).
Proof.
  intros B1 B2 B3 Hl Hlen (x & Hin & Hx).
  destruct (for_enumerate_first record_id_bad
              (fun i => failure ("Record ID at index " ++ Str.of_nat i
                                   ++ " must be a non-empty string")) l 0)
    as (i & y & Hn & Hy & Hfirst & Hrun).
  { exists x; split; [exact Hin | apply record_id_bad_iff; exact Hx]. }
  exists i, y. split; [exact Hn |].
  split; [apply record_id_bad_iff; exact Hy |].
  split.
  { intros k z Hk Hz Hbad. apply record_id_bad_iff in Hbad.
    rewrite (Hfirst k z Hk Hz) in Hbad. discriminate Hbad. }
  unfold airtable_delete_multiple_records, try_except.
  rewrite B1, B2, B3, Hl.
  replace (length l =? 0)%nat with false by (symmetry; apply Nat.eqb_neq; lia).
  replace (10 <? length l)%nat with false by (symmetry; apply Nat.ltb_ge; lia).
  rewrite Hrun. reflexivity.
Qed.

(* ------------------------------------------------------------------ *)
(** *** What the requests carry *)

Lemma dict_lookup_set (d : dict) (k k' : string) (v : pyval) :
  dict_lookup (dict_set d k v) k'
  = if String.eqb k' k then Some v else dict_lookup d k'.
Proof.
  induction d as [| [k0 v0] d IH]; cbn.
  - reflexivity.
  - destruct (String.eqb k k0) eqn:E0; cbn.
    + apply String.eqb_eq in E0; subst k0.
      destruct (String.eqb k' k); reflexivity.
    + destruct (String.eqb k' k0) eqn:E1.
      * apply String.eqb_eq in E1; subst k0.
        rewrite String.eqb_sym, E0. reflexivity.
      * exact IH.
Qed.

Lemma dict_lookup_add_if (b : bool) (d : dict) (k k' : string) (v : pyval) :
  dict_lookup (add_if b k v d) k'
  = if String.eqb k' k && b then Some v else dict_lookup d k'.
Proof.
  unfold add_if. destruct b; rewrite ?dict_lookup_set;
    destruct (String.eqb k' k); reflexivity.
Qed.

(** X14.  The query of [AirtableClient.list_records]: every optional argument
    travels under its own key exactly when it differs from its default
    (a [max_records] that is zero or negative is dropped), the arguments
    do not interfere with each other, and no other key is sent. *)
Theorem list_records_query (self : AirtableClient)
    (base_id table_id_or_name cell_format : string) (fields : list pyval)
    (filter_by_formula : string) (max_records : Z) (offset : string)
    (page_size : Z) (record_metadata : list pyval)
    (return_fields_by_field_id : bool) (sort : list pyval)
    (time_zone user_locale view : string) :
  let r := list_records_request self base_id table_id_or_name cell_format
             fields filter_by_formula max_records offset page_size
             record_metadata return_fields_by_field_id sort time_zone
             user_locale view in
  let q := dict_lookup (req_params r) in
  req_method r = GET /\ req_json r = None
  /\ q "cellFormat"
     = (if String.eqb cell_format "json" then None else Some (PyStr cell_format))
  /\ q "fields[]" = list_param fields
  /\ q "filterByFormula" = str_param filter_by_formula
  /\ q "maxRecords"
     = (if (0 <? max_records)%Z then Some (PyInt max_records) else None)
  /\ q "offset" = str_param offset
  /\ q "pageSize"
     = (if (page_size =? 100)%Z then None else Some (PyInt page_size))
  /\ q "recordMetadata[]" = list_param record_metadata
  /\ q "returnFieldsByFieldId"
     = (if return_fields_by_field_id then Some (PyStr "true") else None)
  /\ q "sort[]" = list_param sort
  /\ q "timeZone"
     = (if String.eqb time_zone "utc" then None else Some (PyStr time_zone))
  /\ q "userLocale" = str_param user_locale
  /\ q "view" = str_param view
  /\ (forall k, q k <> None -> In k list_records_keys).
Proof.
  intros r q; subst r q.
  unfold list_records_request, mk_request; cbn [req_method req_json req_params].
  assert (Hmax : negb (max_records =? 0)%Z && (max_records >? 0)%Z
                 = (0 <? max_records)%Z).
  { destruct (Z.eqb_spec max_records 0) as [-> | Hne]; [reflexivity |].
    cbn. rewrite Z.gtb_ltb. reflexivity. }
  rewrite Hmax.
  split; [reflexivity |]. split; [reflexivity |].
  repeat match goal with
         | |- dict_lookup _ _ = _ /\ _ =>
             split;
             [ rewrite !dict_lookup_add_if;
               cbn [String.eqb Ascii.eqb Bool.eqb andb dict_lookup]
             | ]
         end.
  - destruct (String.eqb cell_format "json"); reflexivity.
  - destruct fields; reflexivity.
  - destruct filter_by_formula; reflexivity.
  - reflexivity.
  - destruct offset; reflexivity.
  - destruct (page_size =? 100)%Z; reflexivity.
  - destruct record_metadata; reflexivity.
  - reflexivity.
  - destruct sort; reflexivity.
  - destruct (String.eqb time_zone "utc"); reflexivity.
  - destruct user_locale; reflexivity.
  - destruct view; reflexivity.
  - intros k Hk. rewrite !dict_lookup_add_if in Hk. unfold list_records_keys.
    repeat match type of Hk with
           | context [String.eqb k ?s] =>
               let E := fresh "E" in
               destruct (String.eqb k s) eqn:E;
                 [ apply String.eqb_eq in E; rewrite E;
                   cbn [In]; repeat first [left; reflexivity | right]
                 | cbn [andb] in Hk; clear E ]
           end.
    cbn in Hk. congruence.
Qed.

Lemma in_option_field_types (field_type : string) :
  existsb (String.eqb field_type) option_field_types = true
  <-> In field_type option_field_types.
Proof.
  rewrite existsb_exists. split.
  - intros (x & Hin & Hx). apply String.eqb_eq in Hx; subst; exact Hin.
  - intros Hin. exists field_type; split; [exact Hin | apply String.eqb_refl].
Qed.

(** X15.  The body of the request of [AirtableClient.create_field]: [name] and
    [type] always; [description] when it is not empty; [options] only
    when they are not empty and the type is one of the listed ones, so
    the options given for any other type are dropped. *)
Theorem create_field_payload (self : AirtableClient)
    (base_id table_id name field_type description : string) (options : dict) :
  exists payload,
    req_json (create_field_request self base_id table_id name field_type
                description options) = Some (PyDict payload)
    /\ dict_lookup payload "name" = Some (PyStr name)
    /\ dict_lookup payload "type" = Some (PyStr field_type)
    /\ dict_lookup payload "description" = str_param description
    /\ (In field_type option_field_types -> options <> [] ->
        dict_lookup payload "options" = Some (PyDict options))
    /\ (~ In field_type option_field_types \/ options = [] ->
        dict_lookup payload "options" = None)
    /\ (forall k, dict_lookup payload k <> None ->
        In k ["name"; "type"; "description"; "options"]).
Proof.
  unfold create_field_request, mk_request; cbn [req_json].
  eexists. split; [reflexivity |].
  assert (Hopt : truthy_dict options
                 && existsb (String.eqb field_type) option_field_types = true
                 <-> In field_type option_field_types /\ options <> []).
  { rewrite andb_true_iff, in_option_field_types.
    destruct options; cbn; split; intros [H1 H2]; split;
      solve [assumption | discriminate | congruence | reflexivity]. }
  destruct (truthy_dict options
            && existsb (String.eqb field_type) option_field_types) eqn:Eo.
  - destruct (proj1 Hopt eq_refl) as [Hin Hne].
    destruct description; cbn;
      (repeat split; try reflexivity;
       [ intros [Hn | He]; [exact (False_ind _ (Hn Hin)) | exact (False_ind _ (Hne He))]
       | intros k Hk;
         repeat match type of Hk with
                | context [String.eqb k ?s] =>
                    let E := fresh "E" in
                    destruct (String.eqb k s) eqn:E;
                      [ apply String.eqb_eq in E; rewrite E;
                        cbn [In]; repeat first [left; reflexivity | right]
                      | clear E ]
                end; congruence ]).
  - assert (Hno : ~ (In field_type option_field_types /\ options <> [])).
    { intros H. apply Hopt in H. discriminate H. }
    destruct description; cbn;
      (repeat split; try reflexivity;
       [ intros Hin Hne; exfalso; apply Hno; split; assumption
       | intros k Hk;
         repeat match type of Hk with
                | context [String.eqb k ?s] =>
                    let E := fresh "E" in
                    destruct (String.eqb k s) eqn:E;
                      [ apply String.eqb_eq in E; rewrite E;
                        cbn [In]; repeat first [left; reflexivity | right]
                      | clear E ]
                end; congruence ]).
Qed.

Lemma append_empty_r (s : string) : s ++ EmptyString = s.
Proof. induction s as [| c s IH]; cbn; [| rewrite IH]; reflexivity. Qed.

Lemma records_query (first : string) (others : list string) :
  Str.join "&" (map (fun id => "records[]=" ++ id) (first :: others))
  = "records[]=" ++ first
      ++ fold_right (fun id rest => "&records[]=" ++ id ++ rest) EmptyString others.
Proof.
  unfold Str.join. revert first; induction others as [| y ys IH]; intros first.
  - cbn. rewrite append_empty_r. reflexivity.
  - change (String.concat "&" (map (fun id => "records[]=" ++ id) (first :: y :: ys)))
      with (("records[]=" ++ first) ++ "&"
              ++ String.concat "&" (map (fun id => "records[]=" ++ id) (y :: ys))).
    rewrite IH. cbn [fold_right]. rewrite append_assoc. reflexivity.
Qed.

(** X16.  The URL of [AirtableClient.delete_multiple_records] for a list of
    string ids: the table URL alone when the list is empty; otherwise
    the table URL, [?], and one [records[]=<id>] per id in the order of
    the list, separated by [&], each id copied as it is.  Nothing
    travels in the query parameters or the body of the request. *)
Theorem delete_multiple_records_url (self : AirtableClient)
    (base_id table_id_or_name : string) (ids : list string) :
  let r := delete_multiple_records_request self base_id table_id_or_name
             (map PyStr ids) in
  let table_url := base_url self ++ "/" ++ base_id ++ "/" ++ table_id_or_name in
  req_method r = DELETE /\ req_params r = [] /\ req_json r = None
  /\ req_url r
     = match ids with
       | [] => table_url
       | first :: others =>
           table_url ++ "?records[]=" ++ first
             ++ fold_right (fun id rest => "&records[]=" ++ id ++ rest)
                  EmptyString others
       end.
Proof.
  intros r table_url; subst r table_url.
  unfold delete_multiple_records_request, mk_request;
    cbn [req_method req_params req_json req_url].
  repeat split.
  destruct ids as [| first others]; [reflexivity |].
  rewrite map_map.
  change (map (fun x => "records[]=" ++ py_format (PyStr x)) (first :: others))
    with (map (fun id => "records[]=" ++ id) (first :: others)).
  rewrite records_query. cbn [append Str.truthy].
  rewrite !append_assoc. reflexivity.
Qed.

(* ------------------------------------------------------------------ *)
(** *** Base creation, whatever the input *)

(** X17.  [airtable_create_base] returns an envelope for every input and every
    state, with no assumption on the network, and the error of that
    envelope never starts with [Airtable API Error: ]: the clause
    [except AirtableAPIError] of the tool, with its canned messages, is
    never entered. *)
Theorem create_base_always_answers (name tables workspace_id : string)
    (p : process) :
  exists e p',
    airtable_create_base name tables workspace_id p = (Return e, p')
    /\ String.prefix "Airtable API Error: " (error e) = false.
Proof.
  unfold airtable_create_base, try_except, bind.
  destruct (client_available p) eqn:Hav.
  - destruct (get_airtable_client_available p Hav) as (cl & p1 & Hg & _).
    rewrite Hg.
    destruct (Str.blank name); [eexists; eexists; split; reflexivity |].
    destruct (Str.blank workspace_id); [eexists; eexists; split; reflexivity |].
    destruct (Str.blank tables); [eexists; eexists; split; reflexivity |].
    destruct (json_loads tables) as [v | text];
      [| eexists; eexists; split; reflexivity].
    destruct v; try (eexists; eexists; split; reflexivity).
    match goal with
    | |- context [for_enumerate ?body ?l 0] =>
        assert (Hr : forall rejected,
                   for_enumerate body l 0 = Some rejected ->
                   String.prefix "Airtable API Error: " (error rejected) = false);
          [ intros rejected;
            apply (for_enumerate_some body
                     (fun e => String.prefix "Airtable API Error: " (error e) = false));
            intros i x a H; cbv beta in H;
            destruct (table_entry_bad x);
              [injection H as <-; reflexivity | discriminate H]
          | destruct (for_enumerate body l 0) as [rejected |];
              [specialize (Hr rejected eq_refl) | clear Hr] ]
    end.
    + eexists; eexists; split; [reflexivity | exact Hr].
    + cbn. eexists; eexists; split; reflexivity.
  - rewrite (get_airtable_client_missing p Hav).
    eexists; eexists; split; reflexivity.
Qed.

(** X18.  On valid input and with a client at hand, the base
    [airtable_create_base] reports is made up from the name alone: its
    id is [app] followed by a number below one million computed from the
    trimmed name, its name is the trimmed name, and the workspace is
    echoed as it was given.  Two names that differ in surrounding
    whitespace only get the same id. *)
Theorem create_base_placeholder_id (name tables workspace_id : string)
    (tables_list : list pyval) (p : process) :
  client_available p = true ->
  Str.blank name = false -> Str.blank workspace_id = false ->
  Str.blank tables = false ->
  json_loads tables = Decoded (PyList tables_list) ->
  (forall x, In x tables_list ->
     exists d, x = PyDict d /\ dict_mem "name" d = true
               /\ dict_mem "fields" d = true) ->
  exists e p' n,
    airtable_create_base name tables workspace_id p = (Return e, p')
    /\ n = (py_hash (Str.strip name) mod 1000000)%Z
    /\ (0 <= n < 1000000)%Z
    /\ dict_lookup (data e) "base_id" = Some (PyStr ("app" ++ Str.of_Z n))
    /\ dict_lookup (data e) "base_name" = Some (PyStr (Str.strip name))
    /\ dict_lookup (data e) "workspace_id" = Some (PyStr workspace_id)
    /\ dict_lookup (data e) "base"
       = Some (PyDict [("id", PyStr ("app" ++ Str.of_Z n));
                       ("name", PyStr (Str.strip name));
                       ("permissionLevel", PyStr "create")]).
Proof.
  intros Hav B1 B2 B3 Hl Hok.
  destruct (get_airtable_client_available p Hav) as (cl & p1 & Hg & _).
  unfold airtable_create_base, try_except, bind.
  rewrite Hg, B1, B2, B3, Hl.
  rewrite (for_enumerate_pass table_entry_bad _ tables_list 0
             (tables_pass tables_list Hok)).
  cbn. eexists; eexists; eexists. split; [reflexivity |].
  split; [reflexivity |].
  split; [apply Z.mod_pos_bound; lia |].
  repeat split.
Qed.

(* ------------------------------------------------------------------ *)
(** *** A record created *)

(** X19.  [airtable_create_record] on valid input, with a client at hand and
    an upstream that answers 200 with an object: the tool issues the
    POST built from the trimmed identifiers and the decoded fields, and
    returns a successful envelope that echoes the identifiers as they
    were given and the decoded fields.  [record] and [record_id] are
    read from the key [record] of the answer; an answer without that
    key gives an empty [record] and an empty [record_id]. *)
Theorem create_record_round_trip (base_id table_id_or_name fields : string)
    (fields_dict answer : dict) (client : AirtableClient) (p p1 : process) :
  Str.blank base_id = false -> Str.blank table_id_or_name = false ->
  Str.blank fields = false ->
  json_loads fields = Decoded (PyDict fields_dict) ->
  get_airtable_client p = (Return client, p1) ->
  requests_send (create_record_request client (Str.strip base_id)
                   (Str.strip table_id_or_name) fields_dict)
    = HttpOk (PyDict answer) ->
  (forall v, dict_lookup answer "record" = Some v -> is_dict v = true) ->
  let req := create_record_request client (Str.strip base_id)
               (Str.strip table_id_or_name) fields_dict in
  exists e,
    airtable_create_record base_id table_id_or_name fields p
      = (Return e, log_request req p1)
    /\ successful e = true /\ error e = EmptyString
    /\ req_method req = POST
    /\ req_url req = base_url client ++ "/" ++ Str.strip base_id ++ "/"
                       ++ Str.strip table_id_or_name
    /\ req_json req = Some (PyDict [("fields", PyDict fields_dict)])
    /\ dict_lookup (data e) "record" = Some (get_or answer "record" (PyDict []))
    /\ (forall r, get_or answer "record" (PyDict []) = PyDict r ->
        dict_lookup (data e) "record_id" = Some (get_or r "id" (PyStr EmptyString)))
    /\ (dict_lookup answer "record" = None ->
        dict_lookup (data e) "record" = Some (PyDict [])
        /\ dict_lookup (data e) "record_id" = Some (PyStr EmptyString))
    /\ dict_lookup (data e) "base_id" = Some (PyStr base_id)
    /\ dict_lookup (data e) "table_id_or_name" = Some (PyStr table_id_or_name)
    /\ dict_lookup (data e) "fields" = Some (PyDict fields_dict).
Proof.
  intros B1 B2 B3 Hl Hg Hsend Hrec req.
  unfold airtable_create_record, try_except, bind.
  rewrite B1, B2, B3, Hl, Hg.
  unfold AirtableClient_create_record, AirtableClient_request.
  fold req. unfold req at 1. rewrite Hsend. fold req.
  unfold get_or. cbn [py_get ret].
  destruct (dict_lookup answer "record") as [v |] eqn:Ev.
  - pose proof (Hrec v eq_refl) as Hd.
    destruct v; try discriminate Hd.
    cbn. eexists. split; [reflexivity |].
    repeat match goal with |- _ /\ _ => split end; try reflexivity.
    + intros r Hr. inversion Hr; subst. reflexivity.
    + intros H; discriminate H.
  - cbn. eexists. split; [reflexivity |].
    repeat match goal with |- _ /\ _ => split end; try reflexivity.
    + intros r Hr. inversion Hr; subst. reflexivity.
    + intros _. split; reflexivity.
Qed.

(* ------------------------------------------------------------------ *)
(** *** From the arguments of a tool to the wire *)

(** X20.  [airtable_create_field] for a field type outside the listed ones:
    the options given are not sent (the body of the POST has no
    [options]), yet a 200 answer yields a successful envelope whose
    [options] are the ones given.  The type travels trimmed and is
    echoed as given. *)
Theorem create_field_echoes_dropped_options
    (base_id table_id name type description : string) (options : option dict)
    (answer : dict) (client : AirtableClient) (p p1 : process) :
  Str.blank base_id = false -> Str.blank table_id = false ->
  Str.blank name = false ->
  get_airtable_client p = (Return client, p1) ->
  ~ In (Str.strip type) option_field_types ->
  let req := create_field_request client (Str.strip base_id)
               (Str.strip table_id) (Str.strip name) (Str.strip type)
               (if Str.truthy description
                then Str.strip description else EmptyString)
               (options_or_empty options) in
  requests_send req = HttpOk (PyDict answer) ->
  exists e payload,
    airtable_create_field base_id table_id name type description options p
      = (Return e, log_request req p1)
    /\ successful e = true
    /\ req_json req = Some (PyDict payload)
    /\ dict_lookup payload "type" = Some (PyStr (Str.strip type))
    /\ dict_lookup payload "options" = None
    /\ dict_lookup (data e) "type" = Some (PyStr type)
    /\ dict_lookup (data e) "options" = Some (PyDict (options_or_empty options)).
Proof.
  intros B1 B2 B3 Hg Hty req Hsend.
  unfold airtable_create_field, try_except, bind.
  rewrite B1, B2, B3, Hg.
  unfold AirtableClient_create_field, AirtableClient_request.
  fold req. rewrite Hsend. cbn [py_get ret].
  eexists; eexists. split; [reflexivity |].
  split; [reflexivity |].
  assert (Hno : existsb (String.eqb (Str.strip type)) option_field_types = false).
  { destruct (existsb (String.eqb (Str.strip type)) option_field_types) eqn:E;
      [| reflexivity].
    apply in_option_field_types in E. contradiction. }
  unfold req, create_field_request, mk_request; cbn [req_json].
  rewrite Hno, andb_false_r.
  split; [reflexivity |].
  destruct (if Str.truthy description then Str.strip description else EmptyString);
    cbn; repeat split.
Qed.

Lemma blank_optional_array (v n m : string) :
  Str.blank v = true -> optional_json_array v n m = inr [].
Proof.
  intros B. unfold optional_json_array. rewrite truthy_both, B. reflexivity.
Qed.

Lemma blank_optional_string (v : string) :
  Str.blank v = true ->
  (if Str.truthy v then Str.strip v else EmptyString) = EmptyString.
Proof.
  intros B. destruct (Str.truthy v) eqn:T; [| reflexivity].
  rewrite blank_strip in B. destruct (Str.strip v); [reflexivity | discriminate B].
Qed.

(** X21.  [airtable_list_records] with its optional arguments left out: when
    every optional string is blank (empty or whitespace only), the cell
    format and the time zone are [json] and [utc] up to surrounding
    whitespace, [max_records] is not positive, [page_size] is 100 and
    field ids are not asked for, the one request the tool issues is the
    GET of the table URL with an empty query. *)
Theorem list_records_defaults
    (base_id table_id_or_name cell_format fields filter_by_formula : string)
    (max_records : Z) (offset : string) (page_size : Z)
    (record_metadata sort time_zone user_locale view : string)
    (client : AirtableClient) (p p1 : process) :
  Str.blank base_id = false -> Str.blank table_id_or_name = false ->
  get_airtable_client p = (Return client, p1) ->
  Str.blank fields = true -> Str.blank sort = true ->
  Str.blank record_metadata = true ->
  Str.blank filter_by_formula = true -> Str.blank offset = true ->
  Str.blank user_locale = true -> Str.blank view = true ->
  Str.strip cell_format = "json" -> Str.strip time_zone = "utc" ->
  (max_records <= 0)%Z -> page_size = 100%Z ->
  network_log
    (snd (airtable_list_records base_id table_id_or_name cell_format fields
            filter_by_formula max_records offset page_size record_metadata
            false sort time_zone user_locale view p))
  = mk_request client GET
      (base_url client ++ "/" ++ Str.strip base_id ++ "/"
         ++ Str.strip table_id_or_name) [] None
    :: network_log p1.
Proof.
  intros B1 B2 Hg Bf Bs Bm Bff Bo Bu Bv Hcf Htz Hmax Hps.
  unfold airtable_list_records.
  rewrite snd_try_stateless by apply stateless_except_Exception.
  rewrite B1, B2.
  unfold bind at 1. rewrite Hg.
  rewrite !blank_optional_array by assumption.
  rewrite !blank_optional_string by assumption.
  rewrite snd_bind_stateless.
  - unfold AirtableClient_list_records. rewrite request_logs.
    cbn [log_request network_log]. f_equal.
    unfold list_records_request. rewrite Hcf, Htz, Hps.
    replace (negb (max_records =? 0)%Z && (max_records >? 0)%Z) with false.
    + reflexivity.
    + symmetry. destruct (Z.eqb_spec max_records 0); [reflexivity |].
      cbn. rewrite Z.gtb_ltb. apply Z.ltb_ge. exact Hmax.
  - intros a. repeat (apply stateless_bind;
                      [first [apply stateless_py_get | apply stateless_py_len]
                      | intros]).
    apply stateless_ret.
Qed.

(* ------------------------------------------------------------------ *)
(** *** An upstream that answers well *)

Lemma reaching_stateless {A} (Q : A -> Prop) (m : M A) :
  stateless m -> reaching Q m.
Proof.
  intros H p o p' E. left. pose proof (H p) as Hs. rewrite E in Hs.
  cbn in Hs; subst p'. reflexivity.
Qed.

Lemma reaching_bind {A B} (Q : B -> Prop) (m : M A) (f : A -> M B) :
  quiet_or (fun _ => False) m -> (forall a, reaching Q (f a)) ->
  reaching Q (bind m f).
Proof.
  intros Hm Hf p o p' E. unfold bind in E.
  destruct (m p) as [[a | e] p1] eqn:Em;
    destruct (Hm _ _ _ Em) as [Hlog | (? & _ & [])].
  - destruct (Hf a _ _ _ E) as [H | H]; [left; congruence | right; exact H].
  - inversion E; subst. left; exact Hlog.
Qed.

Lemma reaching_try (Q : Envelope -> Prop) (body : M Envelope)
    (h : exn -> M Envelope) :
  reaching Q body -> (forall e, stateless (h e)) ->
  reaching Q (try_except body h).
Proof.
  intros Hb Hh p o p' E. unfold try_except in E.
  destruct (body p) as [[a | e] p1] eqn:Eb.
  - inversion E; subst. exact (Hb _ _ _ Eb).
  - destruct (Hb _ _ _ Eb) as [Hlog | (a & Ha & _)]; [| discriminate Ha].
    left. pose proof (Hh e p1) as Hs. rewrite E in Hs; cbn in Hs; subst p'.
    exact Hlog.
Qed.

Section WellFormedAnswer.

(** The upstream answers every request with 200 and the object
    [answer], in which [record] and [table], when present, are objects
    and [records], [tables], [bases] and [comments], when present, are
    arrays. *)
Variable answer : dict.
Hypothesis objects :
  forall k v, In k ["record"; "table"] ->
              dict_lookup answer k = Some v -> is_dict v = true.
Hypothesis arrays :
  forall k v, In k ["records"; "tables"; "bases"; "comments"] ->
              dict_lookup answer k = Some v -> is_list v = true.
Hypothesis upstream_answers : forall req, requests_send req = HttpOk (PyDict answer).

Lemma reaching_request {B} (Q : B -> Prop) (req : Request) (f : pyval -> M B) :
  (forall p, exists a, f (PyDict answer) p = (Return a, p) /\ Q a) ->
  reaching Q (bind (AirtableClient_request req) f).
Proof.
  intros H p o p' E. unfold bind, AirtableClient_request in E.
  rewrite upstream_answers in E.
  destruct (H (log_request req p)) as (a & Ha & HQ).
  rewrite Ha in E. inversion E; subst. right. exists a; split; [reflexivity | exact HQ].
Qed.

(** Reads the answer as the tool does, one key at a time. *)
Ltac read_answer :=
  intros ?p; unfold bind, ret; cbn [py_get py_len];
  repeat match goal with
         | |- context [dict_lookup answer ?k] =>
             let v := fresh "v" in
             let E := fresh "E" in
             destruct (dict_lookup answer k) as [v |] eqn:E;
             [ try (pose proof (objects k v ltac:(cbn; auto 10) E);
                    destruct v; try discriminate)
             | ];
             [ try (pose proof (arrays k v ltac:(cbn; auto 10) E);
                    destruct v; try discriminate)
             | ];
             cbn [py_get py_len]
         end;
  eexists; (split; [reflexivity | repeat split; discriminate]).

Ltac walk_reaching :=
  repeat first
    [ apply reaching_stateless; apply stateless_ret
    | to_request; apply reaching_request; read_answer
    | apply reaching_bind; [apply quiet_get_airtable_client | intros]
    | match goal with
      | |- reaching _ (if ?b then _ else _) => destruct b
      | |- reaching _ (match ?x with _ => _ end) => destruct x
      end ].

Lemma tools_reach_success (c : tool_call) :
  is_create_base c = false -> reaching succeeded (invoke c).
Proof.
  destruct c; cbn [invoke is_create_base]; intros Hc; try discriminate Hc;
    clear Hc.
  all: match goal with
       | |- reaching _ ?tool =>
           let h := eval cbv beta delta
                      [airtable_create_comment airtable_create_field
                       airtable_create_multiple_records airtable_create_record
                       airtable_create_table airtable_get_base_schema
                       airtable_get_record airtable_get_user_info
                       airtable_list_bases airtable_list_comments
                       airtable_delete_record airtable_delete_multiple_records
                       airtable_delete_comment airtable_update_record
                       airtable_update_multiple_records airtable_list_records]
                      in tool in
           change tool with h
       end;
    (apply reaching_try; [| apply stateless_except_Exception]);
    walk_reaching.
Qed.

(** X22.  Against an upstream that answers every request with 200 and a
    well-formed object, a tool call that reaches the network returns a
    successful envelope: [successful] true, an empty [error] and
    populated [data].  Validation and the client lookup are then the
    only sources of failure. *)
Theorem answered_calls_succeed (c : tool_call) (p p' : process)
    (o : outcome Envelope) :
  invoke c p = (o, p') ->
  network_log p' <> network_log p ->
  exists e,
    o = Return e /\ successful e = true /\ error e = EmptyString
    /\ data e <> [].
Proof.
  intros E Hlog.
  destruct (is_create_base c) eqn:Hc.
  - exfalso. apply Hlog. destruct c; try discriminate Hc.
    eapply create_base_is_quiet; exact E.
  - destruct (tools_reach_success c Hc _ _ _ E) as [H | (e & He & Hs)];
      [contradiction |].
    exists e. split; [exact He | exact Hs].
Qed.

End WellFormedAnswer.

(* ------------------------------------------------------------------ *)
(** *** One call, one request *)

(** X23.  Every network method of [AirtableClient] performs exactly one HTTP
    call, the one built from its arguments, whatever the outcome of that
    call: nothing is retried and nothing else in the process changes.
    A 200 answer is returned as decoded, without inspection; an
    exception that is neither an [HTTPError] nor a [RequestException]
    passes through unchanged. *)
Theorem client_methods_send_once (self : AirtableClient) (c : client_call)
    (p : process) :
  snd (client_invoke self c p) = log_request (request_of self c) p
  /\ (forall body,
        requests_send (request_of self c) = HttpOk body ->
        fst (client_invoke self c p) = Return body)
  /\ (forall e,
        requests_send (request_of self c) = Escapes e ->
        fst (client_invoke self c p) = Raise e).
Proof.
  destruct c; cbn [client_invoke request_of]; to_request;
    (split; [apply request_logs |]);
    (split; intros x H; unfold AirtableClient_request; rewrite H; reflexivity).
Qed.

(* ------------------------------------------------------------------ *)
(** *** Where the client lookup stands *)

Lemma lookup_outcome (p : process) :
  (forall cl p1,
      get_airtable_client p = (Return cl, p1) ->
      network_log p1 = network_log p /\ client_available p = true)
  /\ (forall e p1,
         get_airtable_client p = (Raise e, p1) ->
         p1 = p /\ client_available p = false
         /\ e = ValueError "AIRTABLE_API_KEY environment variable is required").
Proof.
  unfold get_airtable_client, client_available.
  destruct (airtable_client p) as [c |].
  - split; intros x p1 E; inversion E; subst; auto.
  - destruct (environ_AIRTABLE_API_KEY p) as [k |].
    + destruct (Str.truthy k); split; intros x p1 E; inversion E; subst; auto.
    + split; intros x p1 E; inversion E; subst; auto.
Qed.

Lemma log_grows (req : Request) (l : list Request) : l <> req :: l.
Proof.
  intros H. apply (f_equal (@length Request)) in H. cbn in H. lia.
Qed.

Lemma unchanged_stateless {A} (m : M A) : stateless m -> unchanged_or_sent m.
Proof.
  intros H p o p' E. left. pose proof (H p) as Hs. rewrite E in Hs.
  exact Hs.
Qed.

Lemma unchanged_sends {A} (m : M A) : always_sends m -> unchanged_or_sent m.
Proof. intros H p o p' E. right. exact (H p o p' E). Qed.

Lemma always_sends_request {B} (req : Request) (g : pyval -> M B) :
  (forall a, stateless (g a)) -> always_sends (bind (AirtableClient_request req) g).
Proof.
  intros Hg p o p' E. exists req.
  pose proof (snd_bind_stateless (AirtableClient_request req) g p Hg) as Hs.
  rewrite E, request_logs in Hs. cbn in Hs. subst p'. reflexivity.
Qed.

Lemma unchanged_lookup {B} (f : AirtableClient -> M B) :
  (forall cl, always_sends (f cl)) -> unchanged_or_sent (bind get_airtable_client f).
Proof.
  intros Hf p o p' E. unfold bind in E.
  destruct (get_airtable_client p) as [[cl | e] p1] eqn:Eg.
  - destruct (proj1 (lookup_outcome p) cl p1 Eg) as [Hlog _].
    destruct (Hf cl p1 o p' E) as [req Hreq].
    right. exists req. rewrite Hreq, Hlog. reflexivity.
  - destruct (proj2 (lookup_outcome p) e p1 Eg) as [-> _].
    inversion E; subst. left; reflexivity.
Qed.

Lemma unchanged_try {A} (body : M A) (h : exn -> M A) :
  unchanged_or_sent body -> (forall e, stateless (h e)) ->
  unchanged_or_sent (try_except body h).
Proof.
  intros Hb Hh p o p' E. unfold try_except in E.
  destruct (body p) as [[a | e] p1] eqn:Eb.
  - inversion E; subst. exact (Hb _ _ _ Eb).
  - pose proof (Hh e p1) as Hs. rewrite E in Hs; cbn in Hs; subst p'.
    exact (Hb _ _ _ Eb).
Qed.

Ltac walk_unchanged :=
  repeat first
    [ apply unchanged_stateless; apply stateless_ret
    | apply unchanged_lookup; intros; to_request; apply always_sends_request;
      stateless_tail
    | apply unchanged_sends; to_request; apply always_sends_request;
      stateless_tail
    | match goal with
      | |- unchanged_or_sent (if ?b then _ else _) => destruct b
      | |- unchanged_or_sent (match ?x with _ => _ end) => destruct x
      end ].

(** The tools that do all their checking before the lookup: a run that
    issues no request has not touched the process. *)
Lemma lookup_comes_last (c : tool_call) :
  looks_up_before_decoding c = false -> unchanged_or_sent (invoke c).
Proof.
  destruct c; cbn [invoke looks_up_before_decoding]; intros Hc;
    try discriminate Hc; clear Hc.
  all: match goal with
       | |- unchanged_or_sent ?tool =>
           let h := eval cbv beta delta
                      [airtable_create_comment airtable_create_field
                       airtable_create_multiple_records airtable_create_record
                       airtable_create_table airtable_get_base_schema
                       airtable_get_record airtable_get_user_info
                       airtable_list_bases airtable_list_comments
                       airtable_delete_record airtable_delete_multiple_records
                       airtable_delete_comment airtable_update_record
                       airtable_update_multiple_records]
                      in tool in
           change tool with h
       end;
    (apply unchanged_try; [| apply stateless_except_Exception]);
    walk_unchanged.
Qed.

(** A tool that looks the client up and then goes on checking: a run
    that issues no request ends in the state the lookup left. *)
Lemma lookup_comes_first (K : AirtableClient -> M Envelope) (p : process)
    (o : outcome Envelope) (p' : process) :
  (forall cl, unchanged_or_sent (K cl)) ->
  try_except (bind get_airtable_client K) except_Exception p = (o, p') ->
  (client_available p = false -> o = Return lookup_failure /\ p' = p)
  /\ (network_log p' = network_log p -> p' = snd (get_airtable_client p)).
Proof.
  intros HK E. unfold try_except, bind in E.
  destruct (get_airtable_client p) as [[cl | e] p1] eqn:Eg.
  - destruct (proj1 (lookup_outcome p) cl p1 Eg) as [Hlog Hav].
    split; [intros H; congruence |]. intros Hsame. cbn [snd].
    destruct (K cl p1) as [[a | e] p2] eqn:Ek.
    + inversion E; subst.
      destruct (HK cl p1 _ _ Ek) as [H | [req H]]; [exact H |].
      exfalso. rewrite Hsame, <- Hlog in H. exact (log_grows req _ H).
    + pose proof (stateless_except_Exception e p2) as Hs.
      rewrite E in Hs; cbn in Hs; subst p'.
      destruct (HK cl p1 _ _ Ek) as [H | [req H]]; [exact H |].
      exfalso. rewrite Hsame, <- Hlog in H. exact (log_grows req _ H).
  - destruct (proj2 (lookup_outcome p) e p1 Eg) as (-> & _ & ->).
    cbn in E. inversion E; subst. split; [intros _; split; reflexivity | reflexivity].
Qed.

Lemma first_blank_leaves_process (c : tool_call) (p : process)
    (r : required_param) :
  is_create_base c = false ->
  first_blank (required_parameters c) = Some r ->
  invoke c p = (Return (failure (rp_message r)), p).
Proof.
  intros Hc H.
  destruct c; try discriminate Hc;
    cbn [required_parameters first_blank rp rp_value] in H; cbn [invoke].
  all: blank_cases H;
    match goal with
    | |- ?tool = _ =>
        let h := eval cbv beta delta
                   [airtable_create_comment airtable_create_field
                    airtable_create_multiple_records airtable_create_record
                    airtable_create_table airtable_get_base_schema
                    airtable_get_record airtable_list_comments
                    airtable_delete_record airtable_delete_multiple_records
                    airtable_delete_comment airtable_update_record
                    airtable_update_multiple_records airtable_list_records
                    try_except] in tool in
        change tool with h
    end;
    use_blanks; reflexivity.
Qed.

Lemma create_base_ends_where_lookup_does (name tables workspace_id : string)
    (p : process) :
  snd (airtable_create_base name tables workspace_id p)
  = snd (get_airtable_client p).
Proof.
  unfold airtable_create_base.
  rewrite snd_try_stateless by apply stateless_create_base_handler.
  apply snd_bind_stateless. intros cl.
  repeat first
    [ apply stateless_ret
    | apply stateless_bind;
      [ first [ apply stateless_py_get
              | unfold AirtableClient_create_base; apply stateless_ret ]
      | intros ]
    | match goal with
      | |- stateless (if ?b then _ else _) => destruct b
      | |- stateless (match ?x with _ => _ end) => destruct x
      end ].
Qed.

(** C10, as the code has it.  [airtable_create_base] looks the client up
    before it validates anything: for every input and every state its
    run ends in the state the lookup leaves (so a client is created when
    a credential is configured, even if the input is then refused); when
    the lookup fails its error is the answer, blank parameters or not;
    when it succeeds a blank required parameter is answered with its
    message.  Every other tool checks its required strings before the
    lookup: a blank one is answered with its message and the process is
    untouched.  The tools other than [airtable_create_base] and
    [airtable_list_records] do all their checking before the lookup: a
    run of theirs that issues no request has not touched the process.
    [airtable_list_records], past its two required strings, looks the
    client up before it decodes its JSON parameters: a run that issues
    no request ends in the state the lookup leaves, and a failed lookup
    is the answer whatever the JSON parameters hold. *)
Theorem create_base_looks_up_first (p : process) :
  (forall name tables workspace_id,
      snd (airtable_create_base name tables workspace_id p)
      = snd (get_airtable_client p)
      /\ (client_available p = false ->
          airtable_create_base name tables workspace_id p
          = (Return lookup_failure, p))
      /\ (client_available p = true ->
          forall r,
            first_blank (required_parameters
                           (Create_base name tables workspace_id)) = Some r ->
            fst (airtable_create_base name tables workspace_id p)
            = Return (failure (rp_message r))))
  /\ (forall c r,
         is_create_base c = false ->
         first_blank (required_parameters c) = Some r ->
         invoke c p = (Return (failure (rp_message r)), p))
  /\ (forall c o p',
         looks_up_before_decoding c = false ->
         invoke c p = (o, p') ->
         network_log p' = network_log p -> p' = p)
  /\ (forall base_id table_id_or_name cell_format fields filter_by_formula
             max_records offset page_size record_metadata
             return_fields_by_field_id sort time_zone user_locale view o p',
         Str.blank base_id = false -> Str.blank table_id_or_name = false ->
         airtable_list_records base_id table_id_or_name cell_format fields
           filter_by_formula max_records offset page_size record_metadata
           return_fields_by_field_id sort time_zone user_locale view p
         = (o, p') ->
         (client_available p = false -> o = Return lookup_failure /\ p' = p)
         /\ (network_log p' = network_log p -> p' = snd (get_airtable_client p))).
Proof.
  split; [| split; [| split]].
  - intros name tables workspace_id.
    split; [apply create_base_ends_where_lookup_does |]. split.
    + intros Hm. unfold airtable_create_base, try_except, bind.
      rewrite (get_airtable_client_missing p Hm). reflexivity.
    + intros Hav r Hr.
      destruct (first_blank_decides (Create_base name tables workspace_id) p r Hr
                  (fun _ => Hav)) as (p' & Hrun & _).
      cbn [invoke] in Hrun. rewrite Hrun. reflexivity.
  - intros c r Hc Hr. exact (first_blank_leaves_process c p r Hc Hr).
  - intros c o p' Hc E Hlog.
    destruct (lookup_comes_last c Hc p o p' E) as [H | [req H]]; [exact H |].
    exfalso. rewrite Hlog in H. exact (log_grows req _ H).
  - intros base_id table_id_or_name cell_format fields filter_by_formula
      max_records offset page_size record_metadata return_fields_by_field_id
      sort time_zone user_locale view o p' B1 B2 E.
    unfold airtable_list_records in E. rewrite B1, B2 in E.
    revert E. apply lookup_comes_first. intros cl. walk_unchanged.
Qed.

End Program.

(* ------------------------------------------------------------------ *)
(** ** The scenarios, run *)

Import Scenario.

(** C1.  The dispatch on the kind of the error is missing from the
    network tools.  [airtable_create_comment] with a credential
    configured, against an upstream that answers 401 with the body
    [{error: {type: INVALID_API_KEY, message: bad key}}], issues its
    request and returns the generic [Unexpected error: ...] envelope:
    the error names INVALID_API_KEY but not AIRTABLE_API_KEY.  The
    handler of [airtable_create_base], given that very error, returns
    the message that asks to check AIRTABLE_API_KEY. *)
Lemma create_comment_invalid_key_is_generic :
  fst (airtable_create_comment repr unauthorized "app1" "rec1" "T" "hi" configured)
  = Return (failure "Unexpected error: Airtable API Error (INVALID_API_KEY): bad key")
  /\ length (network_log
               (snd (airtable_create_comment repr unauthorized
                       "app1" "rec1" "T" "hi" configured))) = 1
  /\ Str.contains "INVALID_API_KEY"
       "Unexpected error: Airtable API Error (INVALID_API_KEY): bad key" = true
  /\ Str.contains "AIRTABLE_API_KEY"
       "Unexpected error: Airtable API Error (INVALID_API_KEY): bad key" = false
  /\ fst (create_base_handler repr invalid_key_error configured)
     = Return (failure invalid_key_canned_message)
  /\ Str.contains "INVALID_API_KEY" invalid_key_canned_message = true
  /\ Str.contains "Please check your AIRTABLE_API_KEY" invalid_key_canned_message
     = true.
Proof. repeat split; vm_compute; reflexivity. Qed.

(** [invalid_api_key_envelope] on a comment creation against the 401
    upstream. *)
Lemma invalid_api_key_envelope_witness :
  fst (invoke loads hash repr unauthorized
         (Create_comment "app1" "rec1" "T" "hi") configured)
  = Return (failure invalid_key_generic_message).
Proof.
  refine (proj2
            (proj1 (proj2 (invalid_api_key_envelope loads hash repr unauthorized
                             (fun req => ex_intro _ _ eq_refl)))
               (Create_comment "app1" "rec1" "T" "hi") configured _ _
               (surjective_pairing _) _)).
  vm_compute. discriminate.
Defined.


(** [airtable_create_base] with a blank name and no credential: the
    envelope reports the failed lookup, not the blank parameter.  And when
    two required parameters of a tool are blank, the message is that of
    the one checked first. *)
Lemma create_base_blank_name_without_credential :
  Str.blank "  " = true
  /\ airtable_create_base loads hash repr "  " one_table_text "wsp123" unconfigured
     = (Return (failure "Unexpected error: AIRTABLE_API_KEY environment variable is required"),
        unconfigured)
  /\ String.eqb "Unexpected error: AIRTABLE_API_KEY environment variable is required"
       "Base name is required" = false
  /\ Str.contains "name"
       "Unexpected error: AIRTABLE_API_KEY environment variable is required" = false
  /\ airtable_create_comment repr answering "  " "  " "T" "hi" configured
     = (Return (failure "Base ID is required"), configured).
Proof. repeat split; vm_compute; reflexivity. Qed.

(** [blank_required_parameter] on a base creation with a blank name, the
    credential being configured. *)
Lemma blank_required_parameter_witness :
  exists r p',
    In r (required_parameters (Create_base "  " one_table_text "wsp123"))
    /\ Str.blank (rp_value r) = true
    /\ invoke loads hash repr answering
         (Create_base "  " one_table_text "wsp123") configured
       = (Return (failure (rp_message r)), p')
    /\ network_log p' = network_log configured.
Proof.
  apply (blank_required_parameter loads hash repr answering
           (Create_base "  " one_table_text "wsp123") configured).
  - exists (rp "name" "  " "Base name is required").
    split; [left; reflexivity | reflexivity].
  - intros _; reflexivity.
Defined.

(** Text that [json.loads] refuses, given to the two tools that look the
    client up before decoding, with no credential: the envelope reports
    the failed lookup, not the decoder's message.  The guards that come
    before the decoding answer first as well: a blank required string, a
    blank JSON string, and an earlier JSON parameter of the wrong
    shape. *)
Lemma invalid_json_without_credential :
  loads "{bad"
  = JSONDecodeError "Expecting property name enclosed in double quotes: line 1 column 2 (char 1)"
  /\ fst (airtable_list_records loads repr answering "app1" "T" "json" "{bad"
            EmptyString 0 EmptyString 100 EmptyString false EmptyString "utc"
            EmptyString EmptyString unconfigured)
     = Return (failure "Unexpected error: AIRTABLE_API_KEY environment variable is required")
  /\ fst (airtable_create_base loads hash repr "Test" "{bad" "wsp123" unconfigured)
     = Return (failure "Unexpected error: AIRTABLE_API_KEY environment variable is required")
  /\ Str.contains "Invalid JSON format"
       "Unexpected error: AIRTABLE_API_KEY environment variable is required" = false
  /\ fst (airtable_create_record loads repr answering "  " "T" "{bad" configured)
     = Return (failure "Base ID is required")
  /\ loads EmptyString = JSONDecodeError "Expecting value: line 1 column 1 (char 0)"
  /\ fst (airtable_create_record loads repr answering "app1" "T" EmptyString configured)
     = Return (failure "Fields data is required")
  /\ fst (airtable_list_records loads repr answering "app1" "T" "json" "{}"
            EmptyString 0 EmptyString 100 EmptyString false "{bad" "utc"
            EmptyString EmptyString configured)
     = Return (failure "Fields must be a JSON array").
Proof. repeat split; vm_compute; reflexivity. Qed.

(** [json_parameter_rejected] on a record creation: refused text, then an
    array where an object is expected. *)
Lemma json_parameter_rejected_witness :
  (exists p',
      invoke loads hash repr answering (Create_record "app1" "T" "{bad") unconfigured
      = (Return (failure "Invalid JSON format for fields parameter: Expecting property name enclosed in double quotes: line 1 column 2 (char 1)"), p')
      /\ network_log p' = network_log unconfigured)
  /\ (exists p',
         invoke loads hash repr answering (Create_record "app1" "T" "[]") unconfigured
         = (Return (failure "Fields must be a JSON object"), p')
         /\ network_log p' = network_log unconfigured).
Proof.
  split.
  - apply (proj1 (json_parameter_rejected loads hash repr answering
                    (Create_record "app1" "T" "{bad") unconfigured []  []
                    (jp "fields" "{bad" false Object "Fields must be a JSON object")
                    eq_refl eq_refl eq_refl eq_refl
                    (fun H => False_ind _ (Bool.diff_false_true H)))).
    reflexivity.
  - apply (proj2 (json_parameter_rejected loads hash repr answering
                    (Create_record "app1" "T" "[]") unconfigured []  []
                    (jp "fields" "[]" false Object "Fields must be a JSON object")
                    eq_refl eq_refl eq_refl eq_refl
                    (fun H => False_ind _ (Bool.diff_false_true H)))
             (PyList [])); reflexivity.
Defined.

(** A list holding one record id that is non-empty but only whitespace:
    [airtable_delete_multiple_records] rejects it and issues no
    request. *)
Lemma whitespace_record_id_is_rejected :
  loads (array_text [" "]) = Decoded (PyList [PyStr " "])
  /\ String.length " " = 1
  /\ airtable_delete_multiple_records loads repr answering "app1" "T"
       (array_text [" "]) configured
     = (Return (failure "Record ID at index 0 must be a non-empty string"),
        configured).
Proof. repeat split; vm_compute; reflexivity. Qed.

(** [delete_multiple_records_bounds] on eleven ids, no id, ten ids and one
    id. *)
Lemma delete_multiple_records_bounds_witness :
  (exists e,
      airtable_delete_multiple_records loads repr answering "app1" "T"
        "[1,2,3,4,5,6,7,8,9,10,11]" configured
      = (Return e, configured)
      /\ successful e = false)
  /\ (exists e,
         airtable_delete_multiple_records loads repr answering "app1" "T"
           "[]" configured
         = (Return e, configured)
         /\ successful e = false)
  /\ (exists client p1,
         get_airtable_client configured = (Return client, p1)
         /\ network_log
              (snd (airtable_delete_multiple_records loads repr answering
                      "app1" "T" (array_text ten_ids) configured))
            = delete_multiple_records_request repr client (Str.strip "app1")
                (Str.strip "T") (map PyStr ten_ids)
              :: network_log configured)
  /\ (exists client p1,
         get_airtable_client configured = (Return client, p1)
         /\ network_log
              (snd (airtable_delete_multiple_records loads repr answering
                      "app1" "T" (array_text ["rec1"]) configured))
            = delete_multiple_records_request repr client (Str.strip "app1")
                (Str.strip "T") [PyStr "rec1"]
              :: network_log configured).
Proof.
  pose proof (delete_multiple_records_bounds loads repr answering) as [Hreject Haccept].
  split; [| split; [| split]].
  - apply (Hreject "app1" "T" "[1,2,3,4,5,6,7,8,9,10,11]"
             (map PyInt [1; 2; 3; 4; 5; 6; 7; 8; 9; 10; 11]%Z) configured eq_refl).
    right. cbn. lia.
  - apply (Hreject "app1" "T" "[]" [] configured eq_refl). left; reflexivity.
  - apply (Haccept "app1" "T" (array_text ten_ids) (map PyStr ten_ids) configured);
      try reflexivity.
    + cbn; lia.
    + intros x Hx. cbn in Hx.
      repeat (destruct Hx as [<- | Hx];
              [eexists; split; [reflexivity | vm_compute; discriminate] |]).
      destruct Hx.
  - apply (Haccept "app1" "T" (array_text ["rec1"]) [PyStr "rec1"] configured);
      try reflexivity.
    + cbn; lia.
    + intros x [<- | []]. eexists; split; [reflexivity | vm_compute; discriminate].
Defined.

(** [airtable_create_base] on fully valid input with no credential: the
    data is empty, so there is no [message] in it. *)
Lemma create_base_valid_input_without_credential :
  airtable_create_base loads hash repr "Test" one_table_text "wsp123" unconfigured
  = (Return (failure "Unexpected error: AIRTABLE_API_KEY environment variable is required"),
     unconfigured)
  /\ dict_lookup
       (data (failure "Unexpected error: AIRTABLE_API_KEY environment variable is required"))
       "message" = None.
Proof. split; vm_compute; reflexivity. Qed.

(** [create_base_is_placeholder] on one valid table, the credential being
    configured. *)
Lemma create_base_is_placeholder_witness :
  exists e p',
    airtable_create_base loads hash repr "Test" one_table_text "wsp123" configured
    = (Return e, p')
    /\ successful e = false
    /\ error e = EmptyString
    /\ network_log p' = network_log configured
    /\ dict_lookup (data e) "status" = Some (PyStr "configuration_validated")
    /\ dict_lookup (data e) "tables_count" = Some (PyInt 1)
    /\ dict_lookup (data e) "message" = Some (PyStr base_creation_message)
    /\ Str.contains "does not support programmatic base creation"
         base_creation_message = true
    /\ Str.contains "manually create the base" base_creation_message = true.
Proof.
  refine (proj2 (create_base_is_placeholder loads hash repr
                   "Test" one_table_text "wsp123"
                   [PyDict [("name", PyStr "T"); ("fields", PyList [])]]
                   configured eq_refl eq_refl eq_refl eq_refl _) eq_refl).
  intros x [<- | []]. eexists; split; [reflexivity | split; reflexivity].
Defined.

(** [transport_failure_is_network_error] on a record deletion with the
    upstream out of reach. *)
Lemma transport_failure_is_network_error_witness :
  client_invoke repr unreachable (AirtableClient_init "patTEST")
    (Call_delete_record "app1" "T" "rec1") ready
  = (Raise (AirtableAPIError (PyStr "network_error")
              (PyStr "Network error: Connection refused") 0),
     log_request
       (request_of repr (AirtableClient_init "patTEST")
          (Call_delete_record "app1" "T" "rec1")) ready).
Proof.
  exact (transport_failure_is_network_error repr unreachable
           (AirtableClient_init "patTEST") (Call_delete_record "app1" "T" "rec1")
           ready "Connection refused" eq_refl).
Defined.

(** A list with two entries to refuse, at indices 1 and 2: the index
    cited is 1, that of the first, whichever of them is pointed at; and
    with no credential [airtable_create_base] cites no index at all. *)
Lemma later_offender_is_not_cited :
  nth_error mixed_fields 2 = Some (PyInt 7)
  /\ lacks_key ["name"; "type"] (PyInt 7)
  /\ airtable_create_table loads_mixed repr answering "app1" "Tasks"
       mixed_fields_text EmptyString unconfigured
     = (Return (failure "Field at index 1 must have 'name' and 'type' properties"),
        unconfigured)
  /\ Str.contains "index 2"
       "Field at index 1 must have 'name' and 'type' properties" = false
  /\ nth_error mixed_tables 2 = Some (PyInt 7)
  /\ lacks_key ["name"; "fields"] (PyInt 7)
  /\ airtable_create_base loads_mixed hash repr "Test" mixed_tables_text "wsp123"
       configured
     = (Return (failure "Table at index 1 must have 'name' and 'fields' properties"),
        ready)
  /\ airtable_create_base loads_mixed hash repr "Test" mixed_tables_text "wsp123"
       unconfigured
     = (Return (failure "Unexpected error: AIRTABLE_API_KEY environment variable is required"),
        unconfigured)
  /\ Str.contains "index"
       "Unexpected error: AIRTABLE_API_KEY environment variable is required" = false.
Proof.
  split; [reflexivity |]. split; [exact I |].
  split; [vm_compute; reflexivity |]. split; [vm_compute; reflexivity |].
  split; [reflexivity |]. split; [exact I |].
  repeat split; vm_compute; reflexivity.
Qed.

(** [structure_check_cites_index] on the lists with two entries to
    refuse, pointing at the later one: the index cited is 1. *)
Lemma structure_check_cites_index_witness :
  (exists i x,
      nth_error mixed_fields i = Some x
      /\ lacks_key ["name"; "type"] x
      /\ (forall k y, k < i -> nth_error mixed_fields k = Some y ->
            ~ lacks_key ["name"; "type"] y)
      /\ airtable_create_table loads_mixed repr answering "app1" "Tasks"
           mixed_fields_text EmptyString unconfigured
         = (Return (failure ("Field at index " ++ Str.of_nat i
                               ++ " must have 'name' and 'type' properties")),
            unconfigured)
      /\ i = 1)
  /\ (exists i x p',
         nth_error mixed_tables i = Some x
         /\ lacks_key ["name"; "fields"] x
         /\ (forall k y, k < i -> nth_error mixed_tables k = Some y ->
               ~ lacks_key ["name"; "fields"] y)
         /\ airtable_create_base loads_mixed hash repr "Test" mixed_tables_text
              "wsp123" configured
            = (Return (failure ("Table at index " ++ Str.of_nat i
                                  ++ " must have 'name' and 'fields' properties")),
               p')
         /\ network_log p' = network_log configured
         /\ i = 1).
Proof.
  pose proof (structure_check_cites_index loads_mixed hash repr answering)
    as [Htable Hbase].
  split.
  - destruct (Htable "app1" "Tasks" mixed_fields_text EmptyString mixed_fields
                unconfigured eq_refl eq_refl eq_refl eq_refl)
      as (i & x & Hn & Hbad & Hfirst & Hrun).
    { exists (PyInt 7). split; [right; right; left; reflexivity | exact I]. }
    exists i, x. repeat (split; [assumption |]).
    destruct i as [| [| [| i]]].
    + exfalso. inversion Hn; subst x. destruct Hbad as (k & [<- | [<- | []]] & H);
        discriminate H.
    + reflexivity.
    + exfalso. apply (Hfirst 1 (PyDict [])); [lia | reflexivity |].
      exists "name". split; [left; reflexivity | reflexivity].
    + destruct i; discriminate Hn.
  - destruct (Hbase "Test" mixed_tables_text "wsp123" mixed_tables configured
                eq_refl eq_refl eq_refl eq_refl eq_refl)
      as (i & x & p' & Hn & Hbad & Hfirst & Hrun & Hlog).
    { exists (PyInt 7). split; [right; right; left; reflexivity | exact I]. }
    exists i, x, p'. repeat (split; [assumption |]).
    destruct i as [| [| [| i]]].
    + exfalso. inversion Hn; subst x. destruct Hbad as (k & [<- | [<- | []]] & H);
        discriminate H.
    + reflexivity.
    + exfalso. apply (Hfirst 1 (PyDict [])); [lia | reflexivity |].
      exists "name". split; [left; reflexivity | reflexivity].
    + destruct i; discriminate Hn.
Defined.

(** The [requests] call is interrupted from the keyboard:
    [except Exception] does not catch it and the tool raises. *)
Lemma get_user_info_interrupted :
  fst (airtable_get_user_info repr interrupted configured)
  = Raise (BaseExceptionOther "KeyboardInterrupt")
  /\ is_Exception (BaseExceptionOther "KeyboardInterrupt") = false.
Proof. split; vm_compute; reflexivity. Qed.

(** [tools_return_envelopes] on a record lookup whose response cannot be
    decoded. *)
Lemma tools_return_envelopes_witness :
  exists p',
    invoke loads hash repr garbled (Get_record "app1" "T" "rec1" "json" false)
      configured
    = (Return (failure "Unexpected error: Expecting value: line 1 column 1 (char 0)"),
       p').
Proof.
  assert (Hyp : forall req e, garbled req = Escapes e -> is_Exception e = true).
  { intros req e H. inversion H. reflexivity. }
  destruct (tools_return_envelopes loads hash repr garbled Hyp
              (Get_record "app1" "T" "rec1" "json" false) configured)
    as (e & p' & H).
  exists p'. rewrite H. f_equal. f_equal.
  vm_compute in H. inversion H. reflexivity.
Defined.


(* ------------------------------------------------------------------ *)
(** ** Further scenarios *)

(** [client_is_created_once] on the first lookup of a configured
    process. *)
Lemma client_is_created_once_witness :
  airtable_client ready = Some (AirtableClient_init "patTEST")
  /\ network_log ready = network_log configured
  /\ environ_AIRTABLE_API_KEY ready = environ_AIRTABLE_API_KEY configured
  /\ (airtable_client configured = None ->
      exists k, environ_AIRTABLE_API_KEY configured = Some k
                /\ k <> EmptyString /\ AirtableClient_init "patTEST" = AirtableClient_init k)
  /\ forall q, airtable_client q = Some (AirtableClient_init "patTEST") ->
               get_airtable_client q = (Return (AirtableClient_init "patTEST"), q).
Proof.
  exact (proj1 (client_is_created_once configured)
           (AirtableClient_init "patTEST") ready eq_refl).
Defined.

(** [http_error_is_normalised] on a record deletion answered by the
    403. *)
Lemma http_error_is_normalised_witness :
  client_invoke repr forbidden (AirtableClient_init "patTEST")
    (Call_delete_record "app1" "T" "rec1") ready
  = (Raise (AirtableAPIError (PyStr "INVALID_PERMISSIONS_OR_MODEL_NOT_FOUND")
              (PyStr "Invalid permissions, or the requested model was not found.")
              403),
     log_request
       (request_of repr (AirtableClient_init "patTEST")
          (Call_delete_record "app1" "T" "rec1")) ready).
Proof.
  exact (proj1 (proj2 (proj2
           (http_error_is_normalised repr forbidden
              (AirtableClient_init "patTEST") (Call_delete_record "app1" "T" "rec1")
              ready 403 _ _ eq_refl)))
           _ _ eq_refl eq_refl).
Defined.

(** [one_request_per_call] on a successful listing of the bases. *)
Lemma one_request_per_call_witness :
  exists req,
    network_log (snd (invoke loads hash repr answering List_bases configured))
    = req :: network_log configured.
Proof.
  eapply (proj2 (one_request_per_call loads hash repr answering List_bases
                   configured _ _ (surjective_pairing _)));
    [vm_compute; reflexivity | reflexivity].
Defined.

(** [configuration_is_preserved] on a call answered by the 403. *)
Lemma configuration_is_preserved_witness :
  environ_AIRTABLE_API_KEY
    (snd (invoke loads hash repr forbidden (Get_base_schema "app1") ready))
  = environ_AIRTABLE_API_KEY ready
  /\ forall cl,
       airtable_client ready = Some cl ->
       airtable_client
         (snd (invoke loads hash repr forbidden (Get_base_schema "app1") ready))
       = Some cl.
Proof.
  exact (configuration_is_preserved loads hash repr forbidden
           (Get_base_schema "app1") ready _ _ (surjective_pairing _)).
Defined.

(** [tools_report_http_errors] on a schema lookup answered by the 403. *)
Lemma tools_report_http_errors_witness :
  fst (invoke loads hash repr forbidden (Get_base_schema "app1") configured)
  = Return (failure "Unexpected error: Airtable API Error (INVALID_PERMISSIONS_OR_MODEL_NOT_FOUND): Invalid permissions, or the requested model was not found.").
Proof.
  refine (tools_report_http_errors loads hash repr forbidden 403
            [("error",
              PyDict [("type", PyStr "INVALID_PERMISSIONS_OR_MODEL_NOT_FOUND");
                      ("message", PyStr "Invalid permissions, or the requested model was not found.")])]
            _ _ _ eq_refl eq_refl eq_refl
            (fun req => ex_intro _ _ eq_refl)
            (Get_base_schema "app1") configured _ _ (surjective_pairing _) _).
  vm_compute. discriminate.
Defined.

(** [tools_report_network_failure] on a user lookup with the upstream
    out of reach. *)
Lemma tools_report_network_failure_witness :
  fst (invoke loads hash repr unreachable Get_user_info configured)
  = Return (failure "Unexpected error: Airtable API Error (network_error): Network error: Connection refused").
Proof.
  refine (tools_report_network_failure loads hash repr unreachable
            "Connection refused" (fun req => eq_refl)
            Get_user_info configured _ _ (surjective_pairing _) _).
  vm_compute. discriminate.
Defined.

(** [tools_report_malformed_error_body] on a record lookup answered by
    the 404 whose error is a string. *)
Lemma tools_report_malformed_error_body_witness :
  fst (invoke loads hash repr not_found
         (Get_record "app1" "T" "rec1" "json" false) configured)
  = Return (failure "Unexpected error: 'str' object has no attribute 'get'").
Proof.
  refine (tools_report_malformed_error_body loads hash repr not_found 404
            [("error", PyStr "NOT_FOUND")] (PyStr "NOT_FOUND") eq_refl eq_refl
            (fun req => ex_intro _ _ eq_refl)
            (Get_record "app1" "T" "rec1" "json" false) configured _ _
            (surjective_pairing _) _).
  vm_compute. discriminate.
Defined.

(** [non_object_response] on a listing of the bases answered by an
    array. *)
Lemma non_object_response_witness :
  fst (invoke loads hash repr listing List_bases configured)
  = Return (failure "Unexpected error: 'list' object has no attribute 'get'").
Proof.
  refine (non_object_response loads hash repr listing (PyList []) eq_refl
            (fun req => eq_refl) List_bases configured _ _
            (surjective_pairing _) _).
  vm_compute. discriminate.
Defined.

(** [create_multiple_records_cites_index] on a list whose only entry is
    the empty object. *)
Lemma create_multiple_records_cites_index_witness :
  exists i x,
    nth_error [PyDict []] i = Some x
    /\ lacks_key ["fields"] x
    /\ (forall k y, k < i -> nth_error [PyDict []] k = Some y ->
          ~ lacks_key ["fields"] y)
    /\ airtable_create_multiple_records loads repr answering "app1" "T" "[{}]"
         unconfigured
       = (Return (failure ("Record at index " ++ Str.of_nat i
                             ++ " must have 'fields' property")), unconfigured).
Proof.
  apply (create_multiple_records_cites_index loads hash repr answering
           "app1" "T" "[{}]" [PyDict []] unconfigured
           eq_refl eq_refl eq_refl eq_refl).
  exists (PyDict []). split; [left; reflexivity |].
  exists "fields". split; [left; reflexivity | reflexivity].
Defined.

(** [update_multiple_records_cites_index] on a list whose only entry is
    the empty object. *)
Lemma update_multiple_records_cites_index_witness :
  exists i x message,
    nth_error [PyDict []] i = Some x
    /\ lacks_key ["id"; "fields"] x
    /\ (forall k y, k < i -> nth_error [PyDict []] k = Some y ->
          ~ lacks_key ["id"; "fields"] y)
    /\ airtable_update_multiple_records loads repr answering "app1" "T" "[{}]"
         unconfigured
       = (Return (failure ("Record at index " ++ Str.of_nat i ++ message)),
          unconfigured)
    /\ (is_dict x = false -> message = " must be an object")
    /\ (forall d, x = PyDict d -> dict_mem "id" d = false ->
          message = " must have an 'id' field")
    /\ (forall d, x = PyDict d -> dict_mem "id" d = true ->
          message = " must have a 'fields' object").
Proof.
  apply (update_multiple_records_cites_index loads repr answering
           "app1" "T" "[{}]" [PyDict []] unconfigured
           eq_refl eq_refl eq_refl eq_refl).
  exists (PyDict []). split; [left; reflexivity |].
  exists "id". split; [left; reflexivity | reflexivity].
Defined.

(** [delete_multiple_records_cites_index] on a list whose only entry is
    a space. *)
Lemma delete_multiple_records_cites_index_witness :
  exists i x,
    nth_error [PyStr " "] i = Some x
    /\ not_a_record_id x
    /\ (forall k y, k < i -> nth_error [PyStr " "] k = Some y ->
          ~ not_a_record_id y)
    /\ airtable_delete_multiple_records loads repr answering "app1" "T"
         (array_text [" "]) unconfigured
       = (Return (failure ("Record ID at index " ++ Str.of_nat i
                             ++ " must be a non-empty string")), unconfigured).
Proof.
  apply (delete_multiple_records_cites_index loads hash repr answering
           "app1" "T" (array_text [" "]) [PyStr " "] unconfigured
           eq_refl eq_refl eq_refl eq_refl).
  - cbn; lia.
  - exists (PyStr " "). split; [left; reflexivity | reflexivity].
Defined.

(** [create_base_placeholder_id] on a name with surrounding spaces. *)
Lemma create_base_placeholder_id_witness :
  exists e p' n,
    airtable_create_base loads hash repr " Test " one_table_text " wsp123 "
      configured = (Return e, p')
    /\ n = (hash (Str.strip " Test ") mod 1000000)%Z
    /\ (0 <= n < 1000000)%Z
    /\ dict_lookup (data e) "base_id" = Some (PyStr ("app" ++ Str.of_Z n))
    /\ dict_lookup (data e) "base_name" = Some (PyStr (Str.strip " Test "))
    /\ dict_lookup (data e) "workspace_id" = Some (PyStr " wsp123 ")
    /\ dict_lookup (data e) "base"
       = Some (PyDict [("id", PyStr ("app" ++ Str.of_Z n));
                       ("name", PyStr (Str.strip " Test "));
                       ("permissionLevel", PyStr "create")]).
Proof.
  apply (create_base_placeholder_id loads hash repr
           " Test " one_table_text " wsp123 "
           [PyDict [("name", PyStr "T"); ("fields", PyList [])]]
           configured eq_refl eq_refl eq_refl eq_refl eq_refl).
  intros x [<- | []]. eexists; split; [reflexivity | split; reflexivity].
Defined.

(** [create_record_round_trip] on an empty record, answered by an object
    without [record]. *)
Lemma create_record_round_trip_witness :
  exists e,
    airtable_create_record loads repr answering " app1 " "T" "{}" configured
    = (Return e,
       log_request
         (create_record_request (AirtableClient_init "patTEST") "app1" "T" [])
         ready)
    /\ successful e = true
    /\ dict_lookup (data e) "base_id" = Some (PyStr " app1 ")
    /\ dict_lookup (data e) "record" = Some (PyDict [])
    /\ dict_lookup (data e) "record_id" = Some (PyStr EmptyString).
Proof.
  destruct (create_record_round_trip loads repr answering " app1 " "T" "{}"
              [] [("records", PyList [])] (AirtableClient_init "patTEST")
              configured ready eq_refl eq_refl eq_refl eq_refl eq_refl eq_refl)
    as (e & Hrun & Hs & _ & _ & _ & _ & _ & _ & Hnone & Hb & _).
  - intros v H; discriminate H.
  - exists e. destruct (Hnone eq_refl) as [Hr Hi].
    repeat split; assumption.
Defined.

(** [create_field_echoes_dropped_options] on a text field given a
    precision. *)
Lemma create_field_echoes_dropped_options_witness :
  exists e payload,
    airtable_create_field repr answering "app1" "tbl1" "Notes" "singleLineText"
      EmptyString (Some [("precision", PyInt 2)]) configured
    = (Return e,
       log_request
         (create_field_request (AirtableClient_init "patTEST") "app1" "tbl1"
            "Notes" "singleLineText" EmptyString [("precision", PyInt 2)])
         ready)
    /\ successful e = true
    /\ req_json
         (create_field_request (AirtableClient_init "patTEST") "app1" "tbl1"
            "Notes" "singleLineText" EmptyString [("precision", PyInt 2)])
       = Some (PyDict payload)
    /\ dict_lookup payload "type" = Some (PyStr "singleLineText")
    /\ dict_lookup payload "options" = None
    /\ dict_lookup (data e) "type" = Some (PyStr "singleLineText")
    /\ dict_lookup (data e) "options" = Some (PyDict [("precision", PyInt 2)]).
Proof.
  apply (create_field_echoes_dropped_options repr answering
           "app1" "tbl1" "Notes" "singleLineText" EmptyString
           (Some [("precision", PyInt 2)]) [("records", PyList [])]
           (AirtableClient_init "patTEST") configured ready
           eq_refl eq_refl eq_refl eq_refl).
  - intros H. cbn in H.
    repeat (destruct H as [H | H]; [discriminate H |]). exact H.
  - reflexivity.
Defined.

(** [list_records_defaults] on a call whose optional arguments are
    blank or at their defaults. *)
Lemma list_records_defaults_witness :
  network_log
    (snd (airtable_list_records loads repr answering "app1" "T" " json "
            EmptyString " " 0 EmptyString 100 EmptyString false "  " "utc"
            EmptyString EmptyString configured))
  = mk_request (AirtableClient_init "patTEST") GET
      (base_url (AirtableClient_init "patTEST") ++ "/" ++ Str.strip "app1" ++ "/"
         ++ Str.strip "T") [] None
    :: network_log ready.
Proof.
  apply (list_records_defaults loads repr answering "app1" "T" " json "
           EmptyString " " 0 EmptyString 100 EmptyString "  " "utc"
           EmptyString EmptyString (AirtableClient_init "patTEST")
           configured ready);
    solve [reflexivity | lia].
Defined.


(** [answered_calls_succeed] on a listing of records with every option
    at its default. *)
Lemma answered_calls_succeed_witness :
  exists e,
    fst (invoke loads hash repr answering
           (List_records "app1" "T" "json" EmptyString EmptyString 0
              EmptyString 100 EmptyString false EmptyString "utc"
              EmptyString EmptyString) configured)
    = Return e
    /\ successful e = true /\ error e = EmptyString /\ data e <> [].
Proof.
  refine (answered_calls_succeed loads hash repr answering
            [("records", PyList [])] _ _ (fun req => eq_refl)
            (List_records "app1" "T" "json" EmptyString EmptyString 0
               EmptyString 100 EmptyString false EmptyString "utc"
               EmptyString EmptyString) configured _ _
            (surjective_pairing _) _).
  - intros k v [<- | [<- | []]] H; discriminate H.
  - intros k v [<- | [<- | [<- | [<- | []]]]] H;
      try discriminate H; inversion H; reflexivity.
  - vm_compute. discriminate.
Defined.


(** [airtable_list_records] is another tool that looks the client up
    before it has validated all its inputs: an object given for [sort]
    is answered by the failed lookup when no credential is configured,
    and by the shape message only after a client has been created.
    [airtable_create_record], on a misshaped [fields], answers before
    any lookup. *)
Lemma list_records_looks_up_before_decoding :
  airtable_list_records loads repr answering "app1" "T" "json" EmptyString
    EmptyString 0 EmptyString 100 EmptyString false "{}" "utc" EmptyString
    EmptyString unconfigured
  = (Return (failure "Unexpected error: AIRTABLE_API_KEY environment variable is required"),
     unconfigured)
  /\ airtable_list_records loads repr answering "app1" "T" "json" EmptyString
       EmptyString 0 EmptyString 100 EmptyString false "{}" "utc" EmptyString
       EmptyString configured
     = (Return (failure "Sort must be a JSON array"), ready)
  /\ airtable_client configured = None
  /\ airtable_client ready = Some (AirtableClient_init "patTEST")
  /\ airtable_create_record loads repr answering "app1" "T" "[]" configured
     = (Return (failure "Fields must be a JSON object"), configured).
Proof. repeat split; vm_compute; reflexivity. Qed.

(** [create_base_looks_up_first] on a blank name: with a credential the
    client is created and the name is refused; without one the failed
    lookup is the answer.  A comment with a blank text is refused before
    any lookup. *)
Lemma create_base_looks_up_first_witness :
  airtable_create_base loads hash repr "  " one_table_text EmptyString configured
  = (Return (failure "Base name is required"), ready)
  /\ airtable_create_base loads hash repr "  " one_table_text EmptyString
       unconfigured
     = (Return lookup_failure, unconfigured)
  /\ invoke loads hash repr answering (Create_comment "app1" "rec1" "T" "  ")
       configured
     = (Return (failure "Comment text is required"), configured).
Proof.
  pose proof (create_base_looks_up_first loads hash repr answering configured)
    as [Hbase [Hblank _]].
  pose proof (create_base_looks_up_first loads hash repr answering unconfigured)
    as [Hbase' _].
  split; [| split].
  - destruct (Hbase "  " one_table_text EmptyString) as (Hs & _ & Hf).
    rewrite (surjective_pairing
               (airtable_create_base loads hash repr "  " one_table_text
                  EmptyString configured)).
    rewrite Hs, (Hf eq_refl _ eq_refl). reflexivity.
  - exact (proj1 (proj2 (Hbase' "  " one_table_text EmptyString)) eq_refl).
  - exact (Hblank (Create_comment "app1" "rec1" "T" "  ")
             (rp "text" "  " "Comment text is required") eq_refl eq_refl).
Defined.
